(** * AbbeyPynfordCRM: stage gates, deal collapsing and forecast aggregation

    A shallow embedding of the logic of three pages of the CRM:

    - [app/deals/detail/page.tsx]: the stage bar handler [handleStageClick],
      the gate confirmation handlers and [updateLeadField];
    - [app/dashboard/page.tsx]: [getDealWeight], [chooseBestDealForAp],
      [collapseDealsByAp], [getFinancialYearEnd], [fyTenderSummary] and
      [pipelineBuckets];
    - the second dashboard page (forecast view): [chooseBetterDealForForecast],
      [collapseDealsByAp] and [forecastBuckets].

    Conventions of the embedding.

    - A JavaScript [number] is a rational ([Q]); [NaN] is [None] of an
      [option Q] wherever the source can produce it.  IEEE rounding and the
      infinities are outside the model.
    - Strings are [string]; [trim], [toLowerCase] and [toUpperCase] act on
      the ASCII range.
    - An object literal used as a lookup table is an association list of its
      own keys.  The tables read under a key that comes from a deal
      ([STAGE_PRIORITY], [PROB_WEIGHTS], [STAGE_LABELS]) are read with
      [readKey], which finds the members inherited from [Object.prototype]
      as the property access of the source does; such a member is an object
      ([JsObject]) where the source expects a number or a string.  The
      answers bag and [MONTHLY_TARGETS] are only read under keys the code
      itself writes ([YYYY-MM] for the latter) and are read with [lookup].
    - A [Map] is an association list in insertion order; [set] on a present
      key replaces the value in place, as [Map.prototype.set] does.
    - The host functions [parseFloat], [Number], [new Date] and [toFixed],
      and the members of [Object.prototype], are the fields of the class
      [Builtins]; every definition and theorem is stated for an arbitrary
      instance.  [zoneBuiltins tz] is an executable instance for a host
      whose clock is [tz] minutes east of UTC, and [stdBuiltins] the one
      at UTC. *)

From Stdlib Require Import ZArith QArith Qabs Qround String Ascii List Bool Lia Lqa
  Permutation DecimalString.
From Stdlib Require Import Sorted.
Import ListNotations.

Local Open Scope string_scope.
Local Open Scope Z_scope.

(* ================================================================= *)
(** * Part I: definitions *)
(* ================================================================= *)

(** ** JavaScript values and host functions *)

Module Js.

(** Truthiness of a string: only the empty string is falsy. *)
Definition truthy (s : string) : bool := negb (s =? "")%string.

(** [x || ""] for [x : string | null]. *)
Definition orEmpty (x : option string) : string :=
  match x with
  | Some s => s
  | None => ""
  end.

(** Truthiness of [x : string | null]. *)
Definition truthyOpt (x : option string) : bool := truthy (orEmpty x).

Definition isSpace (c : ascii) : bool :=
  let n := N_of_ascii c in
  ((n =? 32) || (n =? 9) || (n =? 10) || (n =? 11) || (n =? 12) || (n =? 13))%N.

Fixpoint trimStart (s : string) : string :=
  match s with
  | String c r => if isSpace c then trimStart r else s
  | EmptyString => EmptyString
  end.

Fixpoint trimEnd (s : string) : string :=
  match s with
  | String c r =>
      let r' := trimEnd r in
      if isSpace c && (r' =? "")%string then EmptyString else String c r'
  | EmptyString => EmptyString
  end.

Definition trim (s : string) : string := trimEnd (trimStart s).

Definition lowerChar (c : ascii) : ascii :=
  let n := N_of_ascii c in
  if ((65 <=? n) && (n <=? 90))%N then ascii_of_N (n + 32) else c.

Definition upperChar (c : ascii) : ascii :=
  let n := N_of_ascii c in
  if ((97 <=? n) && (n <=? 122))%N then ascii_of_N (n - 32) else c.

Fixpoint mapChars (f : ascii -> ascii) (s : string) : string :=
  match s with
  | String c r => String (f c) (mapChars f r)
  | EmptyString => EmptyString
  end.

Definition toLowerCase : string -> string := mapChars lowerChar.
Definition toUpperCase : string -> string := mapChars upperChar.

(** [s.startsWith(p)]. *)
Definition startsWith (s p : string) : bool := String.prefix p s.

(** [String(n)] for an integer [n]. *)
Definition stringOfZ (n : Z) : string := NilZero.string_of_int (Z.to_int n).

(** [s.padStart(2, "0")]. *)
Definition padStart2 (s : string) : string :=
  match String.length s with
  | 0%nat => "00" ++ s
  | 1%nat => "0" ++ s
  | _ => s
  end.

(** [s.split(sep)] for a one-character separator. *)
Fixpoint splitOn (sep : ascii) (s : string) : list string :=
  match s with
  | EmptyString => [EmptyString]
  | String c r =>
      if Ascii.eqb c sep then EmptyString :: splitOn sep r
      else match splitOn sep r with
           | h :: t => String c h :: t
           | [] => [String c EmptyString]
           end
  end.

(** [xs.join(sep)]. *)
Fixpoint join (sep : string) (xs : list string) : string :=
  match xs with
  | [] => ""
  | [x] => x
  | x :: rest => x ++ sep ++ join sep rest
  end.

(** Lookup of an own key in an object literal. *)
Fixpoint lookup {A : Type} (k : string) (tbl : list (string * A)) : option A :=
  match tbl with
  | [] => None
  | (k', v) :: rest => if (k =? k')%string then Some v else lookup k rest
  end.

(** An object met where the source expects a number or a string: a member
    of [Object.prototype], found by reading a table under a key the table
    does not own.  The pages tell two of them apart by identity ([===],
    [Map] keys) and, where a primitive is needed, read one as the string it
    converts to. *)
Record JsObject : Type := mkObject {
  objectId : Z;
  objectText : string
}.

Definition objectEqb (o p : JsObject) : bool :=
  (objectId o =? objectId p) && (objectText o =? objectText p)%string.

(** What a table gives under a computed key, when it gives something: a
    value of its own or an inherited member. *)
Inductive Looked (A : Type) : Type :=
| Plain (a : A)
| Member (o : JsObject).
Arguments Plain {A} a.
Arguments Member {A} o.

(** [x === s] for a string literal [s]. *)
Definition isText (s : string) (x : Looked string) : bool :=
  match x with
  | Plain t => (t =? s)%string
  | Member _ => false
  end.


(** A [Date] object that is not "Invalid Date": its epoch milliseconds and
    the two local calendar fields the pages read. *)
Record JsDate : Type := mkDate {
  getTime : Z;
  getFullYear : Z;
  getMonth : Z  (* 0..11 *)
}.

(** The host functions.  [None] stands for [NaN], respectively for an
    invalid date (whose [getTime()] is [NaN]). *)
Class Builtins : Type := {
  parseFloat : string -> option Q;
  NumberOf : string -> option Q;
  newDate : string -> option JsDate;
  toFixed : Q -> nat -> string;
  (* [Object.prototype[k]], for a [k] that names one of its members *)
  protoMember : string -> option JsObject
}.

(** *** An executable instance *)

Definition digitVal (c : ascii) : option Z :=
  let n := Z.of_N (N_of_ascii c) in
  if (48 <=? n) && (n <=? 57) then Some (n - 48) else None.

(** Reads a run of decimal digits: accumulated value, number of digits read
    and the rest of the input. *)
Fixpoint scanDigits (s : string) (acc : Z) (n : nat) : Z * nat * string :=
  match s with
  | String c r =>
      match digitVal c with
      | Some d => scanDigits r (acc * 10 + d) (S n)
      | None => (acc, n, s)
      end
  | EmptyString => (acc, n, s)
  end.

Definition scanSign (s : string) : bool * string :=
  match s with
  | String "-" r => (true, r)
  | String "+" r => (false, r)
  | _ => (false, s)
  end.

Definition pow10 (n : nat) : Z := 10 ^ Z.of_nat n.

Definition scanExponent (s : string) : Z * string :=
  match s with
  | String c r =>
      if Ascii.eqb c "e" || Ascii.eqb c "E" then
        let '(neg, r1) := scanSign r in
        let '(e, ne, r2) := scanDigits r1 0 0%nat in
        match ne with
        | O => (0, s)
        | S _ => (if neg then - e else e, r2)
        end
      else (0, s)
  | EmptyString => (0, s)
  end.

(** The longest prefix that is a decimal literal, with its value. *)
Definition scanDecimal (s : string) : option (Q * string) :=
  let '(neg, s0) := scanSign s in
  let '(ip, ni, r1) := scanDigits s0 0 0%nat in
  let '(m, nf, r2) :=
    match r1 with
    | String "." r => scanDigits r ip 0%nat
    | _ => (ip, 0%nat, r1)
    end in
  match (ni + nf)%nat with
  | O => None
  | S _ =>
      let '(e, r3) := scanExponent r2 in
      let mag := (inject_Z m / inject_Z (pow10 nf))%Q in
      let scaled :=
        if 0 <=? e then (mag * inject_Z (10 ^ e))%Q
        else (mag / inject_Z (10 ^ (- e)))%Q in
      Some (Qred (if neg then - scaled else scaled)%Q, r3)
  end.

(** [parseFloat] on decimal literals: the longest prefix that is one, after
    leading white space.  (The text [Infinity], which [parseFloat] reads as
    an infinity, has no value in [Q] and reads as [NaN] here, as every
    other text without a leading decimal literal does.) *)
Definition stdParseFloat (s : string) : option Q :=
  option_map fst (scanDecimal (trimStart s)).

Definition radixDigit (radix : Z) (c : ascii) : option Z :=
  let n := Z.of_N (N_of_ascii c) in
  let v :=
    if (48 <=? n) && (n <=? 57) then n - 48
    else if (97 <=? n) && (n <=? 102) then n - 87
    else if (65 <=? n) && (n <=? 70) then n - 55
    else 16 in
  if v <? radix then Some v else None.

(** A non-empty run of digits of the radix, up to the end of the input. *)
Fixpoint scanRadix (radix : Z) (s : string) (acc : Z) (n : nat) : option Z :=
  match s with
  | EmptyString =>
      match n with
      | O => None
      | S _ => Some acc
      end
  | String c r =>
      match radixDigit radix c with
      | Some d => scanRadix radix r (acc * radix + d) (S n)
      | None => None
      end
  end.

(** The radix of a literal that starts with [0x], [0o] or [0b], and its
    digits. *)
Definition radixPrefix (t : string) : option (Z * string) :=
  match t with
  | String "0" (String c r) =>
      if Ascii.eqb c "x" || Ascii.eqb c "X" then Some (16, r)
      else if Ascii.eqb c "o" || Ascii.eqb c "O" then Some (8, r)
      else if Ascii.eqb c "b" || Ascii.eqb c "B" then Some (2, r)
      else None
  | _ => None
  end.

(** [Number(s)]: the trimmed text is empty (0), a hexadecimal, octal or
    binary integer literal, or a decimal literal; anything else is [NaN].
    (The texts [Infinity], [+Infinity] and [-Infinity], which [Number]
    reads as infinities, have no value in [Q] and read as [NaN] here.) *)
Definition stdNumber (s : string) : option Q :=
  let t := trim s in
  if (t =? "")%string then Some 0%Q
  else
    match radixPrefix t with
    | Some (radix, digits) =>
        option_map inject_Z (scanRadix radix digits 0 0%nat)
    | None =>
        match scanDecimal t with
        | Some (q, EmptyString) => Some q
        | _ => None
        end
    end.

(** Days from 1970-01-01 to the civil date [y]-[m]-[d]. *)
Definition daysFromCivil (y m d : Z) : Z :=
  let y' := if m <=? 2 then y - 1 else y in
  let era := y' / 400 in
  let yoe := y' - era * 400 in
  let mp := if 2 <? m then m - 3 else m + 9 in
  let doy := (153 * mp + 2) / 5 + d - 1 in
  let doe := yoe * 365 + yoe / 4 - yoe / 100 + doy in
  era * 146097 + doe - 719468.

(** The civil year and month (1..12) of a day counted from 1970-01-01. *)
Definition civilFromDays (z : Z) : Z * Z :=
  let z' := z + 719468 in
  let era := z' / 146097 in
  let doe := z' - era * 146097 in
  let yoe := (doe - doe / 1460 + doe / 36524 - doe / 146096) / 365 in
  let doy := doe - (365 * yoe + yoe / 4 - yoe / 100) in
  let mp := (5 * doy + 2) / 153 in
  let m := if mp <? 10 then mp + 3 else mp - 9 in
  (if m <=? 2 then yoe + era * 400 + 1 else yoe + era * 400, m).

(** Exactly [n] decimal digits. *)
Fixpoint takeDigits (n : nat) (s : string) (acc : Z) : option (Z * string) :=
  match n with
  | O => Some (acc, s)
  | S k =>
      match s with
      | String c r =>
          match digitVal c with
          | Some d => takeDigits k r (acc * 10 + d)
          | None => None
          end
      | EmptyString => None
      end
  end.

Definition takeChar (c : ascii) (s : string) : option string :=
  match s with
  | String c' r => if Ascii.eqb c c' then Some r else None
  | EmptyString => None
  end.

(** The year of an ISO string: four digits, or a sign and six digits. *)
Definition isoYear (s : string) : option (Z * string) :=
  match s with
  | String "+" r => takeDigits 6 r 0
  | String "-" r =>
      match takeDigits 6 r 0 with
      | Some (y, r') => if y =? 0 then None else Some (- y, r')
      | None => None
      end
  | _ => takeDigits 4 s 0
  end.

(** [-MM] and [-DD], each optional: the month, the day and the rest. *)
Definition isoMonthDay (s : string) : option (Z * Z * string) :=
  match takeChar "-" s with
  | None => Some (1, 1, s)
  | Some r =>
      match takeDigits 2 r 0 with
      | None => None
      | Some (m, r1) =>
          match takeChar "-" r1 with
          | None => Some (m, 1, r1)
          | Some r2 =>
              match takeDigits 2 r2 0 with
              | Some (d, r3) => Some (m, d, r3)
              | None => None
              end
          end
      end
  end.

(** [.sss]: the milliseconds are the first three digits of the fraction. *)
Definition isoFraction (s : string) : option (Z * string) :=
  match takeChar "." s with
  | None => Some (0, s)
  | Some r =>
      match scanDigits r 0 0%nat with
      | (_, O, _) => None
      | (v, n, r') => Some (v * 1000 / pow10 n, r')
      end
  end.

(** [:ss] and its fraction, optional: seconds, milliseconds and the rest. *)
Definition isoSeconds (s : string) : option (Z * Z * string) :=
  match takeChar ":" s with
  | None => Some (0, 0, s)
  | Some r =>
      match takeDigits 2 r 0 with
      | None => None
      | Some (sec, r1) =>
          match isoFraction r1 with
          | Some (ms, r2) => Some (sec, ms, r2)
          | None => None
          end
      end
  end.

(** The zone designator that ends the string: none (local time, the inner
    [None]), [Z], or an offset [+HH:mm] or [-HH:mm] in minutes east. *)
Definition isoZone (s : string) : option (option Z) :=
  match s with
  | EmptyString => Some None
  | String "Z" EmptyString => Some (Some 0)
  | String c r =>
      if Ascii.eqb c "+" || Ascii.eqb c "-" then
        match takeDigits 2 r 0 with
        | Some (h, r1) =>
            match takeChar ":" r1 with
            | Some r2 =>
                match takeDigits 2 r2 0 with
                | Some (m, EmptyString) =>
                    if (h <=? 23) && (m <=? 59)
                    then Some (Some ((if Ascii.eqb c "-" then -1 else 1)
                                     * (h * 60 + m)))
                    else None
                | _ => None
                end
            | None => None
            end
        | None => None
        end
      else None
  end.

(** [THH:mm], seconds and zone: the milliseconds into the day and the zone. *)
Definition isoTime (s : string) : option (Z * option Z) :=
  match takeChar "T" s with
  | None => None
  | Some r =>
      match takeDigits 2 r 0 with
      | None => None
      | Some (h, r1) =>
          match takeChar ":" r1 with
          | None => None
          | Some r2 =>
              match takeDigits 2 r2 0 with
              | None => None
              | Some (mi, r3) =>
                  match isoSeconds r3 with
                  | None => None
                  | Some (sec, ms, r4) =>
                      match isoZone r4 with
                      | None => None
                      | Some z =>
                          if ((h <=? 23) && (mi <=? 59) && (sec <=? 59))
                             || ((h =? 24) && (mi =? 0) && (sec =? 0)
                                 && (ms =? 0))
                          then Some (h * 3600000 + mi * 60000 + sec * 1000
                                     + ms, z)
                          else None
                      end
                  end
              end
          end
      end
  end.

(** A string in the ISO format of the standard: the instant in milliseconds
    as if its fields were UTC, and whether they are local time instead (a
    date with a time and no zone).  A date alone is UTC.  A day of the
    month up to 31 is accepted for every month and rolls over into the
    next, as in V8. *)
Definition isoParse (s : string) : option (Z * bool) :=
  match isoYear s with
  | None => None
  | Some (y, r) =>
      match isoMonthDay r with
      | None => None
      | Some (m, d, r1) =>
          if (1 <=? m) && (m <=? 12) && (1 <=? d) && (d <=? 31) then
            let day := daysFromCivil y m 1 + (d - 1) in
            match r1 with
            | EmptyString => Some (day * 86400000, false)
            | _ =>
                match isoTime r1 with
                | Some (t, Some off) =>
                    Some (day * 86400000 + t - off * 60000, false)
                | Some (t, None) => Some (day * 86400000 + t, true)
                | None => None
                end
            end
          else None
      end
  end.

(** [new Date(s)] on a host whose clock is [tz] minutes east of UTC all
    year: the instant of an ISO string, and the calendar year and month of
    that instant on the host's clock.  Strings outside the ISO format, which
    the standard leaves to the implementation, are invalid dates here. *)
Definition zonedNewDate (tz : Z) (s : string) : option JsDate :=
  match isoParse s with
  | None => None
  | Some (t, isLocal) =>
      let utc := if isLocal then t - tz * 60000 else t in
      if Z.abs utc <=? 8640000000000000 then
        Some (mkDate utc
                (fst (civilFromDays ((utc + tz * 60000) / 86400000)))
                (snd (civilFromDays ((utc + tz * 60000) / 86400000)) - 1))
      else None
  end.

Fixpoint padZeros (n : nat) (s : string) : string :=
  match n with
  | O => s
  | S k => if (String.length s <=? k)%nat then padZeros k ("0" ++ s) else s
  end.

(** [q.toFixed(n)] on the exact value [q]: the nearest decimal with [n]
    fraction digits, the larger one in magnitude on a tie.  (The source
    rounds the double nearest to [q]; where [q] itself is such a tie and
    is not a double, as 24.95, the two texts can differ in the last
    digit.) *)
Definition stdToFixed (q : Q) (n : nat) : string :=
  let neg := negb (Qle_bool 0 q) in
  let a := Qabs q in
  let r := Qfloor (a * inject_Z (pow10 n) + (1 # 2))%Q in
  let ip := r / pow10 n in
  let fp := r mod pow10 n in
  let body :=
    match n with
    | O => stringOfZ ip
    | S _ => stringOfZ ip ++ "." ++ padZeros n (stringOfZ fp)
    end in
  if neg then "-" ++ body else body.

(** The members of [Object.prototype]: the twelve of the standard and its
    annex B, each with the text it converts to. *)
Definition nativeFunction (name : string) : string :=
  "function " ++ name ++ "() { [native code] }".

Definition OBJECT_PROTOTYPE : list (string * JsObject) :=
  [ ("constructor", mkObject 1 (nativeFunction "Object"));
    ("__defineGetter__", mkObject 2 (nativeFunction "__defineGetter__"));
    ("__defineSetter__", mkObject 3 (nativeFunction "__defineSetter__"));
    ("hasOwnProperty", mkObject 4 (nativeFunction "hasOwnProperty"));
    ("__lookupGetter__", mkObject 5 (nativeFunction "__lookupGetter__"));
    ("__lookupSetter__", mkObject 6 (nativeFunction "__lookupSetter__"));
    ("isPrototypeOf", mkObject 7 (nativeFunction "isPrototypeOf"));
    ("propertyIsEnumerable",
     mkObject 8 (nativeFunction "propertyIsEnumerable"));
    ("toString", mkObject 9 (nativeFunction "toString"));
    ("valueOf", mkObject 10 (nativeFunction "valueOf"));
    ("__proto__", mkObject 11 "[object Object]");
    ("toLocaleString", mkObject 12 (nativeFunction "toLocaleString")) ].

Definition stdProtoMember (k : string) : option JsObject :=
  lookup k OBJECT_PROTOTYPE.

(** The host [tz] minutes east of UTC. *)
Definition zoneBuiltins (tz : Z) : Builtins := {|
  parseFloat := stdParseFloat;
  NumberOf := stdNumber;
  newDate := zonedNewDate tz;
  toFixed := stdToFixed;
  protoMember := stdProtoMember
|}.

(** The host at UTC. *)
Definition stdBuiltins : Builtins := zoneBuiltins 0.

(** *** Number comparisons *)

(** [a !== b] on numbers. *)
Definition numNe (a b : Q) : bool := negb (Qeq_bool a b).
(** [a > b] on numbers. *)
Definition numGt (a b : Q) : bool := negb (Qle_bool a b).
(** [a < b] on numbers. *)
Definition numLt (a b : Q) : bool := negb (Qle_bool b a).

(** [a >= b] where either side may be [NaN]. *)
Definition nanGe (a b : option Z) : bool :=
  match a, b with
  | Some x, Some y => y <=? x
  | _, _ => false
  end.

(** [a + b] where either side may be [NaN]. *)
Definition nanPlus (a b : option Q) : option Q :=
  match a, b with
  | Some x, Some y => Some (x + y)%Q
  | _, _ => None
  end.

(** *** Values that should be numbers *)

Section Values.
Context `{Builtins}.

(** [tbl[k]] for a computed key [k]: an own property of the literal, else a
    member inherited from [Object.prototype], else [undefined]. *)
Definition readKey {A : Type} (k : string) (tbl : list (string * A))
  : option (Looked A) :=
  match lookup k tbl with
  | Some v => Some (Plain v)
  | None => option_map Member (protoMember k)
  end.

(** The number a value is read as by an arithmetic or relational operator:
    an object is read through the string it converts to. *)
Definition toNum (x : Looked Q) : option Q :=
  match x with
  | Plain q => Some q
  | Member o => NumberOf (objectText o)
  end.

(** [x !== y]. *)
Definition valNe (x y : Looked Q) : bool :=
  match x, y with
  | Plain a, Plain b => numNe a b
  | Member o, Member p => negb (objectEqb o p)
  | _, _ => true
  end.

(** [x > y]: two objects are compared as the strings they convert to;
    otherwise both sides are read as numbers, and a [NaN] makes it false. *)
Definition valGt (x y : Looked Q) : bool :=
  match x, y with
  | Member o, Member p => (objectText p <? objectText o)%string
  | _, _ =>
      match toNum x, toNum y with
      | Some a, Some b => numGt a b
      | _, _ => false
      end
  end.

(** [a * w]. *)
Definition numTimes (a : Q) (w : Looked Q) : option Q :=
  option_map (Qmult a) (toNum w).

End Values.

(** *** [Map] in insertion order *)

Section JsMap.
Context {K V : Type} (eqb : K -> K -> bool).

Fixpoint mapGet (k : K) (m : list (K * V)) : option V :=
  match m with
  | [] => None
  | (k', v) :: rest => if eqb k k' then Some v else mapGet k rest
  end.

Fixpoint mapSet (k : K) (v : V) (m : list (K * V)) : list (K * V) :=
  match m with
  | [] => [(k, v)]
  | (k', v') :: rest =>
      if eqb k k' then (k', v) :: rest else (k', v') :: mapSet k v rest
  end.

Definition mapValues (m : list (K * V)) : list V := map snd m.
End JsMap.

(** *** [Array.prototype.sort] with a comparator (stable) *)

Section Sort.
Context {A : Type} (le : A -> A -> bool).

Fixpoint insertSorted (x : A) (l : list A) : list A :=
  match l with
  | [] => [x]
  | y :: rest => if le x y then x :: y :: rest else y :: insertSorted x rest
  end.

Definition sortBy (l : list A) : list A := fold_right insertSorted [] l.
End Sort.

End Js.


(** ** The dashboard page ([app/dashboard/page.tsx]) *)

Module Dashboard.
Import Js.

(** [tender_value : number | string | null]. *)
Inductive NumOrStr : Type :=
| Num (n : Q)
| Str (s : string).

Record Deal : Type := mkDeal {
  id : string;
  ap_number : option Z;
  company_id : option string;
  enquiry_date : option string;
  stage : option string;
  probability : option string;
  tender_value : option NumOrStr;
  salesperson : option string;
  estimated_start_date : option string
}.

(** [(d.stage || "").toLowerCase()], the stage as the comparisons read it. *)
Definition lowerStage (d : Deal) : string := toLowerCase (orEmpty (stage d)).

Definition STAGE_LABELS : list (string * string) :=
  [ ("received", "Received"); ("qualified", "Qualified");
    ("in review", "In Review"); ("quote submitted", "Quote Submitted");
    ("won", "Won"); ("lost", "Lost"); ("no tender", "No Tender") ].

Definition STAGE_PRIORITY : list (string * Q) :=
  [ ("lost", 0); ("no tender", 0); ("received", 1); ("qualified", 2);
    ("in review", 3); ("quote submitted", 4); ("won", 5) ]%Q.

Definition PROB_WEIGHTS : list (string * Q) :=
  [ ("A", 3 # 4); ("B", 1 # 2); ("C", 1 # 4); ("D", 1 # 10) ]%Q.

Record FyTenderRow : Type := mkFyRow {
  fyEndYear : Z;
  tenders : Z;
  quotesSubmitted : Z;
  wonCount : Z;
  totalTenderValue : Q;
  wonTenderValue : Q
}.

Record PipelineBucket : Type := mkBucket {
  monthKey : string;
  label : string;
  wonValue : Q;
  probAValue : Q;
  probBValue : Q
}.

(** [getFinancialYearEnd]: December belongs to next year's FY. *)
Definition getFinancialYearEnd (date : JsDate) : Z :=
  let y := getFullYear date in
  let m := getMonth date in
  if m =? 11 then y + 1 else y.

Section WithBuiltins.
Context `{Builtins}.

Definition toNumber (value : option NumOrStr) : Q :=
  match value with
  | None => 0%Q
  | Some (Str s) =>
      match NumberOf s with
      | Some n => n
      | None => 0%Q
      end
  | Some (Num n) => n
  end.

(** The label is a string of [STAGE_LABELS] or the trimmed stage itself,
    unless the lower-cased stage names an inherited member, which
    [STAGE_LABELS[key] ?? raw] then returns. *)
Definition normaliseStage (stage : option string) : Looked string :=
  match stage with
  | None => Plain "Unspecified"
  | Some s =>
      if negb (truthy s) then Plain "Unspecified"
      else
        let raw := trim s in
        if negb (truthy raw) then Plain "Unspecified"
        else
          match readKey (toLowerCase raw) STAGE_LABELS with
          | Some l => l
          | None => Plain raw
          end
  end.

(** Declared to return a number; [PROB_WEIGHTS[deal.probability]] is
    returned whenever it is truthy, which an inherited member is. *)
Definition getDealWeight (deal : Deal) : Looked Q :=
  let stage := toLowerCase (orEmpty (stage deal)) in
  if (stage =? "won")%string then Plain 1%Q
  else if (stage =? "lost")%string || (stage =? "no tender")%string
  then Plain 0%Q
  else
    match probability deal with
    | Some p =>
        if truthy p then
          match readKey p PROB_WEIGHTS with
          | Some (Plain w) => if numNe w 0 then Plain w else Plain 0%Q
          | Some (Member o) => Member o
          | None => Plain 0%Q
          end
        else Plain 0%Q
    | None => Plain 0%Q
    end.

(** [STAGE_PRIORITY[(d.stage || "").toLowerCase()] ?? 0]. *)
Definition stagePriority (d : Deal) : Looked Q :=
  match readKey (toLowerCase (orEmpty (stage d))) STAGE_PRIORITY with
  | Some r => r
  | None => Plain 0%Q
  end.

(** [d.enquiry_date ? new Date(d.enquiry_date).getTime() : 0]. *)
Definition enquiryTime (d : Deal) : option Z :=
  match enquiry_date d with
  | Some s => if truthy s then option_map getTime (newDate s) else Some 0
  | None => Some 0
  end.

Definition chooseBestDealForAp (a b : Deal) : Deal :=
  let stageA := stagePriority a in
  let stageB := stagePriority b in
  if valNe stageA stageB then
    (if valGt stageA stageB then a else b)
  else
    let weightA := getDealWeight a in
    let weightB := getDealWeight b in
    if valNe weightA weightB then
      (if valGt weightA weightB then a else b)
    else
      let valA := toNumber (tender_value a) in
      let valB := toNumber (tender_value b) in
      if numNe valA valB then
        (if numGt valA valB then a else b)
      else
        let dA := enquiryTime a in
        let dB := enquiryTime b in
        if nanGe dA dB then a else b.

(** The grouping key: [AP-<n>] with an AP number, [ID-<id>] without. *)
Definition apKey (d : Deal) : string :=
  match ap_number d with
  | Some n => "AP-" ++ stringOfZ n
  | None => "ID-" ++ id d
  end.

Section Collapse.
(** The pairwise comparison is the only thing in which the two pages'
    [collapseDealsByAp] differ. *)
Variable choose : Deal -> Deal -> Deal.

Definition collapseStep (m : list (string * Deal)) (d : Deal)
  : list (string * Deal) :=
  let key := apKey d in
  match mapGet String.eqb key m with
  | None => mapSet String.eqb key d m
  | Some existing => mapSet String.eqb key (choose existing d) m
  end.

Definition collapseWith (deals : list Deal) : list Deal :=
  mapValues (fold_left collapseStep deals []).
End Collapse.

Definition collapseDealsByAp : list Deal -> list Deal :=
  collapseWith chooseBestDealForAp.

(** One iteration of the [forEach] of [fyTenderSummary]. *)
Definition fyStep (m : list (Z * FyTenderRow)) (d : Deal)
  : list (Z * FyTenderRow) :=
  if negb (truthyOpt (enquiry_date d)) then m
  else
    match newDate (orEmpty (enquiry_date d)) with
    | None => m
    | Some dt =>
        let fyEnd := getFinancialYearEnd dt in
        let row :=
          match mapGet Z.eqb fyEnd m with
          | Some r => r
          | None => mkFyRow fyEnd 0 0 0 0%Q 0%Q
          end in
        let stageName := normaliseStage (stage d) in
        let value := toNumber (tender_value d) in
        let isQuote := isText "Quote Submitted" stageName in
        let isWon := isText "Won" stageName in
        let row' :=
          mkFyRow (fyEndYear row)
            (tenders row + 1)
            (if isQuote then quotesSubmitted row + 1 else quotesSubmitted row)
            (if isWon then wonCount row + 1 else wonCount row)
            (totalTenderValue row + value)%Q
            (if isWon then (wonTenderValue row + value)%Q
             else wonTenderValue row) in
        mapSet Z.eqb fyEnd row' m
    end.

Definition fyTenderSummary (deals : list Deal) : list FyTenderRow :=
  sortBy (fun a b => fyEndYear a - fyEndYear b <=? 0)
    (mapValues (fold_left fyStep deals [])).

(** One iteration of the [forEach] of [pipelineBuckets]. *)
Definition pipelineStep (m : list (string * PipelineBucket)) (d : Deal)
  : list (string * PipelineBucket) :=
  if negb (truthyOpt (estimated_start_date d)) then m
  else
    match newDate (orEmpty (estimated_start_date d)) with
    | None => m
    | Some dt =>
        let stage := toLowerCase (orEmpty (stage d)) in
        if (stage =? "lost")%string || (stage =? "no tender")%string then m
        else
          let year := getFullYear dt in
          let month := getMonth dt + 1 in
          let mk := stringOfZ year ++ "-" ++ padStart2 (stringOfZ month) in
          let lbl := padStart2 (stringOfZ month) ++ "/" ++ stringOfZ year in
          let existing :=
            match mapGet String.eqb mk m with
            | Some b => b
            | None => mkBucket mk lbl 0%Q 0%Q 0%Q
            end in
          let val := toNumber (tender_value d) in
          let prob := toUpperCase (orEmpty (probability d)) in
          let isWon := (stage =? "won")%string in
          let existing' :=
            mkBucket (monthKey existing) (label existing)
              (if isWon then (wonValue existing + val)%Q
               else wonValue existing)
              (if negb isWon && (prob =? "A")%string
               then (probAValue existing + val)%Q else probAValue existing)
              (if negb isWon && (prob =? "B")%string
               then (probBValue existing + val)%Q else probBValue existing) in
          mapSet String.eqb mk existing' m
    end.

(** [pipelineBuckets], over the collapsed deals it is given. *)
Definition pipelineBuckets (collapsedDeals : list Deal)
  : list PipelineBucket :=
  sortBy (fun a b => (monthKey a <=? monthKey b)%string)
    (mapValues (fold_left pipelineStep collapsedDeals [])).

Definition numMax (a b : Q) : Q := if Qle_bool a b then b else a.

Definition maxPipelineValue (collapsedDeals : list Deal) : Q :=
  fold_left
    (fun mx b => numMax (numMax (numMax mx (wonValue b)) (probAValue b))
                   (probBValue b))
    (pipelineBuckets collapsedDeals) 0%Q.

End WithBuiltins.
End Dashboard.

(** ** The forecast page (the second dashboard page) *)

Module Forecast.
Import Js.
Export Dashboard (Deal, NumOrStr, Num, Str, mkDeal, id, ap_number,
  company_id, enquiry_date, stage, probability, tender_value, salesperson,
  estimated_start_date).

Definition PROB_WEIGHTS : list (string * Q) :=
  [ ("A", 3 # 4); ("B", 1 # 2); ("C", 1 # 4); ("D", 1 # 10) ]%Q.

Definition MONTHLY_TARGETS : list (string * Q) :=
  [ ("2025-01", 500000); ("2025-02", 500000);
    ("2025-03", 750000); ("2025-04", 750000) ]%Q.

Definition STAGE_PRIORITY : list (string * Q) :=
  [ ("lost", 0); ("no tender", 0); ("received", 1); ("qualified", 2);
    ("in review", 3); ("quote submitted", 4); ("won", 5) ]%Q.

(** The value kept per month key; [monthKey] is the key of the entry. *)
Record ForecastAgg : Type := mkAgg {
  total : Q;
  expected : option Q;  (* [NaN] once a weight is not a number *)
  won : Q;
  target : Q
}.

Section WithBuiltins.
Context `{Builtins}.

Definition toNumber (value : option NumOrStr) : Q :=
  match value with
  | None => 0%Q
  | Some (Str s) =>
      match NumberOf s with
      | Some n => n
      | None => 0%Q
      end
  | Some (Num n) => n
  end.

(** Declared to return a number; [PROB_WEIGHTS[deal.probability]] is
    returned whenever it is truthy, which an inherited member is. *)
Definition getDealWeight (deal : Deal) : Looked Q :=
  let stage := toLowerCase (orEmpty (stage deal)) in
  if (stage =? "won")%string then Plain 1%Q
  else if (stage =? "lost")%string || (stage =? "no tender")%string
  then Plain 0%Q
  else
    match probability deal with
    | Some p =>
        if truthy p then
          match readKey p PROB_WEIGHTS with
          | Some (Plain w) => if numNe w 0 then Plain w else Plain 0%Q
          | Some (Member o) => Member o
          | None => Plain 0%Q
          end
        else Plain 0%Q
    | None => Plain 0%Q
    end.

Definition monthIndexFromYyyyMm (s : string) : option Q :=
  if negb (truthy s) then None
  else
    match splitOn "-" s with
    | yStr :: rest =>
        let y := NumberOf yStr in
        let m := match rest with
                 | mStr :: _ => NumberOf mStr
                 | [] => None
                 end in
        match y, m with
        | Some y, Some m =>
            if Qeq_bool y 0 || Qeq_bool m 0 then None
            else Some (y * 12 + (m - 1))%Q
        | _, _ => None
        end
    | [] => None
    end.

Definition isDateInMonthRange (dt : JsDate) (fromMonth toMonth : string)
  : bool :=
  if negb (truthy fromMonth) && negb (truthy toMonth) then true
  else
    let idx := inject_Z (getFullYear dt * 12 + getMonth dt) in
    let belowFrom :=
      truthy fromMonth &&
      match monthIndexFromYyyyMm fromMonth with
      | Some fromIdx => numLt idx fromIdx
      | None => false
      end in
    if belowFrom then false
    else
      let aboveTo :=
        truthy toMonth &&
        match monthIndexFromYyyyMm toMonth with
        | Some toIdx => numGt idx toIdx
        | None => false
        end in
      negb aboveTo.

Definition stagePriority (d : Deal) : Looked Q :=
  match readKey (toLowerCase (orEmpty (stage d))) STAGE_PRIORITY with
  | Some r => r
  | None => Plain 0%Q
  end.

Definition enquiryTime (d : Deal) : option Z :=
  match enquiry_date d with
  | Some s => if truthy s then option_map getTime (newDate s) else Some 0
  | None => Some 0
  end.

Definition chooseBetterDealForForecast (a b : Deal) : Deal :=
  let stageA := stagePriority a in
  let stageB := stagePriority b in
  if valNe stageA stageB then
    (if valGt stageA stageB then a else b)
  else
    let weightA := getDealWeight a in
    let weightB := getDealWeight b in
    if valNe weightA weightB then
      (if valGt weightA weightB then a else b)
    else
      let valA := toNumber (tender_value a) in
      let valB := toNumber (tender_value b) in
      if numNe valA valB then
        (if numGt valA valB then a else b)
      else
        let dA := enquiryTime a in
        let dB := enquiryTime b in
        if nanGe dA dB then a else b.

Definition collapseDealsByAp : list Deal -> list Deal :=
  Dashboard.collapseWith chooseBetterDealForForecast.

(** [MONTHLY_TARGETS[monthKey] || 0], for a key [YYYY-MM] built from a
    date: it begins with a digit or a sign, as no inherited member does. *)
Definition monthlyTarget (monthKey : string) : Q :=
  match lookup monthKey MONTHLY_TARGETS with
  | Some t => t
  | None => 0%Q
  end.

Section Filters.
(** The page state the forecast reads, and the midnight of the current
    day in epoch milliseconds. *)
Variables (salespersonFilter forecastFromMonth forecastToMonth : string)
          (excludeStartedWon : bool) (today : Z).

(** One iteration of the [forEach] of [forecastBuckets]. *)
Definition forecastStep (m : list (string * ForecastAgg)) (d : Deal)
  : list (string * ForecastAgg) :=
  if negb (truthyOpt (estimated_start_date d)) then m
  else
    match newDate (orEmpty (estimated_start_date d)) with
    | None => m
    | Some dt =>
        if negb (isDateInMonthRange dt forecastFromMonth forecastToMonth)
        then m
        else
          let stage := toLowerCase (orEmpty (stage d)) in
          if (stage =? "lost")%string || (stage =? "no tender")%string
          then m
          else if (stage =? "won")%string && excludeStartedWon
                  && (getTime dt <? today)
          then m
          else
            let mk := stringOfZ (getFullYear dt) ++ "-"
                      ++ padStart2 (stringOfZ (getMonth dt + 1)) in
            let current :=
              match mapGet String.eqb mk m with
              | Some c => c
              | None => mkAgg 0%Q (Some 0%Q) 0%Q (monthlyTarget mk)
              end in
            let val := toNumber (tender_value d) in
            let weight := getDealWeight d in
            let current' :=
              mkAgg (total current + val)%Q
                (nanPlus (expected current) (numTimes val weight))
                (if (stage =? "won")%string then (won current + val)%Q
                 else won current)
                (monthlyTarget mk) in
            mapSet String.eqb mk current' m
    end.

Definition salespersonMatches (d : Deal) : bool :=
  if truthy salespersonFilter then
    (toLowerCase (orEmpty (salesperson d))
     =? toLowerCase salespersonFilter)%string
  else true.

(** The forecast over the already collapsed deals. *)
Definition forecastOfCollapsed (collapsed : list Deal)
  : list (string * ForecastAgg) :=
  sortBy (fun a b => (fst a <=? fst b)%string)
    (fold_left forecastStep collapsed []).

Definition forecastBuckets (deals : list Deal)
  : list (string * ForecastAgg) :=
  match deals with
  | [] => []
  | _ => forecastOfCollapsed
           (collapseDealsByAp (filter salespersonMatches deals))
  end.
End Filters.

End WithBuiltins.
End Forecast.

(** ** The deal detail page ([app/deals/detail/page.tsx]) *)

Module DealDetail.
Import Js.

(** The elements of [STAGES], in the order of the stage bar. *)
Inductive StageName : Type :=
| Received | Qualified | InReview | QuoteSubmitted | Won | Lost | NoTender.

Definition STAGES : list StageName :=
  [Received; Qualified; InReview; QuoteSubmitted; Won; Lost; NoTender].

Definition stageLabel (s : StageName) : string :=
  match s with
  | Received => "Received"
  | Qualified => "Qualified"
  | InReview => "In Review"
  | QuoteSubmitted => "Quote Submitted"
  | Won => "Won"
  | Lost => "Lost"
  | NoTender => "No Tender"
  end.

Definition stageEqb (a b : StageName) : bool :=
  match a, b with
  | Received, Received | Qualified, Qualified | InReview, InReview
  | QuoteSubmitted, QuoteSubmitted | Won, Won | Lost, Lost
  | NoTender, NoTender => true
  | _, _ => false
  end.

(** The element of [STAGES] equal to a string, when there is one. *)
Definition stageOfString (s : string) : option StageName :=
  find (fun st => (stageLabel st =? s)%string) STAGES.

Record Deal : Type := mkDeal {
  id : string;
  tender_return_date : option string;
  estimated_start_date : option string;
  stage : option string;
  probability : option string;
  tender_value : option Q;
  tender_cost : option Q;
  tender_margin : option Q;
  tender_margin_percent : option Q
}.

(** A row of [deal_actions]; its [id] and [created_at] are generated by the
    store and read by none of the handlers. *)
Record DealAction : Type := mkAction {
  deal_id : string;
  action_type : option string;
  notes : option string;
  file_url : option string
}.

Record TenderDraft : Type := mkDraft {
  draft_value : string;
  draft_cost : string;
  draft_margin : string;
  draft_margin_percent : string
}.

(** The [keyof Deal] the stage handlers pass to [updateLeadField]. *)
Inductive Field : Type :=
| FStage | FProbability | FTenderReturnDate | FEstimatedStartDate.

Definition fieldName (f : Field) : string :=
  match f with
  | FStage => "stage"
  | FProbability => "probability"
  | FTenderReturnDate => "tender_return_date"
  | FEstimatedStartDate => "estimated_start_date"
  end.

Definition getField (f : Field) (d : Deal) : option string :=
  match f with
  | FStage => stage d
  | FProbability => probability d
  | FTenderReturnDate => tender_return_date d
  | FEstimatedStartDate => estimated_start_date d
  end.

(** [{ ...d, [f]: v }]. *)
Definition setField (f : Field) (v : option string) (d : Deal) : Deal :=
  match f with
  | FStage =>
      mkDeal (id d) (tender_return_date d) (estimated_start_date d) v
        (probability d) (tender_value d) (tender_cost d) (tender_margin d)
        (tender_margin_percent d)
  | FProbability =>
      mkDeal (id d) (tender_return_date d) (estimated_start_date d) (stage d)
        v (tender_value d) (tender_cost d) (tender_margin d)
        (tender_margin_percent d)
  | FTenderReturnDate =>
      mkDeal (id d) v (estimated_start_date d) (stage d) (probability d)
        (tender_value d) (tender_cost d) (tender_margin d)
        (tender_margin_percent d)
  | FEstimatedStartDate =>
      mkDeal (id d) (tender_return_date d) v (stage d) (probability d)
        (tender_value d) (tender_cost d) (tender_margin d)
        (tender_margin_percent d)
  end.

(** [{ ...d, tender_value, tender_cost, tender_margin, tender_margin_percent }]. *)
Definition setTender (v c m mp : Q) (d : Deal) : Deal :=
  mkDeal (id d) (tender_return_date d) (estimated_start_date d) (stage d)
    (probability d) (Some v) (Some c) (Some m) (Some mp).

(** The React state of the page. *)
Record Page : Type := mkPage {
  lead : option Deal;
  actions : list DealAction;  (* newest first *)
  error : option string;
  savingField : option string;
  gateModalOpen : bool;
  pendingStage : option string;
  gateAnswers : list (string * string);
  tenderDraft : TenderDraft
}.

(** The two tables of the record store the page writes to. *)
Record Store : Type := mkStore {
  deals : list Deal;
  deal_actions : list DealAction
}.

Record World : Type := mkWorld {
  page : Page;
  store : Store
}.

(** What the outside answers during one handler run: [window.confirm], and
    whether each store call succeeds. *)
Record Env : Type := mkEnv {
  confirmOk : bool;
  updateOk : Field -> bool;
  tenderUpdateOk : bool;
  insertOk : option string -> bool  (* by [action_type] *)
}.

Definition setLead (l : option Deal) (p : Page) : Page :=
  mkPage l (actions p) (error p) (savingField p) (gateModalOpen p)
    (pendingStage p) (gateAnswers p) (tenderDraft p).
Definition setActions (a : list DealAction) (p : Page) : Page :=
  mkPage (lead p) a (error p) (savingField p) (gateModalOpen p)
    (pendingStage p) (gateAnswers p) (tenderDraft p).
Definition setError (e : option string) (p : Page) : Page :=
  mkPage (lead p) (actions p) e (savingField p) (gateModalOpen p)
    (pendingStage p) (gateAnswers p) (tenderDraft p).
Definition setSavingField (f : option string) (p : Page) : Page :=
  mkPage (lead p) (actions p) (error p) f (gateModalOpen p)
    (pendingStage p) (gateAnswers p) (tenderDraft p).
Definition setTenderDraft (t : TenderDraft) (p : Page) : Page :=
  mkPage (lead p) (actions p) (error p) (savingField p) (gateModalOpen p)
    (pendingStage p) (gateAnswers p) t.
Definition setGateAnswers (g : list (string * string)) (p : Page) : Page :=
  mkPage (lead p) (actions p) (error p) (savingField p) (gateModalOpen p)
    (pendingStage p) g (tenderDraft p).

(** [setPendingStage(s); setGateAnswers(g); setGateModalOpen(true)]. *)
Definition openGate (s : string) (g : list (string * string)) (p : Page)
  : Page :=
  mkPage (lead p) (actions p) (error p) (savingField p) true (Some s) g
    (tenderDraft p).

(** [setGateModalOpen(false); setPendingStage(null); setGateAnswers({})]. *)
Definition closeGate (p : Page) : Page :=
  mkPage (lead p) (actions p) (error p) (savingField p) false None []
    (tenderDraft p).

Definition onPage (f : Page -> Page) (w : World) : World :=
  mkWorld (f (page w)) (store w).

(** [.from("deals").update(patch).eq("id", i)]. *)
Definition updateRows (i : string) (patch : Deal -> Deal) (s : Store) : Store :=
  mkStore (map (fun r => if (id r =? i)%string then patch r else r) (deals s))
    (deal_actions s).

(** [.from("deal_actions").insert(a)]. *)
Definition insertAction (a : DealAction) (s : Store) : Store :=
  mkStore (deals s) (deal_actions s ++ [a]).

(** An insert into [deal_actions] followed by
    [setActions(prev => [row, ...prev])] when it succeeded. *)
Definition logAction (ok : bool) (a : DealAction) (w : World) : World :=
  if ok then mkWorld (setActions (a :: actions (page w)) (page w))
               (insertAction a (store w))
  else w.

Definition currentStage (l : option Deal) : StageName :=
  match l with
  | Some d =>
      match stage d with
      | Some s =>
          match stageOfString s with
          | Some st => st
          | None => Received
          end
      | None => Received
      end
  | None => Received
  end.

(** [ans(key)], over an answers bag. *)
Definition ansOf (g : list (string * string)) (key : string) : string :=
  trim (match lookup key g with
        | Some v => v
        | None => ""
        end).

Definition getQuoteSubmissionCount (acts : list DealAction) : nat :=
  List.length
    (filter (fun a => match action_type a with
                      | Some t => startsWith t "Stage gate: Quote Submitted"
                      | None => false
                      end) acts).

Definition areAllQualifiedGateQuestionsComplete (g : list (string * string))
  : bool :=
  let ans := ansOf g in
  if negb (truthy (ans "scope_works")) then false
  else if negb (truthy (ans "est_start_month")) then false
  else if negb (truthy (ans "qualified_tender_return_date")) then false
  else if negb (truthy (ans "scheme_size")) then false
  else if (ans "scheme_size" =? "Multiple Plots")%string then
    if negb (truthy (ans "multi_basis")) then false
    else if (ans "multi_basis" =? "Individual Plots")%string
            && negb (truthy (ans "multi_plot_numbers")) then false
    else if negb (truthy (ans "multi_extra_over_offered")) then false
    else if negb (truthy (ans "multi_extra_over_client_agreed")) then false
    else true
  else true.

Definition areAllInReviewGateQuestionsComplete (g : list (string * string))
  : bool :=
  let ans := ansOf g in
  if negb (truthy (ans "arch_housetype")) then false
  else if negb (truthy (ans "arch_siteplans")) then false
  else if negb (truthy (ans "civils_levels")) then false
  else if negb (truthy (ans "civils_drainage")) then false
  else if negb (truthy (ans "si_depth")) then false
  else if negb (truthy (ans "drawings_in_sharepoint")) then false
  else true.

Definition areAllQuoteSubmittedGateQuestionsComplete
  (g : list (string * string)) : bool :=
  let ans := ansOf g in
  if negb (truthy (ans "quote_reference")) then false
  else if negb (truthy (ans "quote_date")) then false
  else if negb (truthy (ans "quote_submission_link")) then false
  else if negb (truthy (ans "quote_drawings_link")) then false
  else if negb (truthy (ans "tender_value")) then false
  else if negb (truthy (ans "tender_cost")) then false
  else if negb (truthy (ans "tender_margin")) then false
  else if negb (truthy (ans "tender_margin_percent")) then false
  else if negb (truthy (ans "key_material_rates")) then false
  else if negb (truthy (ans "overall_duration")) then false
  else if negb (truthy (ans "phases_priced")) then false
  else true.

Definition nl : string := String (ascii_of_nat 10) EmptyString.

Definition msgNoTenderLocked : string :=
  "This lead has been marked 'No Tender' and cannot move to another stage.".
Definition msgNoReceived : string :=
  "Moving back to 'Received' is disabled. Use notes or actions to record any changes.".
Definition msgTenderSummary : string :=
  "Tender summary must be completed before marking this deal as Won or Lost.".
Definition msgNumeric : string :=
  "Please enter valid numeric values for tender value and cost.".

Definition isNull {A : Type} (x : option A) : bool :=
  match x with
  | Some _ => false
  | None => true
  end.

(** [`${v}`] for [v : string | null]. *)
Definition showOpt (v : option string) : string :=
  match v with
  | Some s => s
  | None => "null"
  end.

(** [v || "none"]. *)
Definition orNone (v : option string) : string :=
  if truthyOpt v then orEmpty v else "none".

(** [a !== b] on [string | null]. *)
Definition optNe (a b : option string) : bool :=
  match a, b with
  | Some x, Some y => negb (x =? y)%string
  | None, None => false
  | _, _ => true
  end.

(** [x || null] for a string [x]. *)
Definition orNull (x : string) : option string :=
  if truthy x then Some x else None.

Section Handlers.
Context `{Builtins}.
Variable env : Env.

(** [formatNumber(value, decimals)] on a value that is not [NaN]. *)
Definition formatNumber (value : option Q) (decimals : nat) : string :=
  match value with
  | None => ""
  | Some v => toFixed v decimals
  end.

(** *** [updateLeadField]

    The function reads the [lead] of the render in which the running
    handler was created ([cl]), not the current state.  It is split at
    its [await]: [updateLeadFieldBegin] runs up to the store call,
    [updateLeadFieldEnd] from the store's answer on. *)

Definition updateLeadFieldBegin (cl : option Deal) (field : Field)
  (value : option string) (w : World) : World :=
  match cl with
  | None => w
  | Some l =>
      onPage (fun p =>
                setLead (Some (setField field value l))
                  (setError None (setSavingField (Some (fieldName field)) p)))
             w
  end.

Definition updateLeadFieldEnd (cl : option Deal) (field : Field)
  (value : option string) (w : World) : World :=
  match cl with
  | None => w
  | Some l =>
      let previousValue := getField field l in
      let w1 :=
        if updateOk env field then
          let w' := mkWorld (page w)
                      (updateRows (id l) (setField field value) (store w)) in
          match field with
          | FStage =>
              if optNe previousValue value then
                logAction (insertOk env (Some "Stage changed"))
                  (mkAction (id l) (Some "Stage changed")
                     (Some ("Stage changed from " ++ orNone previousValue
                            ++ " to " ++ showOpt value))
                     None)
                  w'
              else w'
          | _ => w'
          end
        else
          onPage (fun p =>
                    setLead (option_map (setField field previousValue) (lead p))
                      (setError (Some ("Could not update " ++ fieldName field
                                       ++ "."))
                         p))
                 w in
      onPage (setSavingField None) w1
  end.

(** [await updateLeadField(field, value)]. *)
Definition updateLeadField (cl : option Deal) (field : Field)
  (value : option string) (w : World) : World :=
  updateLeadFieldEnd cl field value (updateLeadFieldBegin cl field value w).

(** *** [handleStageClick]

    Where the source fires two [void updateLeadField(...)] in a row, both
    run up to their store call before either answer arrives; the answers
    are taken in the order of the calls. *)

Definition qualifiedInitialAnswers (l : Deal) : list (string * string) :=
  [ ("scope_works", ""); ("est_start_month", "");
    ("qualified_tender_return_date", orEmpty (tender_return_date l));
    ("scheme_size", ""); ("multi_basis", ""); ("multi_plot_numbers", "");
    ("multi_extra_over_offered", "");
    ("multi_extra_over_client_agreed", "") ].

Definition inReviewInitialAnswers : list (string * string) :=
  [ ("arch_housetype", ""); ("arch_siteplans", ""); ("civils_levels", "");
    ("civils_drainage", ""); ("si_depth", "");
    ("drawings_in_sharepoint", ""); ("sharepoint_link", "") ].

Definition quoteInitialAnswers (l : Deal) (t : TenderDraft)
  : list (string * string) :=
  [ ("quote_reference", ""); ("quote_date", "");
    ("quote_submission_link", ""); ("quote_drawings_link", "");
    ("tender_value",
      if negb (isNull (tender_value l)) then formatNumber (tender_value l) 2
      else draft_value t);
    ("tender_cost",
      if negb (isNull (tender_cost l)) then formatNumber (tender_cost l) 2
      else draft_cost t);
    ("tender_margin",
      if negb (isNull (tender_margin l)) then formatNumber (tender_margin l) 2
      else draft_margin t);
    ("tender_margin_percent",
      if negb (isNull (tender_margin_percent l))
      then formatNumber (tender_margin_percent l) 1
      else draft_margin_percent t);
    ("key_material_rates", ""); ("overall_duration", "");
    ("phases_priced", "") ].

Definition handleStageClick (stage : StageName) (w : World) : World :=
  let cl := lead (page w) in
  match cl with
  | None => w
  | Some l =>
      let current := currentStage cl in
      if stageEqb stage current then w
      else if stageEqb current NoTender && negb (stageEqb stage NoTender) then
        onPage (setError (Some msgNoTenderLocked)) w
      else if stageEqb stage NoTender then
        if negb (confirmOk env) then w
        else
          let w1 := updateLeadFieldBegin cl FProbability None w in
          let w2 := updateLeadFieldBegin cl FStage (Some "No Tender") w1 in
          let w3 := updateLeadFieldEnd cl FProbability None w2 in
          updateLeadFieldEnd cl FStage (Some "No Tender") w3
      else if stageEqb stage Received && negb (stageEqb current Received) then
        onPage (setError (Some msgNoReceived)) w
      else if (stageEqb stage Won || stageEqb stage Lost)
              && (isNull (tender_value l) || isNull (tender_cost l)
                  || isNull (tender_margin l)
                  || isNull (tender_margin_percent l)) then
        onPage (setError (Some msgTenderSummary)) w
      else
        let clearing := stageEqb stage Won || stageEqb stage Lost in
        let w1 := if clearing
                  then updateLeadFieldBegin cl FProbability None w else w in
        let settle (x : World) : World :=
          if clearing then updateLeadFieldEnd cl FProbability None x else x in
        if stageEqb stage Qualified then
          settle (onPage (openGate (stageLabel stage)
                            (qualifiedInitialAnswers l)) w1)
        else if stageEqb stage InReview then
          settle (onPage (openGate (stageLabel stage)
                            inReviewInitialAnswers) w1)
        else if stageEqb stage QuoteSubmitted then
          settle (onPage (fun p => openGate (stageLabel stage)
                                     (quoteInitialAnswers l (tenderDraft p)) p)
                    w1)
        else
          let w2 := updateLeadFieldBegin cl FStage (Some (stageLabel stage))
                      w1 in
          updateLeadFieldEnd cl FStage (Some (stageLabel stage)) (settle w2)
  end.

(** *** The gate confirmations *)

Definition qualifiedSummary (g : list (string * string)) : string :=
  let ans := ansOf g in
  join nl
    ([ "Stage gate: Received → Qualified";
       "";
       "General scope of works: " ++ ans "scope_works";
       "Estimated start (month/year): " ++ ans "est_start_month";
       "Tender return date (at qualification): "
         ++ ans "qualified_tender_return_date";
       "Scheme size: " ++ ans "scheme_size" ]
     ++ (if (ans "scheme_size" =? "Multiple Plots")%string then
           [ "Pricing basis: " ++ ans "multi_basis" ]
           ++ (if (ans "multi_basis" =? "Individual Plots")%string
               then [ "Plots requiring pricing: " ++ ans "multi_plot_numbers" ]
               else [])
           ++ [ "Extra-over for whole site allowed: "
                  ++ ans "multi_extra_over_offered";
                "Client agreed to extra-over: "
                  ++ ans "multi_extra_over_client_agreed" ]
         else [])).

Definition handleConfirmStageChangeToQualified (w : World) : World :=
  let p := page w in
  let cl := lead p in
  let ans := ansOf (gateAnswers p) in
  if negb (optNe (pendingStage p) (Some "Qualified")) then
    if negb (areAllQualifiedGateQuestionsComplete (gateAnswers p)) then w
    else
      match cl with
      | None => w
      | Some l =>
          let newTenderReturn := orNull (ans "qualified_tender_return_date") in
          let w1 := if negb (isNull newTenderReturn)
                    then updateLeadField cl FTenderReturnDate newTenderReturn w
                    else w in
          let estimatedStart := orNull (ans "est_start_month") in
          let w2 := if negb (isNull estimatedStart)
                    then updateLeadField cl FEstimatedStartDate
                           (Some (orEmpty estimatedStart ++ "-01")) w1
                    else w1 in
          let action := mkAction (id l) (Some "Stage gate: Qualified")
                          (Some (qualifiedSummary (gateAnswers p))) None in
          let w3 := logAction (insertOk env (action_type action)) action w2 in
          let w4 := updateLeadField cl FStage (Some "Qualified") w3 in
          onPage closeGate w4
      end
  else w.

Definition receivedOrNot (a : string) : string :=
  if (a =? "Yes")%string then "Received" else "Not received".

Definition inReviewSummary (g : list (string * string)) : string :=
  let ans := ansOf g in
  join nl
    ([ "Stage gate: Qualified → In Review";
       "";
       "Drawings received:";
       "Architect – Housetypes: " ++ receivedOrNot (ans "arch_housetype");
       "Architect – Site plans: " ++ receivedOrNot (ans "arch_siteplans");
       "Civils – External level layouts: "
         ++ receivedOrNot (ans "civils_levels");
       "Civils – Drainage layouts: " ++ receivedOrNot (ans "civils_drainage");
       "";
       "Site investigation depth contained in tender info (m): "
         ++ ans "si_depth";
       "";
       "All drawings placed in SharePoint & labelled as date received: "
         ++ ans "drawings_in_sharepoint" ]
     ++ (if truthy (ans "sharepoint_link")
         then [ "SharePoint location: " ++ ans "sharepoint_link" ]
         else [])).

Definition handleConfirmStageChangeToInReview (w : World) : World :=
  let p := page w in
  let cl := lead p in
  if negb (optNe (pendingStage p) (Some "In Review")) then
    if negb (areAllInReviewGateQuestionsComplete (gateAnswers p)) then w
    else
      match cl with
      | None => w
      | Some l =>
          let action := mkAction (id l) (Some "Stage gate: In Review")
                          (Some (inReviewSummary (gateAnswers p))) None in
          let w1 := logAction (insertOk env (action_type action)) action w in
          let w2 := updateLeadField cl FStage (Some "In Review") w1 in
          onPage closeGate w2
      end
  else w.

Definition quoteSummary (g : list (string * string)) (quoteVersion : nat)
  (tenderValue tenderCost tenderMargin tenderMarginPercent : Q) : string :=
  let ans := ansOf g in
  join nl
    [ "Stage Gate: In Review → Quote Submitted (v"
        ++ stringOfZ (Z.of_nat quoteVersion) ++ ")";
      "";
      "Quote Reference: " ++ ans "quote_reference";
      "Date of Quote: " ++ ans "quote_date";
      "Quotation Submission Link: " ++ ans "quote_submission_link";
      "Quotation Drawings Link: " ++ ans "quote_drawings_link";
      "";
      "Tender Value £: " ++ toFixed tenderValue 2;
      "Tender Cost £: " ++ toFixed tenderCost 2;
      "Tender Margin £: " ++ toFixed tenderMargin 2;
      "Tender Margin %: " ++ toFixed tenderMarginPercent 1 ++ "%";
      "";
      "Procurement key material rates received: " ++ ans "key_material_rates";
      "";
      "Overall Duration of Works: " ++ ans "overall_duration";
      "Phases Priced: " ++ ans "phases_priced" ].

Definition handleConfirmStageChangeToQuoteSubmitted (w : World) : World :=
  let p := page w in
  let cl := lead p in
  let ans := ansOf (gateAnswers p) in
  if negb (optNe (pendingStage p) (Some "Quote Submitted")) then
    if negb (areAllQuoteSubmittedGateQuestionsComplete (gateAnswers p)) then w
    else
      match cl with
      | None => w
      | Some l =>
          match parseFloat (ans "tender_value"),
                parseFloat (ans "tender_cost") with
          | Some tenderValue, Some tenderCost =>
              if Qeq_bool tenderValue 0 then
                onPage (setError (Some msgNumeric)) w
              else
                let tenderMargin := (tenderValue - tenderCost)%Q in
                let tenderMarginPercent :=
                  ((tenderMargin / tenderValue) * 100)%Q in
                let previousSubmissions :=
                  getQuoteSubmissionCount (actions p) in
                let quoteVersion := (previousSubmissions + 1)%nat in
                let action :=
                  mkAction (id l)
                    (Some ("Stage gate: Quote Submitted (v"
                           ++ stringOfZ (Z.of_nat quoteVersion) ++ ")"))
                    (Some (quoteSummary (gateAnswers p) quoteVersion
                             tenderValue tenderCost tenderMargin
                             tenderMarginPercent))
                    None in
                let w1 := logAction (insertOk env (action_type action))
                            action w in
                let w2 :=
                  if tenderUpdateOk env then
                    mkWorld
                      (setTenderDraft
                         (mkDraft (toFixed tenderValue 2)
                            (toFixed tenderCost 2) (toFixed tenderMargin 2)
                            (toFixed tenderMarginPercent 1))
                         (setLead
                            (option_map
                               (setTender tenderValue tenderCost tenderMargin
                                  tenderMarginPercent)
                               (lead (page w1)))
                            (page w1)))
                      (updateRows (id l)
                         (setTender tenderValue tenderCost tenderMargin
                            tenderMarginPercent)
                         (store w1))
                  else
                    onPage (setError
                              (Some "Could not update tender summary on deal."))
                           w1 in
                let w3 := updateLeadField cl FStage (Some "Quote Submitted")
                            w2 in
                onPage closeGate w3
          | _, _ => onPage (setError (Some msgNumeric)) w
          end
      end
  else w.

(** *** [handleRequote] *)

Definition handleRequote (w : World) : World :=
  let cl := lead (page w) in
  match cl with
  | None => w
  | Some l =>
      let w0 := onPage (setError None) w in
      if negb (confirmOk env) then w0
      else
        let action :=
          mkAction (id l) (Some "Re-quote started")
            (Some "Deal moved from Quote Submitted back to In Review to prepare a revised quotation.")
            None in
        let w1 :=
          if insertOk env (action_type action) then logAction true action w0
          else onPage (setError (Some "Could not start re-quote.")) w0 in
        updateLeadField cl FStage (Some "In Review") w1
  end.

(** *** A transition request

    Clicking [stage] on the stage bar and, when that opened a gate,
    filling the form with [answers] and pressing "Confirm & move". *)

Definition confirmGate (w : World) : World :=
  match pendingStage (page w) with
  | Some s =>
      if (s =? "Qualified")%string then
        handleConfirmStageChangeToQualified w
      else if (s =? "In Review")%string then
        handleConfirmStageChangeToInReview w
      else if (s =? "Quote Submitted")%string then
        handleConfirmStageChangeToQuoteSubmitted w
      else w
  | None => w
  end.

Definition requestTransition (stage : StageName)
  (answers : list (string * string)) (w : World) : World :=
  let w1 := handleStageClick stage w in
  if gateModalOpen (page w1) && negb (gateModalOpen (page w))
  then confirmGate (onPage (setGateAnswers answers) w1)
  else w1.

End Handlers.

(** An outside in which the user confirms and every store call succeeds. *)
Definition allOk : Env := mkEnv true (fun _ => true) true (fun _ => true).

End DealDetail.

(** ** Vocabulary of the properties *)

Module Spec.
Import Js.

(** The stage ranks as the specification lists them. *)
Definition stageRank (s : DealDetail.StageName) : Z :=
  match s with
  | DealDetail.Lost | DealDetail.NoTender => 0
  | DealDetail.Received => 1
  | DealDetail.Qualified => 2
  | DealDetail.InReview => 3
  | DealDetail.QuoteSubmitted => 4
  | DealDetail.Won => 5
  end.

(** *** Stage transitions *)

(** The pairs (current stage, target stage) the specification allows. *)
Definition specAllowed (current target : DealDetail.StageName) : bool :=
  match current, target with
  | DealDetail.Received, DealDetail.Qualified
  | DealDetail.Qualified, DealDetail.InReview
  | DealDetail.InReview, DealDetail.QuoteSubmitted
  | DealDetail.QuoteSubmitted, DealDetail.Won
  | DealDetail.QuoteSubmitted, DealDetail.Lost
  | DealDetail.QuoteSubmitted, DealDetail.InReview => true
  | DealDetail.NoTender, _ => false
  | _, DealDetail.NoTender => true
  | _, _ => false
  end.

(** One of the four tender fields of the deal is null. *)
Definition tenderIncomplete (l : DealDetail.Deal) : bool :=
  DealDetail.isNull (DealDetail.tender_value l)
  || DealDetail.isNull (DealDetail.tender_cost l)
  || DealDetail.isNull (DealDetail.tender_margin l)
  || DealDetail.isNull (DealDetail.tender_margin_percent l).

(** The pairs the stage bar lets through: the target is another stage than
    the current one, the current stage is not No Tender, the target is not
    Received, and Won or Lost need the tender summary. *)
Definition allowed (current target : DealDetail.StageName)
  (l : DealDetail.Deal) : bool :=
  negb (DealDetail.stageEqb target current)
  && negb (DealDetail.stageEqb current DealDetail.NoTender)
  && negb (DealDetail.stageEqb target DealDetail.Received)
  && negb ((DealDetail.stageEqb target DealDetail.Won
            || DealDetail.stageEqb target DealDetail.Lost)
           && tenderIncomplete l).

(** The four tender fields of a row. *)
Definition tenderOf (r : DealDetail.Deal)
  : option Q * option Q * option Q * option Q :=
  (DealDetail.tender_value r, DealDetail.tender_cost r,
   DealDetail.tender_margin r, DealDetail.tender_margin_percent r).

(** The audit entries that count as earlier quote submissions. *)
Definition quoteEntries (acts : list DealDetail.DealAction)
  : list DealDetail.DealAction :=
  filter (fun a => match DealDetail.action_type a with
                   | Some t => String.prefix "Stage gate: Quote Submitted" t
                   | None => false
                   end) acts.

(** The identifier and the stage of every row of [deals]. *)
Definition idStages (s : DealDetail.Store) : list (string * option string) :=
  map (fun r => (DealDetail.id r, DealDetail.stage r)) (DealDetail.deals s).

(** The rows of deal [i] are given stage [v]; the others keep theirs. *)
Definition withStage (i : string) (v : option string)
  (rows : list (string * option string)) : list (string * option string) :=
  map (fun p => if (fst p =? i)%string then (fst p, v) else p) rows.

(** Nothing but the error message differs between two worlds. *)
Definition sameButError (w w' : DealDetail.World) : Prop :=
  DealDetail.store w' = DealDetail.store w
  /\ DealDetail.lead (DealDetail.page w') = DealDetail.lead (DealDetail.page w)
  /\ DealDetail.actions (DealDetail.page w')
     = DealDetail.actions (DealDetail.page w)
  /\ DealDetail.gateModalOpen (DealDetail.page w')
     = DealDetail.gateModalOpen (DealDetail.page w)
  /\ DealDetail.pendingStage (DealDetail.page w')
     = DealDetail.pendingStage (DealDetail.page w)
  /\ DealDetail.tenderDraft (DealDetail.page w')
     = DealDetail.tenderDraft (DealDetail.page w).

(** Sample data: a deal in Received, the page showing it, and complete
    answers for the In Review and the Quote Submitted gates. *)
Definition sampleDeal (st : string) (fin : option Q) : DealDetail.Deal :=
  DealDetail.mkDeal "d1" None None (Some st) (Some "A") fin fin fin fin.

Definition sampleWorld (l : DealDetail.Deal) : DealDetail.World :=
  DealDetail.mkWorld
    (DealDetail.mkPage (Some l) [] None None false None []
       (DealDetail.mkDraft "" "" "" ""))
    (DealDetail.mkStore [l] []).

Definition inReviewAnswers : list (string * string) :=
  [ ("arch_housetype", "Yes"); ("arch_siteplans", "No");
    ("civils_levels", "Yes"); ("civils_drainage", "Yes"); ("si_depth", "12");
    ("drawings_in_sharepoint", "Yes") ].

Definition quoteAnswers (value cost : string) : list (string * string) :=
  [ ("quote_reference", "Q-1"); ("quote_date", "2025-01-01");
    ("quote_submission_link", "https://example.org/q");
    ("quote_drawings_link", "https://example.org/d");
    ("tender_value", value); ("tender_cost", cost);
    ("tender_margin", "1.00"); ("tender_margin_percent", "2.0");
    ("key_material_rates", "Yes"); ("overall_duration", "3 weeks");
    ("phases_priced", "all") ].

(** The page with the Quote Submitted gate open on answers [g]. *)
Definition quoteGateWorld (l : DealDetail.Deal) (g : list (string * string))
  : DealDetail.World :=
  DealDetail.mkWorld
    (DealDetail.mkPage (Some l) [] None None true (Some "Quote Submitted") g
       (DealDetail.mkDraft "" "" "" ""))
    (DealDetail.mkStore [l] []).

(** Two tenders of project AP 1: a Qualified one of 100 in bucket B and a
    Quote Submitted one of 80 in bucket A. *)
Definition tenderQualified : Dashboard.Deal :=
  Dashboard.mkDeal "q" (Some 1) None None (Some "Qualified") (Some "B")
    (Some (Dashboard.Num 100)) None None.
Definition tenderQuoted : Dashboard.Deal :=
  Dashboard.mkDeal "s" (Some 1) None None (Some "Quote Submitted") (Some "A")
    (Some (Dashboard.Num 80)) None None.

(** A Lost tender of 1000 with an estimated start in March 2025. *)
Definition tenderLost : Dashboard.Deal :=
  Dashboard.mkDeal "x" (Some 7) None None (Some "Lost") (Some "A")
    (Some (Dashboard.Num 1000)) None (Some "2025-03-01").

(** A Received tender whose probability is the name of an inherited
    member. *)
Definition inheritedProbability : Dashboard.Deal :=
  Dashboard.mkDeal "w" None None None (Some "Received") (Some "constructor")
    (Some (Dashboard.Num 100)) None None.

(** Two tenders of project AP 1 that agree on stage, probability, value
    and enquiry date, the date being no date. *)
Definition unparsedA : Dashboard.Deal :=
  Dashboard.mkDeal "a" (Some 1) None (Some "soon") (Some "Received")
    (Some "B") (Some (Dashboard.Num 100)) None None.
Definition unparsedB : Dashboard.Deal :=
  Dashboard.mkDeal "b" (Some 1) None (Some "soon") (Some "Received")
    (Some "B") (Some (Dashboard.Num 100)) None None.

(** Two tenders of project AP 1, one Received and one whose stage is the
    name of an inherited member. *)
Definition receivedPlain : Dashboard.Deal :=
  Dashboard.mkDeal "r" (Some 1) None None (Some "Received") None None None
    None.
Definition inheritedStage : Dashboard.Deal :=
  Dashboard.mkDeal "c" (Some 1) None None (Some "constructor") None None None
    None.

(** A deal of which only the enquiry date is known. *)
Definition dealDated (date : string) : Dashboard.Deal :=
  Dashboard.mkDeal "d" None None (Some date) None None None None None.

(** Every row of the financial-year map sits under its own year. *)
Definition fyMapOk (m : list (Z * Dashboard.FyTenderRow)) : Prop :=
  Forall (fun kv => Dashboard.fyEndYear (snd kv) = fst kv) m.

Section WithBuiltins.
Context `{Builtins}.
Import Dashboard.

(** The enquiry date of [d] is absent or parses. *)
Definition dateValid (d : Deal) : Prop := enquiryTime d <> None.

(** The epoch milliseconds [chooseBestDealForAp] compares, 0 for [NaN]. *)
Definition timeOf (d : Deal) : Z :=
  match enquiryTime d with
  | Some t => t
  | None => 0
  end.

(** Neither the stage of [d], as the comparison reads it, nor its
    probability names a member of [Object.prototype]: the two tables are
    then read by their own keys only. *)
Definition ownKeys (d : Deal) : Prop :=
  protoMember (lowerStage d) = None
  /\ (forall p, probability d = Some p -> protoMember p = None).

(** The stage rank of a deal by the own keys of [STAGE_PRIORITY], 0 for
    any other stage. *)
Definition rank (d : Deal) : Q :=
  match lookup (lowerStage d) STAGE_PRIORITY with
  | Some r => r
  | None => 0%Q
  end.

(** The forecast weight of a deal by the own keys of [PROB_WEIGHTS]: 1 for
    Won, 0 for Lost and No Tender, else the weight of the bucket, 0 for any
    other probability. *)
Definition weight (d : Deal) : Q :=
  if (lowerStage d =? "won")%string then 1%Q
  else if (lowerStage d =? "lost")%string
          || (lowerStage d =? "no tender")%string then 0%Q
  else
    match probability d with
    | Some p =>
        match lookup p PROB_WEIGHTS with
        | Some w => w
        | None => 0%Q
        end
    | None => 0%Q
    end.

(** The four criteria of [d] are the numbers the comparison is meant to
    compare. *)
Definition regular (d : Deal) : Prop := dateValid d /\ ownKeys d.

(** [x] wins against [y] on the first criterion that differs. *)
Definition better (x y : Deal) : Prop :=
  (rank y < rank x)%Q \/
  ((rank y == rank x)%Q /\
   ((weight y < weight x)%Q \/
    ((weight y == weight x)%Q /\
     ((toNumber (tender_value y) < toNumber (tender_value x))%Q \/
      ((toNumber (tender_value y) == toNumber (tender_value x))%Q /\
       timeOf y < timeOf x))))).

(** [x] and [y] tie on all four criteria. *)
Definition tied (x y : Deal) : Prop :=
  (rank x == rank y)%Q
  /\ (weight x == weight y)%Q
  /\ (toNumber (tender_value x) == toNumber (tender_value y))%Q
  /\ timeOf x = timeOf y.

(** One step of the reduction of a group: the first member is kept, every
    later one is compared with the best so far. *)
Definition pickStep (choose : Deal -> Deal -> Deal) (o : option Deal)
  (d : Deal) : option Deal :=
  match o with
  | None => Some d
  | Some e => Some (choose e d)
  end.

(** The members of the group of key [k], in the order of the input. *)
Definition groupOf (k : string) (l : list Deal) : list Deal :=
  filter (fun d => (apKey d =? k)%string) l.

(** Two tenders of project AP 1 that differ only in their identifier. *)
Definition twinA : Deal :=
  mkDeal "a" (Some 1) None (Some "2025-01-10") (Some "Received") (Some "B")
    (Some (Num 100)) None None.
Definition twinB : Deal :=
  mkDeal "b" (Some 1) None (Some "2025-01-10") (Some "Received") (Some "B")
    (Some (Num 100)) None None.

(** The answers pass the gate of the target stage, where it has one. *)
Definition gatePasses (target : DealDetail.StageName)
  (answers : list (string * string)) : bool :=
  match target with
  | DealDetail.Qualified =>
      DealDetail.areAllQualifiedGateQuestionsComplete answers
  | DealDetail.InReview =>
      DealDetail.areAllInReviewGateQuestionsComplete answers
  | DealDetail.QuoteSubmitted =>
      DealDetail.areAllQuoteSubmittedGateQuestionsComplete answers
      && match parseFloat (DealDetail.ansOf answers "tender_value"),
               parseFloat (DealDetail.ansOf answers "tender_cost") with
         | Some v, Some _ => negb (Qeq_bool v 0)
         | _, _ => false
         end
  | _ => true
  end.

(** The test that makes the two bucket loops skip a deal. *)
Definition skipped (d : Deal) : Prop :=
  lowerStage d = "lost" \/ lowerStage d = "no tender"
  \/ truthyOpt (estimated_start_date d) = false
  \/ newDate (orEmpty (estimated_start_date d)) = None.

End WithBuiltins.
End Spec.

(** ** The dashboard page: the financial-year filter *)

Module DashboardMore.
Import Js Dashboard.

(** [isInFinancialYear]; [fyEndYear] is a number, [None] when it is [NaN]. *)
Definition isInFinancialYear (date : JsDate) (fyEndYear : option Q) : bool :=
  let year := getFullYear date in
  let month := getMonth date in
  match fyEndYear with
  | None => false
  | Some fy =>
      if Qeq_bool fy (inject_Z year) then (0 <=? month) && (month <=? 10)
      else if Qeq_bool fy (inject_Z (year + 1)) then month =? 11
      else false
  end.

(** [set.add(x)] on a [Set<number>] kept in insertion order. *)
Definition setAdd (x : Z) (s : list Z) : list Z :=
  if existsb (Z.eqb x) s then s else (s ++ [x])%list.

Section WithBuiltins.
Context `{Builtins}.

(** One iteration of the [forEach] of [distinctFinancialYears]. *)
Definition fyYearStep (set : list Z) (d : Deal) : list Z :=
  if negb (truthyOpt (enquiry_date d)) then set
  else
    match newDate (orEmpty (enquiry_date d)) with
    | None => set
    | Some dt => setAdd (getFinancialYearEnd dt) set
    end.

Definition distinctFinancialYears (deals : list Deal) : list Z :=
  sortBy (fun a b => a - b <=? 0) (fold_left fyYearStep deals []).

End WithBuiltins.
End DashboardMore.

(** ** The forecast page: headline figures and year-over-year counts *)

Module ForecastMore.
Import Js.
Import Forecast.

Definition MONTH_NAMES : list string :=
  [ "Jan"; "Feb"; "Mar"; "Apr"; "May"; "Jun";
    "Jul"; "Aug"; "Sep"; "Oct"; "Nov"; "Dec" ].

Record YoYRow : Type := mkYoYRow {
  monthIndex : Z;
  monthName : string;
  currentYearCount : Z;
  previousYearCount : Z
}.

Record YoYData : Type := mkYoY {
  currentYear : Z;
  previousYear : Z;
  rows : list YoYRow;
  avgCurrent : Q;
  avgPrev : Q;
  delta : option Q
}.

(** A row of the salesperson breakdown. *)
Record SalesRow : Type := mkSalesRow {
  sales_name : string;
  sales_deals : Z;
  sales_total : Q;
  sales_won : Q;
  sales_expected : option Q  (* [NaN] once a weight is not a number *)
}.

(** [map.get(i) || 0] on a [Map<number, number>]. *)
Definition countAt (m : list (Z * Z)) (i : Z) : Z :=
  match mapGet Z.eqb i m with
  | Some c => c
  | None => 0
  end.

Section WithBuiltins.
Context `{Builtins}.

(** The headline figures, over the filtered deals they are given. *)
Definition totalTender (filteredDeals : list Deal) : Q :=
  fold_left (fun sum d => (sum + toNumber (tender_value d))%Q) filteredDeals 0%Q.

Definition wonTender (filteredDeals : list Deal) : Q :=
  fold_left (fun sum d => (sum + toNumber (tender_value d))%Q)
    (filter (fun d => (toLowerCase (orEmpty (stage d)) =? "won")%string)
       filteredDeals)
    0%Q.

Definition expectedTender (filteredDeals : list Deal) : option Q :=
  fold_left
    (fun sum d =>
       nanPlus sum (numTimes (toNumber (tender_value d)) (getDealWeight d)))
    filteredDeals (Some 0%Q).

(** [totalTender > 0 ? wonTender / totalTender : null]. *)
Definition winRate (filteredDeals : list Deal) : option Q :=
  if numGt (totalTender filteredDeals) 0
  then Some (wonTender filteredDeals / totalTender filteredDeals)%Q
  else None.

(** One iteration of the [forEach] of [buildYearMonthCounts]. *)
Definition yearMonthStep (year : Z) (m : list (Z * Z)) (d : Deal)
  : list (Z * Z) :=
  if negb (truthyOpt (enquiry_date d)) then m
  else
    match newDate (orEmpty (enquiry_date d)) with
    | None => m
    | Some dt =>
        if negb (getFullYear dt =? year) then m
        else
          let monthIndex := getMonth dt in
          mapSet Z.eqb monthIndex (countAt m monthIndex + 1) m
    end.

Definition buildYearMonthCounts (deals : list Deal) (year : Z)
  : list (Z * Z) :=
  fold_left (yearMonthStep year) deals [].

Definition yoyRows (currentMap prevMap : list (Z * Z)) : list YoYRow :=
  map (fun i => mkYoYRow (Z.of_nat i) (nth i MONTH_NAMES "")
                  (countAt currentMap (Z.of_nat i))
                  (countAt prevMap (Z.of_nat i)))
    (seq 0 12).

Definition yoyData (deals : list Deal) (yoyYearCurrent yoyYearPrevious : option Z)
  : option YoYData :=
  match deals, yoyYearCurrent, yoyYearPrevious with
  | _ :: _, Some yc, Some yp =>
      let currentMap := buildYearMonthCounts deals yc in
      let prevMap := buildYearMonthCounts deals yp in
      let rows := yoyRows currentMap prevMap in
      let totalCurrent :=
        fold_left (fun sum r => sum + currentYearCount r) rows 0 in
      let totalPrev :=
        fold_left (fun sum r => sum + previousYearCount r) rows 0 in
      let avgCurrent := (inject_Z totalCurrent / 12)%Q in
      let avgPrev := (inject_Z totalPrev / 12)%Q in
      let delta :=
        if numGt avgPrev 0 then Some ((avgCurrent - avgPrev) / avgPrev)%Q
        else None in
      Some (mkYoY yc yp rows avgCurrent avgPrev delta)
  | _, _, _ => None
  end.

(** One iteration of the [forEach] of [salespersonMap]. *)
Definition salespersonStep (m : list (string * SalesRow)) (d : Deal)
  : list (string * SalesRow) :=
  let name :=
    match salesperson d with
    | Some s => if truthy (trim s) then trim s else "Unassigned"
    | None => "Unassigned"
    end in
  let existing :=
    match mapGet String.eqb name m with
    | Some e => e
    | None => mkSalesRow name 0 0 0 (Some 0%Q)
    end in
  let value := toNumber (tender_value d) in
  mapSet String.eqb name
    (mkSalesRow (sales_name existing)
       (sales_deals existing + 1)
       (sales_total existing + value)%Q
       (if (toLowerCase (orEmpty (stage d)) =? "won")%string
        then (sales_won existing + value)%Q else sales_won existing)
       (nanPlus (sales_expected existing)
          (numTimes value (getDealWeight d))))
    m.

(** The rows, largest total first. *)
Definition salespersonMap (filteredDeals : list Deal) : list SalesRow :=
  sortBy (fun a b => Qle_bool (sales_total b - sales_total a) 0)
    (mapValues (fold_left salespersonStep filteredDeals [])).

End WithBuiltins.
End ForecastMore.

(** ** The deal detail page: month input, finance helpers, tender summary
    and the action form *)

Module DealDetailMore.
Import Js.
Import DealDetail.

(** [toMonthInputValue]: a stored [YYYY-MM-DD] shown as [YYYY-MM]. *)
Definition toMonthInputValue (dateStr : option string) : string :=
  if truthyOpt dateStr then String.substring 0 7 (orEmpty dateStr) else "".

(** [saveEstimatedStartMonth(value, updateFn)]. *)
Definition saveEstimatedStartMonth {W : Type} (value : string)
  (updateFn : Field -> option string -> W) : W :=
  let dbValue := if truthy value then Some (value ++ "-01") else None in
  updateFn FEstimatedStartDate dbValue.

(** The two inputs of the finance block of the quoting gate. *)
Inductive FinanceField : Type :=
| FTenderValue | FTenderCost.

Definition financeKey (f : FinanceField) : string :=
  match f with
  | FTenderValue => "tender_value"
  | FTenderCost => "tender_cost"
  end.

(** [s || "0"] for [s : string | undefined]. *)
Definition orZero (s : option string) : string :=
  if truthyOpt s then orEmpty s else "0".

(** The messages of the tender summary block. *)
Record TenderPanel : Type := mkPanel {
  tenderSaving : bool;
  tenderError : option string;
  tenderSuccess : option string
}.

Record ActionForm : Type := mkForm {
  form_action_type : string;
  form_notes : string;
  form_file_url : string
}.

(** The state of the action form. *)
Record ActionPanel : Type := mkActionPanel {
  actionForm : ActionForm;
  actionError : option string;
  actionSaving : bool
}.

Section WithBuiltins.
Context `{Builtins}.
Variable env : Env.

(** The state update of [updateGateFinance], on the answers bag. *)
Definition updateGateFinance (field : FinanceField) (value : string)
  (prev : list (string * string)) : list (string * string) :=
  let next := mapSet String.eqb (financeKey field) value prev in
  let blank :=
    mapSet String.eqb "tender_margin_percent" ""
      (mapSet String.eqb "tender_margin" "" next) in
  match parseFloat (orZero (lookup "tender_value" next)),
        parseFloat (orZero (lookup "tender_cost" next)) with
  | Some val, Some cost =>
      if negb (Qeq_bool val 0) then
        let margin := (val - cost)%Q in
        let marginPercent := ((margin / val) * 100)%Q in
        mapSet String.eqb "tender_margin_percent" (toFixed marginPercent 1)
          (mapSet String.eqb "tender_margin" (toFixed margin 2) next)
      else blank
  | _, _ => blank
  end.

(** [recomputeTenderDraft]: the margin and the margin percent to show. *)
Definition recomputeTenderDraft (valueStr costStr : string) : string * string :=
  match parseFloat (orZero (Some valueStr)),
        parseFloat (orZero (Some costStr)) with
  | Some val, Some cost =>
      if negb (Qeq_bool val 0) then
        let margin := (val - cost)%Q in
        let marginPercent := ((margin / val) * 100)%Q in
        (toFixed margin 2, toFixed marginPercent 1)
      else ("", "")
  | _, _ => ("", "")
  end.

(** The state update of [handleTenderDraftChange], on the draft. *)
Definition handleTenderDraftChange (field : FinanceField) (value : string)
  (prev : TenderDraft) : TenderDraft :=
  let '(m, mp) :=
    recomputeTenderDraft
      (match field with
       | FTenderValue => value
       | FTenderCost => draft_value prev
       end)
      (match field with
       | FTenderCost => value
       | FTenderValue => draft_cost prev
       end) in
  mkDraft
    (match field with
     | FTenderValue => value
     | FTenderCost => draft_value prev
     end)
    (match field with
     | FTenderCost => value
     | FTenderValue => draft_cost prev
     end)
    m mp.

Definition handleSaveTenderSummary (wp : World * TenderPanel)
  : World * TenderPanel :=
  let w := fst wp in
  let tp := snd wp in
  match lead (page w) with
  | None => wp
  | Some l =>
      let draft := tenderDraft (page w) in
      match parseFloat (orZero (Some (draft_value draft))),
            parseFloat (orZero (Some (draft_cost draft))) with
      | Some val, Some cost =>
          if Qeq_bool val 0 then
            (w, mkPanel (tenderSaving tp) (Some msgNumeric) None)
          else
            let margin := (val - cost)%Q in
            let marginPercent := ((margin / val) * 100)%Q in
            if tenderUpdateOk env then
              (mkWorld
                 (setTenderDraft
                    (mkDraft (toFixed val 2) (toFixed cost 2)
                       (toFixed margin 2) (toFixed marginPercent 1))
                    (setLead
                       (option_map (setTender val cost margin marginPercent)
                          (lead (page w)))
                       (page w)))
                 (updateRows (id l) (setTender val cost margin marginPercent)
                    (store w)),
               mkPanel false None (Some "Tender summary saved."))
            else
              (w, mkPanel false (Some "Could not save tender summary.") None)
      | _, _ => (w, mkPanel (tenderSaving tp) (Some msgNumeric) None)
      end
  end.

(** The [onChange] of the estimated start month input. *)
Definition handleEstimatedStartChange (monthVal : string) (w : World) : World :=
  let cl := lead (page w) in
  let w1 :=
    onPage (fun p =>
              setLead
                (option_map
                   (setField FEstimatedStartDate
                      (if truthy monthVal then Some (monthVal ++ "-01")
                       else None))
                   (lead p))
                p)
      w in
  saveEstimatedStartMonth monthVal (fun f v => updateLeadField env cl f v w1).

Definition handleAddAction (wp : World * ActionPanel) : World * ActionPanel :=
  let w := fst wp in
  let ap := snd wp in
  match lead (page w) with
  | None => wp
  | Some l =>
      let trimmedType := trim (form_action_type (actionForm ap)) in
      let trimmedNotes := trim (form_notes (actionForm ap)) in
      let trimmedFileUrl := trim (form_file_url (actionForm ap)) in
      let combinedNotes :=
        if truthy trimmedNotes && truthy trimmedFileUrl
        then trimmedNotes ++ nl ++ trimmedFileUrl
        else if truthy trimmedNotes then trimmedNotes else trimmedFileUrl in
      if negb (truthy trimmedType) && negb (truthy combinedNotes) then
        (w, mkActionPanel (actionForm ap)
              (Some "Please enter an action type or some notes / link.")
              (actionSaving ap))
      else
        let entry := mkAction (id l) (orNull trimmedType) (orNull combinedNotes)
                       None in
        if insertOk env (action_type entry) then
          (logAction true entry w,
           mkActionPanel (mkForm "" "" "") None false)
        else
          (w, mkActionPanel (actionForm ap) (Some "Could not add action.")
                false)
  end.

End WithBuiltins.
End DealDetailMore.

(** ** The dashboard page: the stage tiles *)

Module DashboardKpi.
Import Js.
Import Dashboard.







Section WithBuiltins.
Context `{Builtins}.



End WithBuiltins.
End DashboardKpi.

(** ** Vocabulary of the further properties *)

Module Inv.
Import Js.

(** Every entry of the collapse map is filed under the key of its deal. *)
Definition keyedOk (m : list (string * Dashboard.Deal)) : Prop :=
  Forall (fun kv => Dashboard.apKey (snd kv) = fst kv) m.

(** The sum of a list of integers. *)
Definition sumZ (xs : list Z) : Z := fold_right Z.add 0 xs.

(** The counters of a row of the financial-year summary are consistent. *)
Definition fyRowOk (r : Dashboard.FyTenderRow) : Prop :=
  0 <= Dashboard.quotesSubmitted r /\ 0 <= Dashboard.wonCount r
  /\ Dashboard.quotesSubmitted r + Dashboard.wonCount r <= Dashboard.tenders r.

(** The sum of a list of numbers. *)
Definition sumQ (xs : list Q) : Q := fold_right Qplus 0%Q xs.

(** Sample data: complete answers for the Qualified gate, the page with a
    gate open on given answers, the page with a tender draft typed in, and
    a quoted tender with an estimated start. *)
Definition qualifiedAnswers : list (string * string) :=
  [ ("scope_works", "Piling"); ("est_start_month", "2025-03");
    ("qualified_tender_return_date", "2025-02-14");
    ("scheme_size", "Single Plot") ].

Definition gateWorld (l : DealDetail.Deal) (label : string)
  (g : list (string * string)) : DealDetail.World :=
  DealDetail.mkWorld
    (DealDetail.mkPage (Some l) [] None None true (Some label) g
       (DealDetail.mkDraft "" "" "" ""))
    (DealDetail.mkStore [l] []).

Definition draftWorld (l : DealDetail.Deal) (value cost : string)
  : DealDetail.World :=
  DealDetail.mkWorld
    (DealDetail.mkPage (Some l) [] None None false None []
       (DealDetail.mkDraft value cost "" ""))
    (DealDetail.mkStore [l] []).

Definition tenderStarting : Dashboard.Deal :=
  Dashboard.mkDeal "p" (Some 3) None (Some "2025-01-10")
    (Some "Quote Submitted") (Some "A") (Some (Dashboard.Num 80)) None
    (Some "2025-03-01").

(** A store that refuses every update. *)
Definition refuseUpdates : DealDetail.Env :=
  DealDetail.mkEnv true (fun _ => false) true (fun _ => true).

Section WithBuiltins.
Context `{Builtins}.

(** The deal has an enquiry date that parses. *)
Definition hasEnquiryDate (d : Dashboard.Deal) : bool :=
  truthyOpt (Dashboard.enquiry_date d)
  && match newDate (orEmpty (Dashboard.enquiry_date d)) with
     | Some _ => true
     | None => false
     end.

(** The enquiry date of the deal parses to a date of year [y]. *)
Definition enquiredIn (y : Z) (d : Dashboard.Deal) : bool :=
  truthyOpt (Dashboard.enquiry_date d)
  && match newDate (orEmpty (Dashboard.enquiry_date d)) with
     | Some dt => getFullYear dt =? y
     | None => false
     end.

(** The month of every enquiry date that parses is one of the twelve. *)
Definition monthsInRange (deals : list Dashboard.Deal) : Prop :=
  forall d dt, In d deals ->
               newDate (orEmpty (Dashboard.enquiry_date d)) = Some dt ->
               0 <= getMonth dt <= 11.

(** The forecast loop takes the deal into a month bucket. *)
Definition forecastIncludes (fromMonth toMonth : string)
  (excludeStartedWon : bool) (today : Z) (d : Dashboard.Deal) : bool :=
  truthyOpt (Dashboard.estimated_start_date d)
  && match newDate (orEmpty (Dashboard.estimated_start_date d)) with
     | None => false
     | Some dt =>
         Forecast.isDateInMonthRange dt fromMonth toMonth
         && negb ((Dashboard.lowerStage d =? "lost")%string
                  || (Dashboard.lowerStage d =? "no tender")%string)
         && negb ((Dashboard.lowerStage d =? "won")%string
                  && excludeStartedWon && (getTime dt <? today))
     end.

(** The answers answer every question of the gate of the target stage. *)
Definition gateComplete (target : DealDetail.StageName)
  (answers : list (string * string)) : bool :=
  match target with
  | DealDetail.Qualified =>
      DealDetail.areAllQualifiedGateQuestionsComplete answers
  | DealDetail.InReview =>
      DealDetail.areAllInReviewGateQuestionsComplete answers
  | DealDetail.QuoteSubmitted =>
      DealDetail.areAllQuoteSubmittedGateQuestionsComplete answers
  | _ => false
  end.


(** The deal is Won, as the reports read the stage. *)
Definition isWon (d : Dashboard.Deal) : bool :=
  (Dashboard.lowerStage d =? "won")%string.

(** The tender value of the deal as a number. *)
Definition valueOf (d : Dashboard.Deal) : Q :=
  Dashboard.toNumber (Dashboard.tender_value d).

(** The three running sums the reports keep per month or per salesperson,
    over the deals [g] of the group in the order they are met: the values,
    the values of the Won deals and the weighted values. *)
Definition runningTotal (g : list Dashboard.Deal) : Q :=
  fold_left (fun s d => (s + valueOf d)%Q) g 0%Q.

Definition runningWon (g : list Dashboard.Deal) : Q :=
  fold_left (fun s d => if isWon d then (s + valueOf d)%Q else s) g 0%Q.

Definition runningExpected (g : list Dashboard.Deal) : option Q :=
  fold_left
    (fun s d => nanPlus s (numTimes (valueOf d) (Forecast.getDealWeight d)))
    g (Some 0%Q).

(** The month key of the estimated start of a deal. *)
Definition startMonthKey (d : Dashboard.Deal) : string :=
  match newDate (orEmpty (Dashboard.estimated_start_date d)) with
  | Some dt =>
      stringOfZ (getFullYear dt) ++ "-"
      ++ padStart2 (stringOfZ (getMonth dt + 1))
  | None => ""
  end.

(** The name a deal is counted under in the salesperson breakdown. *)
Definition salesName (d : Dashboard.Deal) : string :=
  match Dashboard.salesperson d with
  | Some s => if truthy (trim s) then trim s else "Unassigned"
  | None => "Unassigned"
  end.

(** The month bucket the forecast loop puts a deal in, if it takes it. *)
Definition forecastKey (fromMonth toMonth : string)
  (excludeStartedWon : bool) (today : Z) (d : Dashboard.Deal)
  : option string :=
  if forecastIncludes fromMonth toMonth excludeStartedWon today d
  then Some (startMonthKey d) else None.

(** The update of a month's aggregate by one deal, and the aggregate a
    month starts from. *)
Definition forecastAdd (k : string) (cur : Forecast.ForecastAgg)
  (d : Dashboard.Deal) : Forecast.ForecastAgg :=
  Forecast.mkAgg (Forecast.total cur + valueOf d)%Q
    (nanPlus (Forecast.expected cur)
       (numTimes (valueOf d) (Forecast.getDealWeight d)))
    (if isWon d then (Forecast.won cur + valueOf d)%Q else Forecast.won cur)
    (Forecast.monthlyTarget k).

Definition forecastFresh (k : string) : Forecast.ForecastAgg :=
  Forecast.mkAgg 0%Q (Some 0%Q) 0%Q (Forecast.monthlyTarget k).

(** The update of a salesperson's row by one deal, and the row a name
    starts from. *)
Definition salesAdd (k : string) (cur : ForecastMore.SalesRow)
  (d : Dashboard.Deal) : ForecastMore.SalesRow :=
  ForecastMore.mkSalesRow (ForecastMore.sales_name cur)
    (ForecastMore.sales_deals cur + 1)
    (ForecastMore.sales_total cur + valueOf d)%Q
    (if isWon d then (ForecastMore.sales_won cur + valueOf d)%Q
     else ForecastMore.sales_won cur)
    (nanPlus (ForecastMore.sales_expected cur)
       (numTimes (valueOf d) (Forecast.getDealWeight d))).

Definition salesFresh (k : string) : ForecastMore.SalesRow :=
  ForecastMore.mkSalesRow k 0 0%Q 0%Q (Some 0%Q).

End WithBuiltins.

(** A loop that keeps one aggregate per key in a [Map]: a deal without a
    key is skipped, otherwise the aggregate of its key, a fresh one at the
    first deal of the key, is updated and put back. *)
Section Grouped.
Context {D V : Type} (key : D -> option string) (fresh : string -> V)
  (add : string -> V -> D -> V).

Definition groupStep (m : list (string * V)) (d : D) : list (string * V) :=
  match key d with
  | None => m
  | Some k =>
      mapSet String.eqb k
        (add k
           match mapGet String.eqb k m with
           | Some v => v
           | None => fresh k
           end
           d)
        m
  end.

(** The deals of key [k], in the order of the input. *)
Definition groupAt (k : string) (l : list D) : list D :=
  filter (fun d => match key d with
                   | Some k' => (k' =? k)%string
                   | None => false
                   end) l.
End Grouped.

End Inv.

(* ================================================================= *)
(** * Part II: properties *)
(* ================================================================= *)

Import Js.

(** ** Strings and tables *)

Lemma truthy_false_iff (s : string) : truthy s = false <-> s = "".
Proof.
  unfold truthy. destruct (String.eqb_spec s ""); simpl; split; congruence.
Qed.

Lemma prob_weights_cases (p : string) :
  (p = "A" /\ lookup p Dashboard.PROB_WEIGHTS = Some (3 # 4)%Q) \/
  (p = "B" /\ lookup p Dashboard.PROB_WEIGHTS = Some (1 # 2)%Q) \/
  (p = "C" /\ lookup p Dashboard.PROB_WEIGHTS = Some (1 # 4)%Q) \/
  (p = "D" /\ lookup p Dashboard.PROB_WEIGHTS = Some (1 # 10)%Q) \/
  (p <> "A" /\ p <> "B" /\ p <> "C" /\ p <> "D"
   /\ lookup p Dashboard.PROB_WEIGHTS = None).
Proof.
  unfold Dashboard.PROB_WEIGHTS; simpl.
  destruct (String.eqb_spec p "A"); [left; auto|].
  destruct (String.eqb_spec p "B"); [right; left; auto|].
  destruct (String.eqb_spec p "C"); [right; right; left; auto|].
  destruct (String.eqb_spec p "D"); [right; right; right; left; auto|].
  right; right; right; right; auto.
Qed.

(** ** The weighting function *)

Section Weight.
Context `{Builtins}.
Import Dashboard Spec.

Lemma weight_values (d : Deal) :
  weight d = 1%Q \/ weight d = 0%Q \/
  weight d = (3 # 4)%Q \/ weight d = (1 # 2)%Q \/
  weight d = (1 # 4)%Q \/ weight d = (1 # 10)%Q.
Proof.
  unfold weight.
  destruct (lowerStage d =? "won")%string; [now left|].
  destruct ((_ =? "lost")%string || _); [now (right; left)|].
  destruct (probability d) as [p|]; [|now (right; left)].
  destruct (prob_weights_cases p)
    as [[_ ->]|[[_ ->]|[[_ ->]|[[_ ->]|(_ & _ & _ & _ & ->)]]]];
    simpl; auto 10.
Qed.

Lemma weight_bounds (d : Deal) : (0 <= weight d <= 1)%Q.
Proof.
  destruct (weight_values d) as [E|[E|[E|[E|[E|E]]]]]; rewrite E;
    split; unfold Qle; simpl; lia.
Qed.

Lemma weight_active (d : Deal) :
  lowerStage d <> "won" -> lowerStage d <> "lost" ->
  lowerStage d <> "no tender" ->
  weight d =
    match probability d with
    | Some p =>
        match lookup p PROB_WEIGHTS with
        | Some w => w
        | None => 0%Q
        end
    | None => 0%Q
    end.
Proof.
  unfold weight. intros Hw Hl Hn.
  destruct (String.eqb_spec (lowerStage d) "won"); [contradiction|].
  destruct (String.eqb_spec (lowerStage d) "lost"); [contradiction|].
  destruct (String.eqb_spec (lowerStage d) "no tender"); [contradiction|].
  reflexivity.
Qed.

(** Read by its own keys, the table gives the weight as a number. *)
Lemma getDealWeight_own (d : Deal) :
  (forall p, probability d = Some p -> protoMember p = None) ->
  getDealWeight d = Plain (weight d).
Proof.
  intros Hp. unfold getDealWeight, weight, lowerStage.
  destruct (toLowerCase (orEmpty (stage d)) =? "won")%string; [reflexivity|].
  destruct ((_ =? "lost")%string || _); [reflexivity|].
  destruct (probability d) as [p|]; [|reflexivity].
  specialize (Hp p eq_refl). unfold readKey. rewrite Hp.
  destruct (truthy p) eqn:Ht.
  - destruct (prob_weights_cases p)
      as [[_ ->]|[[_ ->]|[[_ ->]|[[_ ->]|(_ & _ & _ & _ & ->)]]]];
      reflexivity.
  - apply truthy_false_iff in Ht. subst p. reflexivity.
Qed.

(** An inherited member under the probability of an open deal is returned
    as the weight. *)
Lemma getDealWeight_inherited (d : Deal) (p : string) (o : JsObject) :
  lowerStage d <> "won" -> lowerStage d <> "lost" ->
  lowerStage d <> "no tender" ->
  probability d = Some p -> p <> "" ->
  lookup p PROB_WEIGHTS = None -> protoMember p = Some o ->
  getDealWeight d = Member o.
Proof.
  unfold getDealWeight, lowerStage. intros Hw Hl Hn Ep Np El Em.
  destruct (String.eqb_spec (toLowerCase (orEmpty (stage d))) "won");
    [contradiction|].
  destruct (String.eqb_spec (toLowerCase (orEmpty (stage d))) "lost");
    [contradiction|].
  destruct (String.eqb_spec (toLowerCase (orEmpty (stage d))) "no tender");
    [contradiction|].
  cbn [orb]. rewrite Ep.
  destruct (truthy p) eqn:Ht; [|apply truthy_false_iff in Ht; contradiction].
  unfold readKey. rewrite El, Em. reflexivity.
Qed.

(** What [getDealWeight] does by design: for a deal whose probability names
    no inherited member it is a number of [0, 1], 1 when the stage is Won and
    0 when it is Lost or No Tender, whatever the probability; on every other
    stage 0.75, 0.5, 0.25 and 0.1 for the buckets A, B, C and D, and 0 when
    the bucket is absent or none of these.  The stage is read
    case-insensitively, and the forecast page's copy is the same function. *)
Lemma getDealWeight_by_own_keys (d : Deal) :
  (forall p, probability d = Some p -> protoMember p = None) ->
  getDealWeight d = Plain (weight d)
  /\ (0 <= weight d <= 1)%Q
  /\ (lowerStage d = "won" -> weight d = 1%Q)
  /\ (lowerStage d = "lost" \/ lowerStage d = "no tender" -> weight d = 0%Q)
  /\ (lowerStage d <> "won" -> lowerStage d <> "lost" ->
      lowerStage d <> "no tender" ->
      (probability d = Some "A" -> weight d = (3 # 4)%Q)
      /\ (probability d = Some "B" -> weight d = (1 # 2)%Q)
      /\ (probability d = Some "C" -> weight d = (1 # 4)%Q)
      /\ (probability d = Some "D" -> weight d = (1 # 10)%Q)
      /\ (probability d = None -> weight d = 0%Q)
      /\ (forall p, probability d = Some p ->
          p <> "A" -> p <> "B" -> p <> "C" -> p <> "D" -> weight d = 0%Q))
  /\ Forecast.getDealWeight d = getDealWeight d.
Proof.
  intros Hp. split; [now apply getDealWeight_own|].
  split; [apply weight_bounds|]. split; [|split; [|split]].
  - unfold weight. intros ->. reflexivity.
  - unfold weight. intros [-> | ->]; reflexivity.
  - intros Hw Hl Hn. rewrite (weight_active d Hw Hl Hn).
    repeat split.
    + intros ->. reflexivity.
    + intros ->. reflexivity.
    + intros ->. reflexivity.
    + intros ->. reflexivity.
    + intros ->. reflexivity.
    + intros p -> HA HB HC HD.
      destruct (prob_weights_cases p)
        as [[E _]|[[E _]|[[E _]|[[E _]|(_ & _ & _ & _ & ->)]]]];
        try contradiction; reflexivity.
  - reflexivity.
Qed.

End Weight.

(** C6.  The claim holds of what the comment above [getDealWeight] says
    ("A/B/C/D weight, or 0 if none"), not of the code: for a Received deal
    whose probability is [constructor], [PROB_WEIGHTS[deal.probability]] is
    the inherited [Object] function, which is truthy and is returned.  The
    weight is then no number at all, on both pages, and read as a number it
    is [NaN]. *)
Theorem getDealWeight_returns_inherited_member :
  @Dashboard.getDealWeight stdBuiltins Spec.inheritedProbability
  = Member (mkObject 1 "function Object() { [native code] }")
  /\ @Forecast.getDealWeight stdBuiltins Spec.inheritedProbability
     = Member (mkObject 1 "function Object() { [native code] }")
  /\ (forall w : Q,
         @Dashboard.getDealWeight stdBuiltins Spec.inheritedProbability
         <> Plain w)
  /\ @toNum stdBuiltins
       (@Dashboard.getDealWeight stdBuiltins Spec.inheritedProbability)
     = None.
Proof.
  split; [reflexivity|]. split; [reflexivity|]. split; [|reflexivity].
  intros w E. vm_compute in E. discriminate E.
Qed.


(** ** The pairwise comparison *)

Lemma numNe_false (a b : Q) : numNe a b = false <-> (a == b)%Q.
Proof.
  unfold numNe. rewrite negb_false_iff. apply Qeq_bool_iff.
Qed.

Lemma numNe_true (a b : Q) : numNe a b = true <-> ~ (a == b)%Q.
Proof.
  unfold numNe. rewrite negb_true_iff. rewrite <- Qeq_bool_iff.
  destruct (Qeq_bool a b); split; congruence.
Qed.

Lemma numGt_true (a b : Q) : numGt a b = true <-> (b < a)%Q.
Proof.
  unfold numGt. rewrite negb_true_iff. split; intros E.
  - apply Qnot_le_lt. intros L. apply Qle_bool_iff in L. congruence.
  - destruct (Qle_bool a b) eqn:L; [|reflexivity].
    apply Qle_bool_iff in L. lra.
Qed.

Lemma numGt_false (a b : Q) : numGt a b = false <-> (a <= b)%Q.
Proof.
  unfold numGt. rewrite negb_false_iff. apply Qle_bool_iff.
Qed.

Section Comparison.
Context `{Builtins}.
Import Dashboard Spec.

(** Read by its own keys, [STAGE_PRIORITY] gives the rank as a number. *)
Lemma stagePriority_own (d : Deal) :
  protoMember (lowerStage d) = None -> stagePriority d = Plain (rank d).
Proof.
  unfold stagePriority, rank, readKey, lowerStage. intros ->.
  destruct (lookup (toLowerCase (orEmpty (stage d))) STAGE_PRIORITY);
    reflexivity.
Qed.

(** The decision list of [chooseBestDealForAp] on deals read by own keys,
    one disjunct per exit. *)
Lemma chooseBestDealForAp_cases (a b : Deal) :
  ownKeys a -> ownKeys b ->
  let c := chooseBestDealForAp a b in
  ((rank b < rank a)%Q /\ c = a)
  \/ ((rank a < rank b)%Q /\ c = b)
  \/ ((rank a == rank b)%Q /\
      ((weight b < weight a)%Q /\ c = a
       \/ (weight a < weight b)%Q /\ c = b
       \/ ((weight a == weight b)%Q /\
           ((toNumber (tender_value b) < toNumber (tender_value a))%Q /\ c = a
            \/ (toNumber (tender_value a) < toNumber (tender_value b))%Q /\ c = b
            \/ ((toNumber (tender_value a) == toNumber (tender_value b))%Q /\
                c = if nanGe (enquiryTime a) (enquiryTime b) then a else b))))).
Proof.
  intros [Sa Pa] [Sb Pb].
  unfold chooseBestDealForAp; cbv zeta.
  rewrite (stagePriority_own a Sa), (stagePriority_own b Sb).
  rewrite (getDealWeight_own a Pa), (getDealWeight_own b Pb).
  cbn [valNe valGt toNum].
  destruct (numNe (rank a) (rank b)) eqn:Er.
  { apply numNe_true in Er.
    destruct (numGt (rank a) (rank b)) eqn:Gr.
    - apply numGt_true in Gr. left. split; [assumption|reflexivity].
    - apply numGt_false in Gr. right; left. split; [lra|reflexivity]. }
  apply numNe_false in Er. right; right. split; [assumption|].
  destruct (numNe (weight a) (weight b)) eqn:Ew.
  { apply numNe_true in Ew.
    destruct (numGt (weight a) (weight b)) eqn:Gw.
    - apply numGt_true in Gw. left. split; [assumption|reflexivity].
    - apply numGt_false in Gw. right; left. split; [lra|reflexivity]. }
  apply numNe_false in Ew. right; right. split; [assumption|].
  destruct (numNe (toNumber (tender_value a)) (toNumber (tender_value b))) eqn:Ev.
  { apply numNe_true in Ev.
    destruct (numGt (toNumber (tender_value a)) (toNumber (tender_value b)))
      eqn:Gv.
    - apply numGt_true in Gv. left. split; [assumption|reflexivity].
    - apply numGt_false in Gv. right; left. split; [lra|reflexivity]. }
  apply numNe_false in Ev. right; right. split; [assumption|reflexivity].
Qed.

Lemma rank_label (d : Deal) (st : DealDetail.StageName) :
  stage d = Some (DealDetail.stageLabel st) ->
  stagePriority d = Plain (inject_Z (stageRank st))
  /\ rank d = inject_Z (stageRank st).
Proof.
  unfold stagePriority, rank, readKey, lowerStage. intros ->.
  destruct st; split; reflexivity.
Qed.

(** The comparison returns one of its two arguments, whatever the tables
    give. *)
Lemma chooseBestDealForAp_either (a b : Deal) :
  chooseBestDealForAp a b = a \/ chooseBestDealForAp a b = b.
Proof.
  unfold chooseBestDealForAp. cbv zeta.
  repeat match goal with
         | |- context [if ?c then _ else _] => destruct c
         end; auto.
Qed.

(** What [chooseBestDealForAp a b] does by design, on deals whose stage and
    probability name no inherited member: it returns the deal that wins on
    the first criterion that differs among the stage rank (Lost and No
    Tender 0, Received 1, Qualified 2, In Review 3, Quote Submitted 4,
    Won 5), the forecast weight, the tender value with an absent value
    counted as 0, and the enquiry date where both dates parse; when all tie,
    in particular when both enquiry dates are absent, it returns its first
    argument.  The forecast page's [chooseBetterDealForForecast] is the same
    function. *)
Lemma chooseBestDealForAp_by_own_keys (a b : Deal) :
  ownKeys a -> ownKeys b ->
  let c := chooseBestDealForAp a b in
  (forall d st, stage d = Some (DealDetail.stageLabel st) ->
                rank d = inject_Z (stageRank st))
  /\ toNumber None = 0%Q
  /\ ((rank b < rank a)%Q -> c = a)
  /\ ((rank a < rank b)%Q -> c = b)
  /\ ((rank a == rank b)%Q ->
      ((weight b < weight a)%Q -> c = a)
      /\ ((weight a < weight b)%Q -> c = b)
      /\ ((weight a == weight b)%Q ->
          ((toNumber (tender_value b) < toNumber (tender_value a))%Q -> c = a)
          /\ ((toNumber (tender_value a) < toNumber (tender_value b))%Q -> c = b)
          /\ ((toNumber (tender_value a) == toNumber (tender_value b))%Q ->
              (forall ta tb,
                  enquiryTime a = Some ta -> enquiryTime b = Some tb ->
                  (tb < ta -> c = a) /\ (ta < tb -> c = b) /\ (ta = tb -> c = a))
              /\ (enquiry_date a = None -> enquiry_date b = None -> c = a))))
  /\ Forecast.chooseBetterDealForForecast a b = c.
Proof.
  intros Oa Ob c. pose proof (chooseBestDealForAp_cases a b Oa Ob) as Hc.
  fold c in Hc.
  split; [intros d st E; exact (proj2 (rank_label d st E))|].
  split; [reflexivity|].
  split; [intros L; destruct Hc as [[_ E]|[[L' _]|[E' _]]]; [exact E|lra|lra]|].
  split; [intros L; destruct Hc as [[L' _]|[[_ E]|[E' _]]]; [lra|exact E|lra]|].
  split; [|reflexivity].
  intros Er.
  destruct Hc as [[L _]|[[L _]|[_ Hw]]]; [lra|lra|].
  split; [intros L; destruct Hw as [[_ E]|[[L' _]|[E' _]]]; [exact E|lra|lra]|].
  split; [intros L; destruct Hw as [[L' _]|[[_ E]|[E' _]]]; [lra|exact E|lra]|].
  intros Ew.
  destruct Hw as [[L _]|[[L _]|[_ Hv]]]; [lra|lra|].
  split; [intros L; destruct Hv as [[_ E]|[[L' _]|[E' _]]]; [exact E|lra|lra]|].
  split; [intros L; destruct Hv as [[L' _]|[[_ E]|[E' _]]]; [lra|exact E|lra]|].
  intros Ev.
  destruct Hv as [[L _]|[[L _]|[_ Hd]]]; [lra|lra|].
  split.
  - intros ta tb Ea Eb. rewrite Ea, Eb in Hd. cbn [nanGe] in Hd.
    destruct (Z.leb_spec tb ta); repeat split; intros ?;
      first [exact Hd | lia].
  - intros Ea Eb. unfold enquiryTime in Hd. rewrite Ea, Eb in Hd. exact Hd.
Qed.

End Comparison.

(** C7.  The claim holds of the tie-break the comments of the comparison
    list, not of the code: two deals that agree on every criterion and whose
    enquiry date does not parse have a [NaN] time each, [dA >= dB] is false,
    and the second argument is returned where the first is to be retained
    (the summaries next to it test [Number.isNaN(dt.getTime())]; this
    function does not).  Both pages' comparisons do so.  Likewise a stage
    that names an inherited member has an object for its rank, every
    comparison with it is false, and the second argument is returned in both
    orders. *)
Theorem chooseBestDealForAp_drops_first_on_unparsed_date :
  @Dashboard.stagePriority stdBuiltins Spec.unparsedA
  = @Dashboard.stagePriority stdBuiltins Spec.unparsedB
  /\ @Dashboard.getDealWeight stdBuiltins Spec.unparsedA
     = @Dashboard.getDealWeight stdBuiltins Spec.unparsedB
  /\ Dashboard.tender_value Spec.unparsedA
     = Dashboard.tender_value Spec.unparsedB
  /\ Dashboard.enquiry_date Spec.unparsedA
     = Dashboard.enquiry_date Spec.unparsedB
  /\ @Dashboard.enquiryTime stdBuiltins Spec.unparsedA = None
  /\ @Dashboard.chooseBestDealForAp stdBuiltins Spec.unparsedA Spec.unparsedB
     = Spec.unparsedB
  /\ @Forecast.chooseBetterDealForForecast stdBuiltins Spec.unparsedA
       Spec.unparsedB
     = Spec.unparsedB
  /\ @Dashboard.chooseBestDealForAp stdBuiltins Spec.receivedPlain
       Spec.inheritedStage
     = Spec.inheritedStage
  /\ @Dashboard.chooseBestDealForAp stdBuiltins Spec.inheritedStage
       Spec.receivedPlain
     = Spec.receivedPlain.
Proof.
  repeat split; reflexivity.
Qed.


(** ** Maps in insertion order, and sorting *)

Section MapFacts.
Context {K V : Type} (eqb : K -> K -> bool).
Hypothesis eqb_eq : forall a b, eqb a b = true <-> a = b.

Lemma eqb_refl_true (k : K) : eqb k k = true.
Proof. now apply eqb_eq. Qed.

Lemma eqb_neq_false (k k' : K) : k <> k' -> eqb k k' = false.
Proof.
  intros N. destruct (eqb k k') eqn:E; [|reflexivity].
  apply eqb_eq in E. contradiction.
Qed.

Lemma mapGet_In (k : K) (v : V) (m : list (K * V)) :
  mapGet eqb k m = Some v -> In (k, v) m.
Proof.
  induction m as [|[k' v'] m IH]; simpl; [discriminate|].
  destruct (eqb k k') eqn:E.
  - intros [= ->]. apply eqb_eq in E. subst. now left.
  - intros G. right. now apply IH.
Qed.

Lemma mapGet_mapSet_same (k : K) (v : V) (m : list (K * V)) :
  mapGet eqb k (mapSet eqb k v m) = Some v.
Proof.
  induction m as [|[k' v'] m IH]; simpl.
  - now rewrite eqb_refl_true.
  - destruct (eqb k k') eqn:E; simpl; rewrite E; [reflexivity|exact IH].
Qed.

Lemma mapGet_mapSet_other (k k' : K) (v : V) (m : list (K * V)) :
  k <> k' -> mapGet eqb k (mapSet eqb k' v m) = mapGet eqb k m.
Proof.
  intros N. induction m as [|[k2 v2] m IH]; simpl.
  - now rewrite (eqb_neq_false _ _ N).
  - destruct (eqb k' k2) eqn:E; simpl.
    + apply eqb_eq in E. subst k2. now rewrite (eqb_neq_false _ _ N).
    + destruct (eqb k k2); [reflexivity|exact IH].
Qed.

Lemma keys_mapSet (k : K) (v : V) (m : list (K * V)) :
  forall x, In x (map fst (mapSet eqb k v m)) <-> x = k \/ In x (map fst m).
Proof.
  intros x. induction m as [|[k' v'] m IH]; simpl.
  - intuition congruence.
  - destruct (eqb k k') eqn:E; simpl.
    + apply eqb_eq in E. subst k'. intuition congruence.
    + rewrite IH. intuition congruence.
Qed.

Lemma NoDup_keys_mapSet (k : K) (v : V) (m : list (K * V)) :
  NoDup (map fst m) -> NoDup (map fst (mapSet eqb k v m)).
Proof.
  induction m as [|[k' v'] m IH]; simpl; intros ND.
  - constructor; [intros []|constructor].
  - inversion ND as [|? ? Hn ND']; subst.
    destruct (eqb k k') eqn:E; simpl.
    + constructor; assumption.
    + constructor; [|now apply IH].
      rewrite keys_mapSet. intros [->|I]; [|contradiction].
      rewrite eqb_refl_true in E. discriminate.
Qed.

Lemma In_mapGet (k : K) (v : V) (m : list (K * V)) :
  NoDup (map fst m) -> In (k, v) m -> mapGet eqb k m = Some v.
Proof.
  induction m as [|[k' v'] m IH]; simpl; intros ND I; [contradiction|].
  inversion ND as [|? ? Hn ND']; subst.
  destruct I as [[= -> ->]|I].
  - now rewrite eqb_refl_true.
  - destruct (eqb k k') eqn:E.
    + apply eqb_eq in E. subst k'. exfalso. apply Hn.
      change k with (fst (k, v)). now apply in_map.
    + now apply IH.
Qed.

Lemma mapGet_key_in (k : K) (m : list (K * V)) :
  mapGet eqb k m <> None <-> In k (map fst m).
Proof.
  induction m as [|[k' v'] m IH]; simpl; [intuition congruence|].
  destruct (eqb k k') eqn:E.
  - apply eqb_eq in E. subst. intuition congruence.
  - rewrite IH. split; [now right|]. intros [->|I]; [|assumption].
    rewrite eqb_refl_true in E. discriminate.
Qed.

End MapFacts.

Section SortFacts.
Context {A : Type} (le : A -> A -> bool).

Lemma insertSorted_perm (x : A) (l : list A) :
  Permutation (insertSorted le x l) (x :: l).
Proof.
  induction l as [|y l IH]; simpl; [reflexivity|].
  destruct (le x y); [reflexivity|].
  rewrite IH. apply perm_swap.
Qed.

Lemma sortBy_perm (l : list A) : Permutation (sortBy le l) l.
Proof.
  induction l as [|x l IH]; simpl; [reflexivity|].
  rewrite insertSorted_perm. now constructor.
Qed.

Lemma In_sortBy (x : A) (l : list A) : In x (sortBy le l) <-> In x l.
Proof.
  split; apply Permutation_in; [|symmetry]; apply sortBy_perm.
Qed.

End SortFacts.

(** ** The financial-year summary *)

Section FinancialYear.
Context `{Builtins}.
Import Dashboard Spec.

Lemma fyMapOk_mapSet (k : Z) (r : FyTenderRow) (m : list (Z * FyTenderRow)) :
  fyEndYear r = k -> fyMapOk m -> fyMapOk (mapSet Z.eqb k r m).
Proof.
  intros E. unfold fyMapOk. induction m as [|[k' r'] m IH]; simpl; intros F.
  - constructor; [exact E|constructor].
  - inversion_clear F as [|? ? Hh Ht]. simpl in Hh.
    destruct (Z.eqb_spec k k'); constructor; simpl; auto.
    congruence.
Qed.

Lemma fyStep_ok (m : list (Z * FyTenderRow)) (d : Deal) :
  fyMapOk m -> fyMapOk (fyStep m d).
Proof.
  intros F. unfold fyStep.
  destruct (negb (truthyOpt (enquiry_date d))); [exact F|].
  destruct (newDate (orEmpty (enquiry_date d))) as [dt|]; [|exact F].
  cbv zeta. apply fyMapOk_mapSet; [|exact F]. simpl.
  destruct (mapGet Z.eqb (getFinancialYearEnd dt) m) as [r|] eqn:G;
    [|reflexivity].
  apply (mapGet_In Z.eqb Z.eqb_eq) in G.
  unfold fyMapOk in F. rewrite Forall_forall in F. exact (F _ G).
Qed.




Lemma fy_fold_ok (l : list Deal) (m : list (Z * FyTenderRow)) :
  fyMapOk m -> fyMapOk (fold_left fyStep l m).
Proof.
  revert m. induction l as [|d l IH]; simpl; intros m F; [exact F|].
  apply IH. now apply fyStep_ok.
Qed.







End FinancialYear.

(** ** The month buckets *)

Section Buckets.
Context `{Builtins}.
Import Dashboard Spec.

Lemma pipelineStep_skips (m : list (string * PipelineBucket)) (d : Deal) :
  skipped d -> pipelineStep m d = m.
Proof.
  unfold skipped, lowerStage, pipelineStep. intros S.
  destruct (truthyOpt (estimated_start_date d)); cbn [negb]; [|reflexivity].
  destruct (newDate (orEmpty (estimated_start_date d))); [|reflexivity].
  destruct S as [S|[S|[S|S]]]; try discriminate; rewrite S; reflexivity.
Qed.

Lemma forecastStep_skips (fromMonth toMonth : string) (excludeStartedWon : bool)
  (today : Z) (m : list (string * Forecast.ForecastAgg)) (d : Deal) :
  skipped d ->
  Forecast.forecastStep fromMonth toMonth excludeStartedWon today m d = m.
Proof.
  unfold skipped, lowerStage, Forecast.forecastStep. intros S.
  destruct (truthyOpt (estimated_start_date d)); cbn [negb]; [|reflexivity].
  destruct (newDate (orEmpty (estimated_start_date d))) as [dt|]; [|reflexivity].
  destruct (Forecast.isDateInMonthRange dt fromMonth toMonth); cbn [negb];
    [|reflexivity].
  destruct S as [S|[S|[S|S]]]; try discriminate; rewrite S; reflexivity.
Qed.

Lemma fold_left_skip {A B : Type} (f : A -> B -> A) (d : B) :
  (forall a, f a d = a) ->
  forall l1 l2 a, fold_left f (l1 ++ d :: l2) a = fold_left f (l1 ++ l2) a.
Proof.
  intros Hd l1 l2 a. rewrite !fold_left_app. simpl. now rewrite Hd.
Qed.

(** C10.  In both reports bucketed by estimated start date (the dashboard's
    [pipelineBuckets] and the forecast page's [forecastBuckets]) the loop
    over the collapsed deals skips a deal whose stage is Lost or No Tender,
    or whose estimated start date is absent or does not parse: the iteration
    leaves the month map as it was, so the report is the one computed without
    that deal, and its tender value enters no total, won or expected sum. *)
Theorem skipped_deal_contributes_nothing (d : Deal) :
  skipped d ->
  (forall m, pipelineStep m d = m)
  /\ (forall l1 l2, pipelineBuckets (l1 ++ d :: l2) = pipelineBuckets (l1 ++ l2))
  /\ (forall fromMonth toMonth excludeStartedWon today,
         (forall m,
             Forecast.forecastStep fromMonth toMonth excludeStartedWon today m d
             = m)
         /\ (forall l1 l2,
                Forecast.forecastOfCollapsed fromMonth toMonth excludeStartedWon
                  today (l1 ++ d :: l2)
                = Forecast.forecastOfCollapsed fromMonth toMonth
                    excludeStartedWon today (l1 ++ l2))).
Proof.
  intros S. split; [|split].
  - intros m. now apply pipelineStep_skips.
  - intros l1 l2. unfold pipelineBuckets.
    rewrite (fold_left_skip pipelineStep d); [reflexivity|].
    intros m. now apply pipelineStep_skips.
  - intros fromMonth toMonth excludeStartedWon today. split.
    + intros m. now apply forecastStep_skips.
    + intros l1 l2. unfold Forecast.forecastOfCollapsed.
      rewrite (fold_left_skip
                 (Forecast.forecastStep fromMonth toMonth excludeStartedWon today)
                 d); [reflexivity|].
      intros m. now apply forecastStep_skips.
Qed.

End Buckets.


(** ** Collapsing *)

Ltac lex_leaf := solve [ lia | lra | exfalso; lia | exfalso; lra ].
Ltac lex_goal :=
  first [ lex_leaf
        | solve [ left; lex_leaf ]
        | right; split; [ lex_leaf | lex_goal ] ].

Section Collapsing.
Context `{Builtins}.
Import Dashboard Spec.

Lemma better_irrefl (x : Deal) : ~ better x x.
Proof.
  unfold better. intros [L|[_ [L|[_ [L|[_ L]]]]]]; lex_leaf.
Qed.

Lemma better_trans (x y z : Deal) : better x y -> better y z -> better x z.
Proof.
  unfold better.
  intros [A|[A0 [A|[A1 [A|[A2 A]]]]]] [B|[B0 [B|[B1 [B|[B2 B]]]]]]; lex_goal.
Qed.

Lemma not_better_tied (x y : Deal) : ~ better x y -> ~ better y x -> tied x y.
Proof.
  unfold better, tied. intros N1 N2.
  assert (R : (rank x == rank y)%Q).
  { destruct (Q_dec (rank x) (rank y)) as [[L|L]|E];
      [exfalso; apply N2; now left|exfalso; apply N1; now left|exact E]. }
  assert (W : (weight x == weight y)%Q).
  { destruct (Q_dec (weight x) (weight y)) as [[L|L]|E];
      [exfalso; apply N2; right; split; [lra|now left]
      |exfalso; apply N1; right; split; [lra|now left]|exact E]. }
  assert (V : (toNumber (tender_value x) == toNumber (tender_value y))%Q).
  { destruct (Q_dec (toNumber (tender_value x)) (toNumber (tender_value y)))
      as [[L|L]|E];
      [exfalso; apply N2; right; split; [lra|right; split; [lra|now left]]
      |exfalso; apply N1; right; split; [lra|right; split; [lra|now left]]
      |exact E]. }
  repeat split; try assumption.
  destruct (Z.lt_trichotomy (timeOf x) (timeOf y)) as [L|[E|L]]; [|exact E|].
  - exfalso; apply N2; right; split; [lra|right; split; [lra|right]].
    split; [lra|exact L].
  - exfalso; apply N1; right; split; [lra|right; split; [lra|right]].
    split; [lra|exact L].
Qed.

(** With enquiry dates that parse and tables read by own keys, the
    comparison keeps its first argument unless the second is strictly
    better. *)
Lemma chooseBestDealForAp_better (a b : Deal) :
  regular a -> regular b ->
  (better b a /\ chooseBestDealForAp a b = b)
  \/ (~ better b a /\ chooseBestDealForAp a b = a).
Proof.
  unfold regular, dateValid. intros [Va Oa] [Vb Ob].
  pose proof (chooseBestDealForAp_cases a b Oa Ob) as Hc. cbv zeta in Hc.
  unfold better, timeOf.
  destruct (enquiryTime a) as [ta|]; [|congruence].
  destruct (enquiryTime b) as [tb|]; [|congruence].
  cbn [nanGe] in Hc.
  destruct Hc as [[L E]|[[L E]|[R [[L E]|[[L E]|[W [[L E]|[[L E]|[V E]]]]]]]]].
  - right. split; [|exact E]. intros [B|[B0 [B|[B1 [B|[B2 B]]]]]]; lex_leaf.
  - left. split; [|exact E]. now left.
  - right. split; [|exact E]. intros [B|[B0 [B|[B1 [B|[B2 B]]]]]]; lex_leaf.
  - left. split; [|exact E]. right. split; [exact R|now left].
  - right. split; [|exact E]. intros [B|[B0 [B|[B1 [B|[B2 B]]]]]]; lex_leaf.
  - left. split; [|exact E]. right. split; [exact R|right].
    split; [exact W|now left].
  - destruct (Z.leb_spec tb ta) as [L|L].
    + right. split; [|exact E]. intros [B|[B0 [B|[B1 [B|[B2 B]]]]]]; lex_leaf.
    + left. split; [|exact E]. right. split; [exact R|right].
      split; [exact W|right]. split; [exact V|exact L].
Qed.

(** The best of a group is one of its members and no member is strictly
    better. *)
Lemma fold_pick_best (g seen : list Deal) (e : Deal) :
  regular e -> Forall regular g ->
  (forall x, In x seen -> ~ better x e) ->
  exists r, fold_left (pickStep chooseBestDealForAp) g (Some e) = Some r
            /\ (r = e \/ In r g)
            /\ (forall x, In x seen \/ In x g -> ~ better x r).
Proof.
  revert seen e. induction g as [|d g IH]; intros seen e Ve Vg Hs.
  - exists e. simpl. split; [reflexivity|]. split; [now left|].
    intros x [I|[]]. now apply Hs.
  - inversion_clear Vg as [|? ? Vd Vg'].
    cbn [fold_left pickStep].
    destruct (chooseBestDealForAp_better e d Ve Vd) as [[B E]|[B E]]; rewrite E.
    + destruct (IH (d :: seen) d Vd Vg') as (r & F & M & N).
      { intros x [<-|I]; [apply better_irrefl|].
        intros Bx. apply (Hs x I). now apply (better_trans x d e). }
      exists r. split; [exact F|]. split.
      * destruct M as [->|M]; right; [now left|now right].
      * intros x [I|[<-|I]]; apply N; [left; now right|left; now left|now right].
    + destruct (IH (d :: seen) e Ve Vg') as (r & F & M & N).
      { intros x [<-|I]; [exact B|now apply Hs]. }
      exists r. split; [exact F|]. split.
      * destruct M as [->|M]; [now left|right; now right].
      * intros x [I|[<-|I]]; apply N; [left; now right|left; now left|now right].
Qed.

Lemma group_best (g : list Deal) (r : Deal) :
  Forall regular g ->
  fold_left (pickStep chooseBestDealForAp) g None = Some r ->
  In r g /\ (forall x, In x g -> ~ better x r).
Proof.
  intros Vg F. destruct g as [|e g]; [discriminate|].
  inversion_clear Vg as [|? ? Ve Vg'].
  cbn [fold_left pickStep] in F.
  destruct (fold_pick_best g [e] e Ve Vg') as (r' & F' & M & N).
  { intros x [<-|[]]. apply better_irrefl. }
  rewrite F' in F. injection F as <-. split.
  - destruct M as [->|M]; [now left|now right].
  - intros x [<-|I]; apply N; [left; now left|now right].
Qed.

Lemma group_best_exists (g : list Deal) :
  g <> [] -> exists r, fold_left (pickStep chooseBestDealForAp) g None = Some r.
Proof.
  destruct g as [|e g]; [congruence|]. intros _. cbn [fold_left pickStep].
  generalize e. induction g as [|d g IH]; intros e'; simpl; eauto.
Qed.

Section AnyChoice.
Variable choose : Deal -> Deal -> Deal.

(** What [collapseWith] files under a key is the reduction of that key's
    group. *)
Lemma collapse_get (l : list Deal) (m : list (string * Deal)) (k : string) :
  mapGet String.eqb k (fold_left (collapseStep choose) l m)
  = fold_left (pickStep choose) (groupOf k l) (mapGet String.eqb k m).
Proof.
  revert m. induction l as [|d l IH]; intros m; [reflexivity|].
  cbn [fold_left groupOf filter]. fold (groupOf k l). rewrite IH.
  unfold collapseStep.
  destruct (String.eqb_spec (apKey d) k) as [E|N].
  - subst k. cbn [fold_left]. f_equal.
    destruct (mapGet String.eqb (apKey d) m) as [e|];
      now rewrite (mapGet_mapSet_same String.eqb String.eqb_eq).
  - f_equal.
    destruct (mapGet String.eqb (apKey d) m) as [e|];
      apply (mapGet_mapSet_other String.eqb String.eqb_eq); congruence.
Qed.

Lemma collapse_keys_nodup (l : list Deal) (m : list (string * Deal)) :
  NoDup (map fst m) -> NoDup (map fst (fold_left (collapseStep choose) l m)).
Proof.
  revert m. induction l as [|d l IH]; intros m ND; [exact ND|].
  simpl. apply IH. unfold collapseStep.
  destruct (mapGet String.eqb (apKey d) m);
    now apply (NoDup_keys_mapSet String.eqb String.eqb_eq).
Qed.

Lemma In_collapseWith (l : list Deal) (d : Deal) :
  In d (collapseWith choose l)
  <-> exists k, fold_left (pickStep choose) (groupOf k l) None = Some d.
Proof.
  unfold collapseWith, mapValues.
  pose proof (collapse_keys_nodup l [] (NoDup_nil _)) as ND.
  split.
  - intros I. apply in_map_iff in I. destruct I as ([k v] & E & I).
    simpl in E. subst v. exists k.
    apply (In_mapGet String.eqb String.eqb_eq _ _ _ ND) in I.
    now rewrite collapse_get in I.
  - intros (k & F). pose proof (collapse_get l [] k) as G.
    cbn [mapGet] in G. rewrite F in G.
    apply (mapGet_In String.eqb String.eqb_eq) in G.
    change d with (snd (k, d)). now apply in_map.
Qed.

End AnyChoice.

Lemma groupOf_perm (k : string) (l l' : list Deal) :
  Permutation l l' -> Permutation (groupOf k l) (groupOf k l').
Proof.
  unfold groupOf. induction 1 as [|x l l' P IH|x y l|l1 l2 l3 P1 IH1 P2 IH2];
    simpl.
  - reflexivity.
  - destruct (apKey x =? k)%string; [now constructor|exact IH].
  - destruct (apKey x =? k)%string, (apKey y =? k)%string;
      try reflexivity. apply perm_swap.
  - now transitivity (filter (fun d => (apKey d =? k)%string) l2).
Qed.

Lemma In_groupOf (k : string) (l : list Deal) (d : Deal) :
  In d (groupOf k l) <-> In d l /\ apKey d = k.
Proof.
  unfold groupOf. rewrite filter_In. now rewrite String.eqb_eq.
Qed.

(** One direction of the comparison of two orders of the same deals. *)
Lemma collapse_perm_tied (l l' : list Deal) (d : Deal) :
  Permutation l l' -> (forall x, In x l -> regular x) ->
  In d (collapseDealsByAp l) ->
  exists d', In d' (collapseDealsByAp l') /\ In d l /\ In d' l
             /\ apKey d' = apKey d /\ tied d d'.
Proof.
  intros P V I. unfold collapseDealsByAp in *.
  apply In_collapseWith in I. destruct I as (k & F).
  pose proof (groupOf_perm k l l' P) as Pg.
  assert (Vg : Forall regular (groupOf k l)).
  { apply Forall_forall. intros x Ix. apply In_groupOf in Ix. now apply V. }
  assert (Vg' : Forall regular (groupOf k l')).
  { apply Forall_forall. intros x Ix. apply In_groupOf in Ix. apply V.
    apply (Permutation_in _ (Permutation_sym P)). tauto. }
  destruct (group_best _ _ Vg F) as [M N].
  destruct (group_best_exists (groupOf k l')) as [d' F'].
  { intros E. rewrite E in Pg. apply Permutation_sym, Permutation_nil in Pg.
    rewrite Pg in M. contradiction. }
  destruct (group_best _ _ Vg' F') as [M' N'].
  exists d'. split; [apply In_collapseWith; now exists k|].
  pose proof (Permutation_in _ (Permutation_sym Pg) M') as M'l.
  pose proof (Permutation_in _ Pg M) as Ml'.
  apply In_groupOf in M. pose proof M'l as M'l0. apply In_groupOf in M'l0.
  split; [tauto|]. split; [tauto|]. split; [destruct M, M'l0; congruence|].
  apply not_better_tied; [now apply N'|now apply N].
Qed.

(** C8, as the code has it.  [collapseDealsByAp] is order-independent up to
    ties: when the enquiry dates parse and no stage or probability names an
    inherited member, collapsing a permutation of the input yields, for every
    key, a representative that ties with the original one on all four
    criteria; and when no two distinct deals of a group tie on all four, the
    two results are the same set of deals.  (On a full tie the first deal
    encountered is kept, so the representative itself depends on the order.)
    The forecast page's [collapseDealsByAp] is the same function. *)
Theorem collapse_order_independent_up_to_ties (l l' : list Deal) :
  Permutation l l' ->
  (forall x, In x l -> dateValid x) ->
  (forall x, In x l -> ownKeys x) ->
  (forall d, In d (collapseDealsByAp l) ->
             exists d', In d' (collapseDealsByAp l')
                        /\ apKey d' = apKey d /\ tied d d')
  /\ ((forall x y, In x l -> In y l -> apKey x = apKey y -> tied x y -> x = y) ->
      forall d, In d (collapseDealsByAp l) <-> In d (collapseDealsByAp l'))
  /\ Forecast.collapseDealsByAp l = collapseDealsByAp l.
Proof.
  intros P Vd Vo.
  assert (V : forall x, In x l -> regular x)
    by (intros x I; split; [now apply Vd|now apply Vo]).
  split; [|split].
  - intros d I. destruct (collapse_perm_tied l l' d P V I)
      as (d' & I' & _ & _ & K & T). now exists d'.
  - intros Inj d. split; intros I.
    + destruct (collapse_perm_tied l l' d P V I) as (d' & I' & Il & Il' & K & T).
      rewrite (Inj d d' Il Il' (eq_sym K) T). exact I'.
    + assert (V' : forall x, In x l' -> regular x).
      { intros x Ix. apply V. now apply (Permutation_in _ (Permutation_sym P)). }
      destruct (collapse_perm_tied l' l d (Permutation_sym P) V' I)
        as (d' & I' & Il & Il' & K & T).
      apply (Permutation_in _ (Permutation_sym P)) in Il, Il'.
      rewrite (Inj d d' Il Il' (eq_sym K) T). exact I'.
  - reflexivity.
Qed.

(** C8 as stated fails: two deals of the same project that tie on every
    criterion are collapsed to whichever comes first. *)
Lemma collapse_depends_on_order :
  ~ (forall l l' : list Deal,
        Permutation l l' ->
        forall d, In d (@collapseDealsByAp stdBuiltins l)
                  <-> In d (@collapseDealsByAp stdBuiltins l')).
Proof.
  intros Hc.
  assert (I : In twinA (@collapseDealsByAp stdBuiltins [twinB; twinA])).
  { apply (Hc [twinA; twinB] [twinB; twinA] (perm_swap _ _ _)).
    vm_compute. now left. }
  vm_compute in I. destruct I as [E|[]]. discriminate E.
Qed.

(** An enquiry date that does not parse makes [dA >= dB] false whichever
    side it is on, so the second deal wins in both orders; hence the
    hypothesis on the dates above. *)
Remark collapse_depends_on_order_unparsed_date :
  let a := mkDeal "a" (Some 1) None (Some "soon") None None None None None in
  let b := mkDeal "b" (Some 1) None (Some "2025-01-01") None None None None None in
  @collapseDealsByAp stdBuiltins [a; b] = [b]
  /\ @collapseDealsByAp stdBuiltins [b; a] = [a].
Proof. vm_compute. split; reflexivity. Qed.

End Collapsing.


(** ** The stage gate engine *)

Section StageGate.
Context `{Builtins}.
Import DealDetail Spec.
Variable env : Env.

Lemma tenderIncomplete_true (l : Deal) :
  tenderIncomplete l = true <->
  tender_value l = None \/ tender_cost l = None \/ tender_margin l = None
  \/ tender_margin_percent l = None.
Proof.
  unfold tenderIncomplete.
  destruct (tender_value l), (tender_cost l), (tender_margin l),
    (tender_margin_percent l); simpl; intuition congruence.
Qed.

Lemma tenderIncomplete_false (l : Deal) :
  tenderIncomplete l = false <->
  tender_value l <> None /\ tender_cost l <> None /\ tender_margin l <> None
  /\ tender_margin_percent l <> None.
Proof.
  unfold tenderIncomplete.
  destruct (tender_value l), (tender_cost l), (tender_margin l),
    (tender_margin_percent l); simpl; intuition congruence.
Qed.

Lemma stageEqb_eq (a b : StageName) : stageEqb a b = true <-> a = b.
Proof. destruct a, b; simpl; split; intros E; congruence. Qed.

Lemma sameButError_refl (w : World) : sameButError w w.
Proof. repeat split. Qed.

Lemma sameButError_setError (e : option string) (w : World) :
  sameButError w (onPage (setError e) w).
Proof. repeat split. Qed.

(** What [handleStageClick] does with a pair it does not let through. *)
Lemma handleStageClick_rejected (target : StageName) (w : World) (l : Deal) :
  lead (page w) = Some l ->
  allowed (currentStage (Some l)) target l = false ->
  let current := currentStage (Some l) in
  let w' := handleStageClick env target w in
  (target = current /\ w' = w)
  \/ (target <> current /\
      w' = onPage (setError
                     (Some (if stageEqb current NoTender then msgNoTenderLocked
                            else if stageEqb target Received then msgNoReceived
                            else msgTenderSummary))) w).
Proof.
  intros Hl Ha. cbv zeta. unfold handleStageClick. rewrite Hl.
  change (isNull (tender_value l) || isNull (tender_cost l)
          || isNull (tender_margin l) || isNull (tender_margin_percent l))
    with (tenderIncomplete l).
  unfold allowed in Ha.
  destruct (currentStage (Some l)), target, (tenderIncomplete l);
    cbn in Ha; try discriminate Ha; cbn [stageEqb negb andb orb];
    solve [ left; split; reflexivity
          | right; split; [discriminate|reflexivity] ].
Qed.

Lemma requestTransition_no_gate (target : StageName)
  (answers : list (string * string)) (w : World) :
  gateModalOpen (page (handleStageClick env target w)) = gateModalOpen (page w) ->
  requestTransition env target answers w = handleStageClick env target w.
Proof.
  intros E. unfold requestTransition. cbv zeta. rewrite E.
  destruct (gateModalOpen (page w)); reflexivity.
Qed.

Lemma requestTransition_rejected (target : StageName)
  (answers : list (string * string)) (w : World) (l : Deal) :
  lead (page w) = Some l ->
  allowed (currentStage (Some l)) target l = false ->
  let current := currentStage (Some l) in
  let w' := requestTransition env target answers w in
  sameButError w w'
  /\ (target <> current ->
      error (page w')
      = Some (if stageEqb current NoTender then msgNoTenderLocked
              else if stageEqb target Received then msgNoReceived
              else msgTenderSummary)).
Proof.
  intros Hl Ha. cbv zeta.
  destruct (handleStageClick_rejected target w l Hl Ha) as [[E Hw]|[N Hw]];
    cbv zeta in Hw.
  - rewrite requestTransition_no_gate by (now rewrite Hw).
    rewrite Hw. split; [apply sameButError_refl|]. intros N. contradiction.
  - rewrite requestTransition_no_gate by (now rewrite Hw).
    rewrite Hw. split; [apply sameButError_setError|]. intros _. reflexivity.
Qed.

(** C2.  No Tender is absorbing: for a deal whose stage is No Tender, a
    request for any other stage is rejected with the message that the lead
    is locked, and neither the stored rows, nor the audit trail, nor the
    deal shown change, whatever the answers and the store's behaviour. *)
Theorem no_tender_is_absorbing (target : StageName)
  (answers : list (string * string)) (w : World) (l : Deal) :
  lead (page w) = Some l ->
  stage l = Some "No Tender" ->
  target <> NoTender ->
  let w' := requestTransition env target answers w in
  store w' = store w
  /\ lead (page w') = Some l
  /\ actions (page w') = actions (page w)
  /\ error (page w') = Some msgNoTenderLocked.
Proof.
  intros Hl Hs Ht. cbv zeta.
  assert (Hc : currentStage (Some l) = NoTender).
  { unfold currentStage. rewrite Hs. reflexivity. }
  assert (Ha : allowed (currentStage (Some l)) target l = false).
  { rewrite Hc. unfold allowed. cbn [stageEqb negb].
    now rewrite andb_false_r. }
  destruct (requestTransition_rejected target answers w l Hl Ha) as [S E].
  cbv zeta in S, E. rewrite Hc in E.
  destruct S as (S1 & S2 & S3 & _).
  repeat split; try assumption; [congruence|].
  apply E. congruence.
Qed.

(** *** What [updateLeadField] leaves behind *)

Lemma deals_logAction (ok : bool) (a : DealAction) (w : World) :
  deals (store (logAction ok a w)) = deals (store w).
Proof. destruct ok; reflexivity. Qed.

Lemma error_logAction (ok : bool) (a : DealAction) (w : World) :
  error (page (logAction ok a w)) = error (page w).
Proof. destruct ok; reflexivity. Qed.

Lemma deals_updateLeadFieldEnd (l : Deal) (f : Field) (v : option string)
  (w : World) :
  deals (store (updateLeadFieldEnd env (Some l) f v w))
  = if updateOk env f
    then map (fun r => if (id r =? id l)%string then setField f v r else r)
           (deals (store w))
    else deals (store w).
Proof.
  unfold updateLeadFieldEnd. destruct (updateOk env f); [|reflexivity].
  destruct f; cbn [onPage store page]; try reflexivity.
  destruct (optNe (getField FStage l) v); [|reflexivity].
  now rewrite deals_logAction.
Qed.

Lemma error_updateLeadFieldEnd (l : Deal) (f : Field) (v : option string)
  (w : World) :
  error (page (updateLeadFieldEnd env (Some l) f v w))
  = if updateOk env f then error (page w)
    else Some ("Could not update " ++ fieldName f ++ ".").
Proof.
  unfold updateLeadFieldEnd. destruct (updateOk env f); [|reflexivity].
  destruct f; cbn [onPage store page]; try reflexivity.
  destruct (optNe (getField FStage l) v); [|reflexivity].
  cbn [setSavingField error]. now rewrite error_logAction.
Qed.

Lemma idStages_withStage (i : string) (v : option string) (rows : list Deal) :
  map (fun r => (id r, stage r))
    (map (fun r => if (id r =? i)%string then setField FStage v r else r) rows)
  = withStage i v (map (fun r => (id r, stage r)) rows).
Proof.
  unfold withStage. rewrite !map_map. apply map_ext. intros r. simpl.
  destruct (id r =? i)%string; reflexivity.
Qed.

Lemma idStages_keeps (i : string) (patch : Deal -> Deal) (rows : list Deal) :
  (forall r, id (patch r) = id r /\ stage (patch r) = stage r) ->
  map (fun r => (id r, stage r))
    (map (fun r => if (id r =? i)%string then patch r else r) rows)
  = map (fun r => (id r, stage r)) rows.
Proof.
  intros K. rewrite map_map. apply map_ext. intros r.
  destruct (id r =? i)%string; [|reflexivity].
  destruct (K r) as [-> ->]. reflexivity.
Qed.

Lemma idStages_updateLeadFieldEnd (l : Deal) (f : Field) (v : option string)
  (w : World) :
  idStages (store (updateLeadFieldEnd env (Some l) f v w))
  = match f with
    | FStage => if updateOk env FStage
                then withStage (id l) v (idStages (store w))
                else idStages (store w)
    | _ => idStages (store w)
    end.
Proof.
  unfold idStages. rewrite deals_updateLeadFieldEnd.
  destruct f; destruct (updateOk env _); try reflexivity;
    first [ apply idStages_withStage
          | apply idStages_keeps; intros r; split; reflexivity ].
Qed.

Lemma idStages_updateLeadField (l : Deal) (f : Field) (v : option string)
  (w : World) :
  idStages (store (updateLeadField env (Some l) f v w))
  = match f with
    | FStage => if updateOk env FStage
                then withStage (id l) v (idStages (store w))
                else idStages (store w)
    | _ => idStages (store w)
    end.
Proof.
  unfold updateLeadField. now rewrite idStages_updateLeadFieldEnd.
Qed.

(** What [handleStageClick] does on a pair without a gate that it lets
    through: Won, Lost and, once confirmed, No Tender. *)
Lemma handleStageClick_ungated (target : StageName) (w : World) (l : Deal) :
  lead (page w) = Some l ->
  allowed (currentStage (Some l)) target l = true ->
  target = Won \/ target = Lost \/ (target = NoTender /\ confirmOk env = true) ->
  handleStageClick env target w
  = updateLeadFieldEnd env (Some l) FStage (Some (stageLabel target))
      (updateLeadFieldEnd env (Some l) FProbability None
         (updateLeadFieldBegin (Some l) FStage (Some (stageLabel target))
            (updateLeadFieldBegin (Some l) FProbability None w))).
Proof.
  intros Hl Ha Ht. unfold handleStageClick. rewrite Hl.
  change (isNull (tender_value l) || isNull (tender_cost l)
          || isNull (tender_margin l) || isNull (tender_margin_percent l))
    with (tenderIncomplete l).
  unfold allowed in Ha.
  destruct Ht as [->|[->|[-> Hc]]]; try rewrite Hc;
    destruct (currentStage (Some l)), (tenderIncomplete l);
    cbn in Ha; try discriminate Ha; reflexivity.
Qed.

(** The tender-summary guard, on the deal the page shows ([l], the page's
    copy of the deal): a request for Won or Lost is rejected, with an error
    message and without any change to the stored rows, the audit trail or
    the deal shown, whenever one of tender value, cost, margin and margin
    percent is null on [l]; when all four are there the request is not
    refused for the tender summary, and from any stage other than No Tender
    the new stage is written to the deal's rows as soon as the store accepts
    it. *)
Lemma won_lost_need_tender_summary (target : StageName)
  (answers : list (string * string)) (w : World) (l : Deal) :
  lead (page w) = Some l ->
  target = Won \/ target = Lost ->
  let current := currentStage (Some l) in
  let w' := requestTransition env target answers w in
  (tender_value l = None \/ tender_cost l = None \/ tender_margin l = None
   \/ tender_margin_percent l = None ->
   store w' = store w
   /\ lead (page w') = Some l
   /\ actions (page w') = actions (page w)
   /\ (target <> current ->
       error (page w')
       = Some (if stageEqb current NoTender then msgNoTenderLocked
               else msgTenderSummary)))
  /\ (tender_value l <> None /\ tender_cost l <> None
      /\ tender_margin l <> None /\ tender_margin_percent l <> None ->
      target <> current ->
      error (page w') <> Some msgTenderSummary
      /\ (current <> NoTender -> updateOk env FStage = true ->
          idStages (store w')
          = withStage (id l) (Some (stageLabel target)) (idStages (store w)))).
Proof.
  intros Hl Ht. cbv zeta. split; [|intros Hfull Hn; revert Hfull].
  - intros Hnull. apply tenderIncomplete_true in Hnull.
    assert (Ha : allowed (currentStage (Some l)) target l = false).
    { unfold allowed. rewrite Hnull.
      destruct Ht as [-> | ->]; cbn [stageEqb orb andb negb];
        now rewrite andb_false_r. }
    destruct (requestTransition_rejected target answers w l Hl Ha) as [S E].
    cbv zeta in S, E. destruct S as (S1 & S2 & S3 & _).
    repeat split; try assumption; [congruence|]. intros Hn.
    rewrite (E Hn). destruct (stageEqb (currentStage (Some l)) NoTender);
      [reflexivity|]. destruct Ht as [-> | ->]; reflexivity.
  - intros Hfull. apply tenderIncomplete_false in Hfull.
    destruct (stageEqb (currentStage (Some l)) NoTender) eqn:Ec.
    + assert (Ha : allowed (currentStage (Some l)) target l = false).
      { unfold allowed. rewrite Ec. cbn [negb]. now rewrite andb_false_r. }
      destruct (requestTransition_rejected target answers w l Hl Ha) as [_ E].
      cbv zeta in E. rewrite (E Hn), Ec. split; [discriminate|].
      apply stageEqb_eq in Ec. intros N. contradiction.
    + assert (Ha : allowed (currentStage (Some l)) target l = true).
      { unfold allowed. rewrite Ec, Hfull.
        destruct (stageEqb target (currentStage (Some l))) eqn:Et.
        - apply stageEqb_eq in Et. contradiction.
        - destruct Ht as [-> | ->]; reflexivity. }
      assert (Hu : target = Won \/ target = Lost
                   \/ (target = NoTender /\ confirmOk env = true)) by tauto.
      pose proof (handleStageClick_ungated target w l Hl Ha Hu) as Hw.
      assert (Hg : gateModalOpen (page (handleStageClick env target w))
                   = gateModalOpen (page w)).
      { rewrite Hw. unfold updateLeadFieldEnd, updateLeadFieldBegin.
        destruct (updateOk env FStage), (updateOk env FProbability),
          (optNe (getField FStage l) (Some (stageLabel target))),
          (insertOk env (Some "Stage changed")); reflexivity. }
      rewrite (requestTransition_no_gate target answers w Hg), Hw. split.
      * rewrite !error_updateLeadFieldEnd.
        destruct (updateOk env FStage), (updateOk env FProbability);
          cbn; discriminate.
      * intros _ Hok. rewrite idStages_updateLeadFieldEnd, Hok.
        now rewrite idStages_updateLeadFieldEnd.
Qed.

(** *** The Quote Submitted gate *)

Lemma deals_updateLeadField (l : Deal) (f : Field) (v : option string)
  (w : World) :
  deals (store (updateLeadField env (Some l) f v w))
  = if updateOk env f
    then map (fun r => if (id r =? id l)%string then setField f v r else r)
           (deals (store w))
    else deals (store w).
Proof.
  unfold updateLeadField. now rewrite deals_updateLeadFieldEnd.
Qed.

Lemma tenderOf_setField (i : string) (f : Field) (v : option string)
  (rows : list Deal) :
  map tenderOf
    (map (fun r => if (id r =? i)%string then setField f v r else r) rows)
  = map tenderOf rows.
Proof.
  rewrite map_map. apply map_ext. intros r.
  destruct (id r =? i)%string; [|reflexivity]. destruct f; reflexivity.
Qed.

Lemma tenderOf_updateLeadField (l : Deal) (f : Field) (v : option string)
  (w : World) :
  map tenderOf (deals (store (updateLeadField env (Some l) f v w)))
  = map tenderOf (deals (store w)).
Proof.
  rewrite deals_updateLeadField. destruct (updateOk env f); [|reflexivity].
  apply tenderOf_setField.
Qed.

(** The audit entries [updateLeadField] adds: at most one, "Stage changed",
    in front of the timeline and at the end of the table. *)
Lemma actions_updateLeadField (l : Deal) (f : Field) (v : option string)
  (w : World) :
  exists pre,
    actions (page (updateLeadField env (Some l) f v w))
    = (pre ++ actions (page w))%list
    /\ deal_actions (store (updateLeadField env (Some l) f v w))
       = (deal_actions (store w) ++ pre)%list
    /\ Forall (fun a => action_type a = Some "Stage changed") pre.
Proof.
  unfold updateLeadField, updateLeadFieldEnd, updateLeadFieldBegin.
  destruct (updateOk env f).
  - destruct f; try (exists []; cbn; rewrite app_nil_r; now repeat split).
    destruct (optNe (getField FStage l) v);
      [|exists []; cbn; rewrite app_nil_r; now repeat split].
    destruct (insertOk env (Some "Stage changed")).
    + eexists [_]. cbn. repeat split. constructor; [reflexivity|constructor].
    + exists []. cbn. rewrite app_nil_r. now repeat split.
  - exists []. cbn. rewrite app_nil_r. now repeat split.
Qed.

(** C4.  On confirming the Quote Submitted gate: when the tender value or
    the tender cost typed in does not parse as a number, or the value is 0,
    the handler stops before the division, nothing is written and the stage
    stays; otherwise, once the store accepts the update, the four tender
    fields of the deal's rows are value, cost, value - cost and
    (value - cost) / value * 100, computed from value and cost alone,
    whatever margin the form carried. *)
Theorem quote_gate_derives_finance (w : World) (l : Deal) :
  lead (page w) = Some l ->
  pendingStage (page w) = Some "Quote Submitted" ->
  let g := gateAnswers (page w) in
  let w' := handleConfirmStageChangeToQuoteSubmitted env w in
  (parseFloat (ansOf g "tender_value") = None
   \/ parseFloat (ansOf g "tender_cost") = None
   \/ (exists v, parseFloat (ansOf g "tender_value") = Some v /\ (v == 0)%Q) ->
   sameButError w w'
   /\ (areAllQuoteSubmittedGateQuestionsComplete g = true ->
       error (page w') = Some msgNumeric))
  /\ (forall v c : Q,
         areAllQuoteSubmittedGateQuestionsComplete g = true ->
         parseFloat (ansOf g "tender_value") = Some v ->
         parseFloat (ansOf g "tender_cost") = Some c ->
         ~ (v == 0)%Q ->
         tenderUpdateOk env = true ->
         map tenderOf (deals (store w'))
         = map (fun r => if (id r =? id l)%string
                         then (Some v, Some c, Some (v - c)%Q,
                               Some ((v - c) / v * 100)%Q)
                         else tenderOf r)
             (deals (store w))).
Proof.
  intros Hl Hp. cbv zeta. unfold handleConfirmStageChangeToQuoteSubmitted.
  rewrite Hp, Hl. cbn [optNe String.eqb Ascii.eqb Bool.eqb negb].
  split.
  - intros Hbad.
    destruct (areAllQuoteSubmittedGateQuestionsComplete (gateAnswers (page w)));
      cbn [negb]; [|split; [apply sameButError_refl|discriminate]].
    destruct (parseFloat (ansOf (gateAnswers (page w)) "tender_value"))
      as [v|] eqn:Ev; [|split; [apply sameButError_setError|reflexivity]].
    destruct (parseFloat (ansOf (gateAnswers (page w)) "tender_cost"))
      as [c|] eqn:Ec; [|split; [apply sameButError_setError|reflexivity]].
    destruct Hbad as [Hb|[Hb|(v' & Hb & Hz)]]; try discriminate.
    injection Hb as <-. apply Qeq_bool_iff in Hz. rewrite Hz.
    split; [apply sameButError_setError|reflexivity].
  - intros v c Hc Ev Ec Hz Hok. rewrite Hc, Ev, Ec. cbn [negb].
    destruct (Qeq_bool v 0) eqn:Ez; [apply Qeq_bool_iff in Ez; contradiction|].
    rewrite Hok. cbn [onPage store page].
    rewrite tenderOf_updateLeadField. cbn [store updateRows deals].
    rewrite deals_logAction, map_map. apply map_ext. intros r.
    destruct (id r =? id l)%string; reflexivity.
Qed.

(** C5.  The audit entry of a confirmed Quote Submitted gate is labelled
    "Stage gate: Quote Submitted (vN)", N being one more than the number of
    entries of the deal's timeline whose label starts with
    "Stage gate: Quote Submitted"; it is put on the timeline above the earlier
    entries, below at most the "Stage changed" entry of the move itself.
    Submitting the gate, starting a re-quote and submitting again yields the
    labels v1 and then v2. *)
Theorem quote_gate_version_label :
  (forall (w : World) (l : Deal) (v c : Q),
      lead (page w) = Some l ->
      pendingStage (page w) = Some "Quote Submitted" ->
      areAllQuoteSubmittedGateQuestionsComplete (gateAnswers (page w)) = true ->
      parseFloat (ansOf (gateAnswers (page w)) "tender_value") = Some v ->
      parseFloat (ansOf (gateAnswers (page w)) "tender_cost") = Some c ->
      ~ (v == 0)%Q ->
      let n := (List.length (quoteEntries (actions (page w))) + 1)%nat in
      let label :=
        "Stage gate: Quote Submitted (v" ++ stringOfZ (Z.of_nat n) ++ ")" in
      insertOk env (Some label) = true ->
      let w' := handleConfirmStageChangeToQuoteSubmitted env w in
      exists notes pre,
        actions (page w')
        = (pre ++ mkAction (id l) (Some label) (Some notes) None
               :: actions (page w))%list
        /\ deal_actions (store w')
           = (deal_actions (store w)
              ++ mkAction (id l) (Some label) (Some notes) None :: pre)%list
        /\ Forall (fun a => action_type a = Some "Stage changed") pre)
  /\ (let w1 := @requestTransition stdBuiltins allOk QuoteSubmitted
                  (quoteAnswers "1000" "750.50")
                  (sampleWorld (sampleDeal "In Review" None)) in
      let w2 := handleRequote allOk w1 in
      let w3 := @requestTransition stdBuiltins allOk QuoteSubmitted
                  (quoteAnswers "900" "700") w2 in
      map action_type (quoteEntries (actions (page w1)))
      = [Some "Stage gate: Quote Submitted (v1)"]
      /\ map action_type (quoteEntries (actions (page w3)))
         = [Some "Stage gate: Quote Submitted (v2)";
            Some "Stage gate: Quote Submitted (v1)"]).
Proof.
  split; [|vm_compute; split; reflexivity].
  intros w l v c Hl Hp Hc Ev Ec Hz n label Hins. cbv zeta.
  unfold handleConfirmStageChangeToQuoteSubmitted.
  rewrite Hp, Hl, Hc, Ev, Ec. cbn [optNe String.eqb Ascii.eqb Bool.eqb negb].
  destruct (Qeq_bool v 0) eqn:Ez; [apply Qeq_bool_iff in Ez; contradiction|].
  cbn [action_type].
  change (getQuoteSubmissionCount (actions (page w)) + 1)%nat with n.
  fold label. rewrite Hins. cbn [onPage closeGate page actions store].
  match goal with
  | |- context [updateLeadField env (Some l) FStage ?x ?w2] =>
      destruct (actions_updateLeadField l FStage x w2) as (pre & A & D & F)
  end.
  eexists; exists pre. rewrite A, D. split; [|split; [|exact F]].
  - destruct (tenderUpdateOk env); reflexivity.
  - destruct (tenderUpdateOk env); cbn; now rewrite <- app_assoc.
Qed.

(** *** The pairs that are let through *)

Lemma idStages_logAction (ok : bool) (a : DealAction) (w : World) :
  idStages (store (logAction ok a w)) = idStages (store w).
Proof. unfold idStages. now rewrite deals_logAction. Qed.

Lemma idStages_setTender (i : string) (v c m mp : Q) (s : Store) :
  idStages (updateRows i (setTender v c m mp) s) = idStages s.
Proof.
  unfold idStages, updateRows. cbn [deals].
  apply idStages_keeps. intros r. split; reflexivity.
Qed.

Lemma handleStageClick_opens_gate (target : StageName) (w : World) (l : Deal) :
  lead (page w) = Some l ->
  allowed (currentStage (Some l)) target l = true ->
  target = Qualified \/ target = InReview \/ target = QuoteSubmitted ->
  exists g0,
    handleStageClick env target w = onPage (openGate (stageLabel target) g0) w.
Proof.
  intros Hl Ha Ht. unfold handleStageClick. rewrite Hl.
  change (isNull (tender_value l) || isNull (tender_cost l)
          || isNull (tender_margin l) || isNull (tender_margin_percent l))
    with (tenderIncomplete l).
  unfold allowed in Ha.
  destruct Ht as [->|[->| ->]];
    destruct (currentStage (Some l)), (tenderIncomplete l);
    cbn in Ha; try discriminate Ha; eexists; reflexivity.
Qed.

Lemma confirm_qualified_commits (w : World) (l : Deal) :
  lead (page w) = Some l ->
  pendingStage (page w) = Some "Qualified" ->
  areAllQualifiedGateQuestionsComplete (gateAnswers (page w)) = true ->
  updateOk env FStage = true ->
  idStages (store (handleConfirmStageChangeToQualified env w))
  = withStage (id l) (Some "Qualified") (idStages (store w)).
Proof.
  intros Hl Hp Hc Hok. unfold handleConfirmStageChangeToQualified.
  rewrite Hp, Hl, Hc. cbn [optNe String.eqb Ascii.eqb Bool.eqb negb].
  cbn [onPage store]. rewrite idStages_updateLeadField, Hok.
  rewrite idStages_logAction.
  destruct (isNull (orNull (ansOf (gateAnswers (page w)) "est_start_month")));
    destruct (isNull (orNull (ansOf (gateAnswers (page w))
                                "qualified_tender_return_date")));
    cbn [negb]; rewrite ?idStages_updateLeadField; reflexivity.
Qed.

Lemma confirm_in_review_commits (w : World) (l : Deal) :
  lead (page w) = Some l ->
  pendingStage (page w) = Some "In Review" ->
  areAllInReviewGateQuestionsComplete (gateAnswers (page w)) = true ->
  updateOk env FStage = true ->
  idStages (store (handleConfirmStageChangeToInReview env w))
  = withStage (id l) (Some "In Review") (idStages (store w)).
Proof.
  intros Hl Hp Hc Hok. unfold handleConfirmStageChangeToInReview.
  rewrite Hp, Hl, Hc. cbn [optNe String.eqb Ascii.eqb Bool.eqb negb].
  cbn [onPage store]. rewrite idStages_updateLeadField, Hok.
  now rewrite idStages_logAction.
Qed.

Lemma confirm_quote_commits (w : World) (l : Deal) :
  lead (page w) = Some l ->
  pendingStage (page w) = Some "Quote Submitted" ->
  gatePasses QuoteSubmitted (gateAnswers (page w)) = true ->
  updateOk env FStage = true ->
  idStages (store (handleConfirmStageChangeToQuoteSubmitted env w))
  = withStage (id l) (Some "Quote Submitted") (idStages (store w)).
Proof.
  intros Hl Hp Hg Hok. unfold gatePasses in Hg.
  apply andb_true_iff in Hg. destruct Hg as [Hc Hv].
  unfold handleConfirmStageChangeToQuoteSubmitted.
  rewrite Hp, Hl, Hc. cbn [optNe String.eqb Ascii.eqb Bool.eqb negb].
  destruct (parseFloat (ansOf (gateAnswers (page w)) "tender_value")) as [v|];
    [|discriminate].
  destruct (parseFloat (ansOf (gateAnswers (page w)) "tender_cost")) as [c|];
    [|discriminate].
  destruct (Qeq_bool v 0); [discriminate|].
  cbn [onPage store]. rewrite idStages_updateLeadField, Hok.
  destruct (tenderUpdateOk env); cbn [onPage store].
  - now rewrite idStages_setTender, idStages_logAction.
  - now rewrite idStages_logAction.
Qed.

(** A request the stage bar lets through is committed once the confirmation
    dialog or the gate is passed and the store accepts the stage. *)
Lemma requestTransition_commits (target : StageName)
  (answers : list (string * string)) (w : World) (l : Deal) :
  lead (page w) = Some l ->
  allowed (currentStage (Some l)) target l = true ->
  gateModalOpen (page w) = false ->
  confirmOk env = true ->
  updateOk env FStage = true ->
  gatePasses target answers = true ->
  idStages (store (requestTransition env target answers w))
  = withStage (id l) (Some (stageLabel target)) (idStages (store w)).
Proof.
  intros Hl Ha Hm Hcf Hok Hg.
  assert (Hcases : (target = Won \/ target = Lost
                    \/ (target = NoTender /\ confirmOk env = true))
                   \/ (target = Qualified \/ target = InReview
                       \/ target = QuoteSubmitted)).
  { destruct target; try tauto. unfold allowed in Ha.
    rewrite !andb_true_iff in Ha. cbn in Ha. intuition discriminate. }
  destruct Hcases as [Hu|Ht].
  - pose proof (handleStageClick_ungated target w l Hl Ha Hu) as Hw.
    rewrite requestTransition_no_gate.
    + rewrite Hw, idStages_updateLeadFieldEnd, Hok.
      now rewrite idStages_updateLeadFieldEnd.
    + rewrite Hw. unfold updateLeadFieldEnd, updateLeadFieldBegin.
      destruct (updateOk env FStage), (updateOk env FProbability),
        (optNe (getField FStage l) (Some (stageLabel target))),
        (insertOk env (Some "Stage changed")); reflexivity.
  - destruct (handleStageClick_opens_gate target w l Hl Ha Ht) as [g0 Hw].
    unfold requestTransition. cbv zeta. rewrite Hw, Hm.
    cbn [onPage openGate page gateModalOpen andb negb].
    unfold confirmGate.
    destruct Ht as [->|[->| ->]];
      cbn [onPage openGate setGateAnswers page pendingStage stageLabel
           String.eqb Ascii.eqb Bool.eqb andb].
    + rewrite (confirm_qualified_commits _ l);
        [reflexivity|exact Hl|reflexivity|exact Hg|exact Hok].
    + rewrite (confirm_in_review_commits _ l);
        [reflexivity|exact Hl|reflexivity|exact Hg|exact Hok].
    + rewrite (confirm_quote_commits _ l);
        [reflexivity|exact Hl|reflexivity|exact Hg|exact Hok].
Qed.

(** The re-quote button moves the deal to In Review without a gate. *)
Lemma handleRequote_commits (w : World) (l : Deal) :
  lead (page w) = Some l ->
  confirmOk env = true ->
  updateOk env FStage = true ->
  idStages (store (handleRequote env w))
  = withStage (id l) (Some "In Review") (idStages (store w)).
Proof.
  intros Hl Hcf Hok. unfold handleRequote. rewrite Hl, Hcf. cbn [negb].
  rewrite idStages_updateLeadField, Hok.
  destruct (insertOk env _); reflexivity.
Qed.

(** C1, as the code has it.  A request changes the store only if the target
    differs from the current stage, the current stage is not No Tender, the
    target is not Received and, for Won and Lost, the four tender fields are
    there; every other request (among them every attempt to re-enter Received
    or to leave No Tender) leaves the stored rows, the audit trail and the
    deal shown as they were.  The pairs of the forward path, the moves to No
    Tender and the re-quote are all let through, but adjacency is not
    required: a request that is let through is committed from whatever stage
    it is made, once its gate or confirmation is passed and the store
    accepts the stage.  The re-quote button moves the deal to In Review
    without a gate. *)
Theorem transition_committed_only_if_let_through (target : StageName)
  (answers : list (string * string)) (w : World) (l : Deal) :
  lead (page w) = Some l ->
  let current := currentStage (Some l) in
  let w' := requestTransition env target answers w in
  (allowed current target l = false ->
   store w' = store w /\ lead (page w') = Some l
   /\ actions (page w') = actions (page w))
  /\ (store w' <> store w -> allowed current target l = true)
  /\ (specAllowed current target = true ->
      (target = Won \/ target = Lost -> tenderIncomplete l = false) ->
      allowed current target l = true)
  /\ (allowed current target l = true ->
      gateModalOpen (page w) = false ->
      confirmOk env = true ->
      updateOk env FStage = true ->
      gatePasses target answers = true ->
      idStages (store w')
      = withStage (id l) (Some (stageLabel target)) (idStages (store w)))
  /\ (confirmOk env = true ->
      updateOk env FStage = true ->
      idStages (store (handleRequote env w))
      = withStage (id l) (Some "In Review") (idStages (store w))).
Proof.
  intros Hl. cbv zeta.
  assert (Hrej : allowed (currentStage (Some l)) target l = false ->
                 store (requestTransition env target answers w) = store w
                 /\ lead (page (requestTransition env target answers w)) = Some l
                 /\ actions (page (requestTransition env target answers w))
                    = actions (page w)).
  { intros Ha.
    destruct (requestTransition_rejected target answers w l Hl Ha) as [S _].
    cbv zeta in S. destruct S as (S1 & S2 & S3 & _).
    repeat split; congruence. }
  split; [exact Hrej|]. split; [|split; [|split]].
  - intros Hs. destruct (allowed (currentStage (Some l)) target l);
      [reflexivity|]. destruct (Hrej eq_refl) as [S _]. contradiction.
  - intros Hs Hf. unfold allowed.
    destruct (currentStage (Some l)), target; cbn in Hs; try discriminate Hs;
      cbn [stageEqb negb andb orb]; try reflexivity;
      rewrite Hf by tauto; reflexivity.
  - intros Ha Hm Hcf Hok Hg. now apply requestTransition_commits.
  - intros Hcf Hok. now apply handleRequote_commits.
Qed.

(** C1 as stated fails: from Received, the In Review gate is opened and,
    once its six answers are given, the deal is moved to In Review, a pair
    outside the relation of the specification. *)
Lemma stage_can_skip_forward :
  ~ (forall (target : StageName) (answers : list (string * string))
            (w : World) (l : Deal),
        lead (page w) = Some l ->
        store (@requestTransition stdBuiltins allOk target answers w)
        <> store w ->
        specAllowed (currentStage (Some l)) target = true).
Proof.
  intros Hc.
  specialize (Hc InReview inReviewAnswers
                (sampleWorld (sampleDeal "Received" None))
                (sampleDeal "Received" None) eq_refl).
  assert (E : specAllowed (currentStage (Some (sampleDeal "Received" None)))
                InReview = false) by reflexivity.
  rewrite Hc in E; [discriminate E|].
  vm_compute. intros D. discriminate D.
Qed.

(** The page's own copy of the deal does not keep the figures of the gate:
    the [updateLeadField] that moves the stage spreads the lead captured when
    the handler started over the state, so that until the deal is loaded
    again a click on Won is still refused for the tender summary. *)
Remark quote_gate_page_copy_is_stale :
  let w := quoteGateWorld (sampleDeal "In Review" None)
             (quoteAnswers "1000" "750.50") in
  let w' := @handleConfirmStageChangeToQuoteSubmitted stdBuiltins allOk w in
  option_map tenderOf (lead (page w')) = Some (None, None, None, None)
  /\ error (page (@requestTransition stdBuiltins allOk Won [] w'))
     = Some msgTenderSummary.
Proof. vm_compute. split; reflexivity. Qed.

End StageGate.

(** C3.  The claim holds of the deal; the guard of [handleStageClick] reads
    the page's copy of it, and that copy loses the figures of the quoting
    gate.  The gate stores value, cost, margin and margin percent and puts
    them into the deal shown ("Update local state for lead"), but the
    [updateLeadField] that follows spreads the deal captured when the
    handler started over the state.  With all four figures stored and the
    stage Quote Submitted, a request for Won is refused for the tender
    summary and nothing is written. *)
Theorem won_refused_after_quote_gate :
  let w := Spec.quoteGateWorld (Spec.sampleDeal "In Review" None)
             (Spec.quoteAnswers "1000" "750.50") in
  let w1 := @DealDetail.handleConfirmStageChangeToQuoteSubmitted stdBuiltins
              DealDetail.allOk w in
  let w2 := @DealDetail.requestTransition stdBuiltins DealDetail.allOk
              DealDetail.Won [] w1 in
  map Spec.tenderOf (DealDetail.deals (DealDetail.store w1))
  = [(Some 1000%Q, Some (1501 # 2)%Q, Some (1000 - (1501 # 2))%Q,
      Some ((1000 - (1501 # 2)) / 1000 * 100)%Q)]
  /\ Spec.idStages (DealDetail.store w1) = [("d1", Some "Quote Submitted")]
  /\ option_map Spec.tenderOf (DealDetail.lead (DealDetail.page w1))
     = Some (None, None, None, None)
  /\ DealDetail.error (DealDetail.page w2) = Some DealDetail.msgTenderSummary
  /\ DealDetail.store w2 = DealDetail.store w1.
Proof. vm_compute. repeat split; reflexivity. Qed.

(** ** The theorems at work on sample data *)

Section Samples.
Import DealDetail Spec.

Lemma transition_committed_only_if_let_through_witness :
  let w := sampleWorld (sampleDeal "Received" None) in
  idStages (store (@requestTransition stdBuiltins allOk InReview
                     inReviewAnswers w))
  = withStage "d1" (Some "In Review") (idStages (store w))
  /\ store (@requestTransition stdBuiltins allOk Won [] w) = store w.
Proof.
  cbv zeta. split.
  - destruct (@transition_committed_only_if_let_through stdBuiltins allOk
                InReview inReviewAnswers
                (sampleWorld (sampleDeal "Received" None))
                (sampleDeal "Received" None) eq_refl) as (_ & _ & _ & Hc & _).
    apply Hc; reflexivity.
  - destruct (@transition_committed_only_if_let_through stdBuiltins allOk
                Won [] (sampleWorld (sampleDeal "Received" None))
                (sampleDeal "Received" None) eq_refl) as (Hr & _).
    apply Hr. reflexivity.
Defined.

Lemma no_tender_is_absorbing_witness :
  let w := sampleWorld (sampleDeal "No Tender" (Some 100%Q)) in
  let w' := @requestTransition stdBuiltins allOk Won [] w in
  store w' = store w
  /\ lead (page w') = Some (sampleDeal "No Tender" (Some 100%Q))
  /\ actions (page w') = actions (page w)
  /\ error (page w') = Some msgNoTenderLocked.
Proof.
  apply (@no_tender_is_absorbing stdBuiltins allOk Won []
           (sampleWorld (sampleDeal "No Tender" (Some 100%Q)))
           (sampleDeal "No Tender" (Some 100%Q)));
    [reflexivity|reflexivity|intros E; discriminate E].
Defined.

Lemma won_lost_need_tender_summary_witness :
  (let w := sampleWorld (sampleDeal "Quote Submitted" None) in
   let w' := @requestTransition stdBuiltins allOk Won [] w in
   store w' = store w /\ error (page w') = Some msgTenderSummary)
  /\ (let w := sampleWorld (sampleDeal "Quote Submitted" (Some 100%Q)) in
      let w' := @requestTransition stdBuiltins allOk Lost [] w in
      idStages (store w') = [("d1", Some "Lost")]).
Proof.
  cbv zeta. split.
  - destruct (@won_lost_need_tender_summary stdBuiltins allOk Won []
                (sampleWorld (sampleDeal "Quote Submitted" None))
                (sampleDeal "Quote Submitted" None)
                eq_refl (or_introl eq_refl)) as (Hr & _).
    destruct Hr as (S & _ & _ & E); [left; reflexivity|].
    split; [exact S|]. apply E. intros D; discriminate D.
  - destruct (@won_lost_need_tender_summary stdBuiltins allOk Lost []
                (sampleWorld (sampleDeal "Quote Submitted" (Some 100%Q)))
                (sampleDeal "Quote Submitted" (Some 100%Q))
                eq_refl (or_intror eq_refl)) as (_ & Hc).
    destruct Hc as (_ & Hs).
    + repeat split; intros D; discriminate D.
    + intros D; discriminate D.
    + rewrite Hs; [reflexivity|intros D; discriminate D|reflexivity].
Defined.

Lemma quote_gate_derives_finance_witness :
  (let w := quoteGateWorld (sampleDeal "In Review" None)
              (quoteAnswers "1000" "750.50") in
   map tenderOf
     (deals (store (@handleConfirmStageChangeToQuoteSubmitted stdBuiltins
                      allOk w)))
   = [(Some 1000%Q, Some (1501 # 2)%Q, Some (1000 - (1501 # 2))%Q,
       Some ((1000 - (1501 # 2)) / 1000 * 100)%Q)])
  /\ (let w := quoteGateWorld (sampleDeal "In Review" None)
                 (quoteAnswers "0" "750.50") in
      store (@handleConfirmStageChangeToQuoteSubmitted stdBuiltins allOk w)
      = store w).
Proof.
  cbv zeta. split.
  - destruct (@quote_gate_derives_finance stdBuiltins allOk
                (quoteGateWorld (sampleDeal "In Review" None)
                   (quoteAnswers "1000" "750.50"))
                (sampleDeal "In Review" None) eq_refl eq_refl) as (_ & Hf).
    cbv zeta in Hf.
    rewrite (Hf 1000%Q (1501 # 2)%Q);
      [reflexivity|reflexivity|reflexivity|reflexivity
      |intros D; discriminate D|reflexivity].
  - destruct (@quote_gate_derives_finance stdBuiltins allOk
                (quoteGateWorld (sampleDeal "In Review" None)
                   (quoteAnswers "0" "750.50"))
                (sampleDeal "In Review" None) eq_refl eq_refl) as (Hr & _).
    destruct Hr as ((S & _) & _); [|exact S].
    right; right. exists 0%Q. split; reflexivity.
Defined.

Lemma quote_gate_version_label_witness :
  let w := quoteGateWorld (sampleDeal "In Review" None)
             (quoteAnswers "1000" "750.50") in
  exists notes pre,
    actions (page (@handleConfirmStageChangeToQuoteSubmitted stdBuiltins
                     allOk w))
    = (pre ++ mkAction "d1" (Some "Stage gate: Quote Submitted (v1)")
                (Some notes) None :: [])%list.
Proof.
  cbv zeta.
  destruct (@quote_gate_version_label stdBuiltins allOk) as (Hv & _).
  destruct (Hv (quoteGateWorld (sampleDeal "In Review" None)
                  (quoteAnswers "1000" "750.50"))
              (sampleDeal "In Review" None) 1000%Q (1501 # 2)%Q
              eq_refl eq_refl eq_refl eq_refl eq_refl
              (fun D => Qeq_bool_neq 1000 0 eq_refl D) eq_refl)
    as (notes & pre & A & _).
  exists notes, pre. exact A.
Defined.

Lemma ownKeys_sample (d : Dashboard.Deal) (p : string) :
  @protoMember stdBuiltins (Dashboard.lowerStage d) = None ->
  Dashboard.probability d = Some p -> @protoMember stdBuiltins p = None ->
  @ownKeys stdBuiltins d.
Proof.
  intros S P M. split; [exact S|]. intros q E. congruence.
Qed.

Lemma collapse_order_independent_up_to_ties_witness :
  In tenderQuoted
    (@Dashboard.collapseDealsByAp stdBuiltins [tenderQualified; tenderQuoted])
  <-> In tenderQuoted
        (@Dashboard.collapseDealsByAp stdBuiltins
           [tenderQuoted; tenderQualified]).
Proof.
  destruct (@collapse_order_independent_up_to_ties stdBuiltins
              [tenderQualified; tenderQuoted] [tenderQuoted; tenderQualified])
    as (_ & Hs & _).
  - apply perm_swap.
  - intros x [<-|[<-|[]]]; intros D; discriminate D.
  - intros x [<-|[<-|[]]];
      [apply (ownKeys_sample _ "B")|apply (ownKeys_sample _ "A")];
      reflexivity.
  - apply Hs.
    intros x y [<-|[<-|[]]] [<-|[<-|[]]] _ (R & _); try reflexivity;
      discriminate R.
Defined.


Lemma skipped_deal_contributes_nothing_witness :
  @Dashboard.pipelineBuckets stdBuiltins [tenderLost] = []
  /\ @Forecast.forecastOfCollapsed stdBuiltins "" "" false 0 [tenderLost] = [].
Proof.
  destruct (@skipped_deal_contributes_nothing stdBuiltins tenderLost)
    as (_ & Hp & Hf).
  - left. reflexivity.
  - split.
    + exact (Hp [] []).
    + exact (proj2 (Hf "" "" false 0) [] []).
Defined.

End Samples.


(* ================================================================= *)
(** * Part III: further properties of the three pages *)
(* ================================================================= *)

(** ** Collapsing: structure of the result *)

Section CollapseStructure.
Context `{Builtins}.
Import Dashboard Spec Inv.

Lemma fold_pick_in (g : list Deal) (e r : Deal) :
  fold_left (pickStep chooseBestDealForAp) g (Some e) = Some r ->
  r = e \/ In r g.
Proof.
  revert e. induction g as [|d g IH]; intros e F.
  - injection F as <-. now left.
  - cbn [fold_left pickStep] in F. apply IH in F.
    destruct F as [->|I]; [|right; now right].
    destruct (chooseBestDealForAp_either e d) as [-> | ->];
      [now left|right; now left].
Qed.

Lemma group_pick_in (g : list Deal) (r : Deal) :
  fold_left (pickStep chooseBestDealForAp) g None = Some r -> In r g.
Proof.
  destruct g as [|e g]; [discriminate|]. cbn [fold_left pickStep].
  intros F. apply fold_pick_in in F. destruct F as [->|I]; [now left|now right].
Qed.

Lemma keyedOk_mapSet (k : string) (d : Deal) (m : list (string * Deal)) :
  apKey d = k -> keyedOk m -> keyedOk (mapSet String.eqb k d m).
Proof.
  intros E. unfold keyedOk. induction m as [|[k' d'] m IH]; simpl; intros F.
  - constructor; [exact E|constructor].
  - inversion_clear F as [|? ? Hh Ht]. simpl in Hh.
    destruct (String.eqb_spec k k'); constructor; simpl; auto.
    congruence.
Qed.

Lemma collapseStep_keyed (m : list (string * Deal)) (d : Deal) :
  keyedOk m -> keyedOk (collapseStep chooseBestDealForAp m d).
Proof.
  intros F. unfold collapseStep.
  destruct (mapGet String.eqb (apKey d) m) as [e|] eqn:G.
  - apply keyedOk_mapSet; [|exact F].
    apply (mapGet_In String.eqb String.eqb_eq) in G.
    unfold keyedOk in F. rewrite Forall_forall in F. specialize (F _ G).
    simpl in F. destruct (chooseBestDealForAp_either e d) as [-> | ->];
      [exact F|reflexivity].
  - apply keyedOk_mapSet; [reflexivity|exact F].
Qed.

Lemma collapse_fold_keyed (l : list Deal) (m : list (string * Deal)) :
  keyedOk m -> keyedOk (fold_left (collapseStep chooseBestDealForAp) l m).
Proof.
  revert m. induction l as [|d l IH]; intros m F; [exact F|].
  simpl. apply IH. now apply collapseStep_keyed.
Qed.

Lemma keyedOk_keys (m : list (string * Deal)) :
  keyedOk m -> map apKey (map snd m) = map fst m.
Proof.
  unfold keyedOk. induction 1 as [|[k d] m Hh Ht IH]; [reflexivity|].
  simpl in *. now rewrite Hh, IH.
Qed.

Lemma mapSet_absent {V : Type} (k : string) (v : V) (m : list (string * V)) :
  ~ In k (map fst m) -> mapSet String.eqb k v m = (m ++ [(k, v)])%list.
Proof.
  induction m as [|[k' v'] m IH]; simpl; intros N; [reflexivity|].
  destruct (String.eqb_spec k k') as [->|D]; [exfalso; apply N; now left|].
  rewrite IH; [reflexivity|]. intros I. apply N. now right.
Qed.

(** Collapsing the values of a well-formed map rebuilds the map. *)
Lemma recollapse (m m0 : list (string * Deal)) :
  keyedOk m -> NoDup (map fst (m0 ++ m)) ->
  fold_left (collapseStep chooseBestDealForAp) (map snd m) m0
  = (m0 ++ m)%list.
Proof.
  revert m0. induction m as [|[k d] m IH]; intros m0 F ND.
  - simpl. now rewrite app_nil_r.
  - inversion_clear F as [|? ? Hh Ht]. simpl in Hh.
    cbn [map snd fold_left]. unfold collapseStep at 2. rewrite Hh.
    assert (Nk : ~ In k (map fst m0)).
    { rewrite map_app in ND. simpl in ND. apply NoDup_remove_2 in ND.
      intros I. apply ND. apply in_or_app. now left. }
    destruct (mapGet String.eqb k m0) as [e|] eqn:G.
    { exfalso. apply Nk. apply (mapGet_key_in String.eqb String.eqb_eq).
      congruence. }
    rewrite (mapSet_absent k d m0 Nk).
    rewrite IH; [now rewrite <- app_assoc|exact Ht|].
    now rewrite <- app_assoc.
Qed.

(** X1.  Collapsing is idempotent: the collapsed list already holds one deal
    per project key, so collapsing it again returns it unchanged, in the same
    order.  The same holds of the forecast page's function. *)
Theorem collapse_idempotent (l : list Deal) :
  collapseDealsByAp (collapseDealsByAp l) = collapseDealsByAp l
  /\ Forecast.collapseDealsByAp (Forecast.collapseDealsByAp l)
     = Forecast.collapseDealsByAp l.
Proof.
  assert (E : collapseDealsByAp (collapseDealsByAp l) = collapseDealsByAp l).
  { unfold collapseDealsByAp, collapseWith, mapValues.
    rewrite (recollapse _ []); [reflexivity| |].
    - apply collapse_fold_keyed. constructor.
    - apply collapse_keys_nodup. constructor. }
  split; exact E.
Qed.

(** X2.  The collapsed list holds exactly one deal per project key of the
    input: its keys are pairwise distinct, each of its deals is one of the
    input deals, every input deal has its key represented, and a deal that
    shares its key with no other input deal (so every deal without an AP
    number and with an identifier of its own) passes through unchanged. *)
Theorem collapse_one_per_project (l : list Deal) :
  NoDup (map apKey (collapseDealsByAp l))
  /\ (forall d, In d (collapseDealsByAp l) -> In d l)
  /\ (forall d, In d l ->
                exists r, In r (collapseDealsByAp l) /\ apKey r = apKey d)
  /\ (forall d, In d l ->
                (forall x, In x l -> apKey x = apKey d -> x = d) ->
                In d (collapseDealsByAp l)).
Proof.
  assert (Hrep : forall d, In d l ->
                 exists r, In r (collapseDealsByAp l) /\ In r l
                           /\ apKey r = apKey d).
  { intros d I.
    destruct (group_best_exists (groupOf (apKey d) l)) as [r F].
    { intros E. assert (Ig : In d (groupOf (apKey d) l))
        by (apply In_groupOf; split; [exact I|reflexivity]).
      rewrite E in Ig. contradiction. }
    exists r. split; [apply In_collapseWith; now exists (apKey d)|].
    apply group_pick_in, In_groupOf in F. exact F. }
  split; [|split; [|split]].
  - unfold collapseDealsByAp, collapseWith, mapValues.
    rewrite keyedOk_keys by (apply collapse_fold_keyed; constructor).
    apply collapse_keys_nodup. constructor.
  - intros d I. apply In_collapseWith in I. destruct I as (k & F).
    apply group_pick_in, In_groupOf in F. tauto.
  - intros d I. destruct (Hrep d I) as (r & Ir & _ & K). now exists r.
  - intros d I U. destruct (Hrep d I) as (r & Ir & Il & K).
    now rewrite <- (U r Il K).
Qed.

(** X3.  When the enquiry dates parse and no stage or probability names an
    inherited member, no deal of the input wins against the representative
    kept for its project key on the first criterion that differs: the
    representative is a best deal of its group. *)
Theorem collapse_keeps_a_best_deal (l : list Deal) :
  (forall x, In x l -> dateValid x) ->
  (forall x, In x l -> ownKeys x) ->
  forall x, In x l ->
            exists r, In r (collapseDealsByAp l) /\ apKey r = apKey x
                      /\ ~ better x r.
Proof.
  intros Vd Vo x I.
  assert (V : forall y, In y l -> regular y)
    by (intros y Iy; split; [now apply Vd|now apply Vo]).
  destruct (group_best_exists (groupOf (apKey x) l)) as [r F].
  { intros E. assert (Ig : In x (groupOf (apKey x) l))
      by (apply In_groupOf; split; [exact I|reflexivity]).
    rewrite E in Ig. contradiction. }
  assert (Vg : Forall regular (groupOf (apKey x) l)).
  { apply Forall_forall. intros y Iy. apply In_groupOf in Iy. now apply V. }
  destruct (group_best _ _ Vg F) as [M N].
  exists r. split; [apply In_collapseWith; now exists (apKey x)|].
  apply In_groupOf in M. split; [tauto|].
  apply N. apply In_groupOf. split; [exact I|reflexivity].
Qed.

End CollapseStructure.


(** ** The financial-year filter and summary *)

Section SortMore.
Context {A B : Type} (f : A -> B) (le : B -> B -> bool).

Lemma insertSorted_map (x : A) (l : list A) :
  map f (insertSorted (fun a b => le (f a) (f b)) x l)
  = insertSorted le (f x) (map f l).
Proof.
  induction l as [|y l IH]; simpl; [reflexivity|].
  destruct (le (f x) (f y)); simpl; [reflexivity|now rewrite IH].
Qed.

Lemma sortBy_map (l : list A) :
  map f (sortBy (fun a b => le (f a) (f b)) l) = sortBy le (map f l).
Proof.
  induction l as [|x l IH]; simpl; [reflexivity|].
  now rewrite insertSorted_map, IH.
Qed.

End SortMore.

Lemma insertSorted_Zle (x : Z) (l : list Z) :
  StronglySorted Z.le l ->
  StronglySorted Z.le (insertSorted (fun a b => a - b <=? 0) x l).
Proof.
  induction 1 as [|y l S IH F]; simpl.
  - constructor; constructor.
  - destruct (Z.leb_spec (x - y) 0) as [L|L].
    + constructor; [constructor; assumption|].
      constructor; [lia|]. rewrite Forall_forall in *. intros z Iz.
      specialize (F z Iz). lia.
    + constructor; [exact IH|].
      apply (Permutation_Forall (Permutation_sym (insertSorted_perm _ x l))).
      constructor; [lia|exact F].
Qed.

Lemma sortBy_Zle (l : list Z) :
  StronglySorted Z.le (sortBy (fun a b => a - b <=? 0) l).
Proof.
  induction l as [|x l IH]; simpl; [constructor|].
  now apply insertSorted_Zle.
Qed.

Lemma sorted_nodup_strict (l : list Z) :
  StronglySorted Z.le l -> NoDup l -> StronglySorted Z.lt l.
Proof.
  induction 1 as [|x l S IH F]; intros ND; [constructor|].
  inversion_clear ND as [|? ? Nx ND']. constructor; [now apply IH|].
  rewrite Forall_forall in *. intros y Iy. specialize (F y Iy).
  assert (x <> y) by (intros ->; contradiction). lia.
Qed.

Lemma keys_mapSet_Z {V : Type} (k : Z) (v : V) (m : list (Z * V)) :
  map fst (mapSet Z.eqb k v m) = DashboardMore.setAdd k (map fst m).
Proof.
  unfold DashboardMore.setAdd.
  induction m as [|[k' v'] m IH]; simpl; [reflexivity|].
  destruct (Z.eqb k k') eqn:E; simpl; [reflexivity|].
  rewrite IH. destruct (existsb (Z.eqb k) (map fst m)); reflexivity.
Qed.

Lemma sumZ_mapSet {V : Type} (f : V -> Z) (k : Z) (v : V) (m : list (Z * V)) :
  Inv.sumZ (map f (map snd (mapSet Z.eqb k v m)))
  = Inv.sumZ (map f (map snd m)) + f v
    - match mapGet Z.eqb k m with
      | Some o => f o
      | None => 0
      end.
Proof.
  induction m as [|[k' v'] m IH]; simpl; [lia|].
  destruct (Z.eqb k k'); simpl; [lia|]. rewrite IH. lia.
Qed.

Lemma Forall_mapSet {V : Type} (P : V -> Prop) (k : Z) (v : V)
  (m : list (Z * V)) :
  P v -> Forall P (map snd m) -> Forall P (map snd (mapSet Z.eqb k v m)).
Proof.
  intros Pv. induction m as [|[k' v'] m IH]; simpl; intros F.
  - constructor; [exact Pv|constructor].
  - inversion_clear F as [|? ? Hh Ht].
    destruct (Z.eqb k k'); constructor; simpl; auto.
Qed.

Section FinancialYearMore.
Context `{Builtins}.
Import Dashboard DashboardMore Spec Inv.

Lemma inject_Z_eqb (a b : Z) : Qeq_bool (inject_Z a) (inject_Z b) = (a =? b).
Proof.
  destruct (Z.eqb_spec a b) as [->|N].
  - apply Qeq_bool_iff. reflexivity.
  - destruct (Qeq_bool (inject_Z a) (inject_Z b)) eqn:E; [|reflexivity].
    apply Qeq_bool_iff in E. unfold Qeq in E. simpl in E. lia.
Qed.

(** X4.  The financial-year filter and the financial-year label agree: for a
    date whose month is one of the twelve, [isInFinancialYear] accepts the
    date for a year exactly when [getFinancialYearEnd] labels the date with
    that year; a filter value that is not a number accepts no date. *)
Theorem financial_year_filter_agrees_with_label (date : JsDate) (fy : Z) :
  0 <= getMonth date <= 11 ->
  (isInFinancialYear date (Some (inject_Z fy)) = true
   <-> getFinancialYearEnd date = fy)
  /\ isInFinancialYear date None = false.
Proof.
  intros Hm. split; [|reflexivity].
  unfold isInFinancialYear, getFinancialYearEnd. cbv zeta.
  rewrite !inject_Z_eqb.
  destruct (Z.eqb_spec (getMonth date) 11) as [E|N].
  - rewrite E. cbn [Z.leb Z.compare Pos.compare Pos.compare_cont andb].
    destruct (Z.eqb_spec fy (getFullYear date)) as [->|N1].
    + split; [discriminate|lia].
    + destruct (Z.eqb_spec fy (getFullYear date + 1)); split; intros;
        try reflexivity; try discriminate; lia.
  - destruct (Z.eqb_spec fy (getFullYear date)) as [->|N1].
    + split; [reflexivity|]. intros _.
      apply andb_true_iff. split; apply Z.leb_le; lia.
    + destruct (Z.eqb_spec fy (getFullYear date + 1)); split; intros;
        try discriminate; try lia; congruence.
Qed.

Lemma fy_keys_fold (l : list Deal) (m : list (Z * FyTenderRow)) :
  map fst (fold_left fyStep l m) = fold_left fyYearStep l (map fst m).
Proof.
  revert m. induction l as [|d l IH]; intros m; [reflexivity|].
  cbn [fold_left]. rewrite IH. f_equal.
  unfold fyStep, fyYearStep.
  destruct (negb (truthyOpt (enquiry_date d))); [reflexivity|].
  destruct (newDate (orEmpty (enquiry_date d))); [|reflexivity].
  cbv zeta. apply keys_mapSet_Z.
Qed.

Lemma fyMapOk_years (m : list (Z * FyTenderRow)) :
  fyMapOk m -> map fyEndYear (map snd m) = map fst m.
Proof.
  unfold fyMapOk. induction 1 as [|[k r] m Hh Ht IH]; [reflexivity|].
  simpl in *. now rewrite Hh, IH.
Qed.

(** X5.  The years offered by the financial-year filter are exactly the
    years of the rows of the financial-year summary, in the same order. *)
Theorem financial_year_options_match_summary (deals : list Deal) :
  distinctFinancialYears deals = map fyEndYear (fyTenderSummary deals).
Proof.
  unfold distinctFinancialYears, fyTenderSummary, mapValues.
  rewrite (sortBy_map fyEndYear (fun a b => a - b <=? 0)).
  rewrite fyMapOk_years by (apply fy_fold_ok; constructor).
  now rewrite fy_keys_fold.
Qed.

Lemma fy_keys_nodup (l : list Deal) (m : list (Z * FyTenderRow)) :
  NoDup (map fst m) -> NoDup (map fst (fold_left fyStep l m)).
Proof.
  revert m. induction l as [|d l IH]; intros m ND; [exact ND|].
  simpl. apply IH. unfold fyStep.
  destruct (negb (truthyOpt (enquiry_date d))); [exact ND|].
  destruct (newDate (orEmpty (enquiry_date d))); [|exact ND].
  cbv zeta. now apply (NoDup_keys_mapSet Z.eqb Z.eqb_eq).
Qed.

Lemma fy_fold_tenders (l : list Deal) (m : list (Z * FyTenderRow)) :
  sumZ (map tenders (map snd (fold_left fyStep l m)))
  = sumZ (map tenders (map snd m))
    + Z.of_nat (List.length (filter hasEnquiryDate l)).
Proof.
  revert m. induction l as [|d l IH]; intros m; [simpl; lia|].
  cbn [fold_left filter]. rewrite IH. unfold fyStep, hasEnquiryDate.
  destruct (truthyOpt (enquiry_date d)); cbn [negb andb]; [|lia].
  destruct (newDate (orEmpty (enquiry_date d))) as [dt|]; [|lia].
  cbv zeta. rewrite sumZ_mapSet. cbn [tenders List.length].
  destruct (mapGet Z.eqb (getFinancialYearEnd dt) m); cbn [tenders]; lia.
Qed.

Lemma fy_fold_rows_ok (l : list Deal) (m : list (Z * FyTenderRow)) :
  Forall fyRowOk (map snd m) ->
  Forall fyRowOk (map snd (fold_left fyStep l m)).
Proof.
  revert m. induction l as [|d l IH]; intros m F; [exact F|].
  simpl. apply IH. unfold fyStep.
  destruct (negb (truthyOpt (enquiry_date d))); [exact F|].
  destruct (newDate (orEmpty (enquiry_date d))) as [dt|]; [|exact F].
  cbv zeta. apply Forall_mapSet; [|exact F].
  assert (R : fyRowOk
                match mapGet Z.eqb (getFinancialYearEnd dt) m with
                | Some r => r
                | None => mkFyRow (getFinancialYearEnd dt) 0 0 0 0%Q 0%Q
                end).
  { destruct (mapGet Z.eqb (getFinancialYearEnd dt) m) as [r|] eqn:G.
    - apply (mapGet_In Z.eqb Z.eqb_eq) in G. rewrite Forall_forall in F.
      apply F. change r with (snd (getFinancialYearEnd dt, r)).
      now apply in_map.
    - unfold fyRowOk. simpl. lia. }
  unfold fyRowOk in *. cbn [quotesSubmitted wonCount tenders].
  destruct (normaliseStage (stage d)) as [t|o]; cbn [isText]; [|lia].
  destruct (String.eqb_spec t "Quote Submitted") as [E1|N1];
    destruct (String.eqb_spec t "Won") as [E2|N2];
    try lia.
  rewrite E1 in E2. discriminate E2.
Qed.

(** X6.  The rows of the financial-year summary come in strictly ascending
    order of their year, one row per year; their tender counts add up to
    the number of deals whose enquiry date parses (no such deal is lost or
    counted twice); and in every row the quotes submitted and the wins are
    counted apart, together never more than the row's tenders. *)
Theorem financial_year_summary_rows (deals : list Deal) :
  StronglySorted Z.lt (map fyEndYear (fyTenderSummary deals))
  /\ sumZ (map tenders (fyTenderSummary deals))
     = Z.of_nat (List.length (filter hasEnquiryDate deals))
  /\ Forall fyRowOk (fyTenderSummary deals).
Proof.
  split; [|split].
  - unfold fyTenderSummary, mapValues.
    rewrite (sortBy_map fyEndYear (fun a b => a - b <=? 0)).
    apply sorted_nodup_strict; [apply sortBy_Zle|].
    apply (Permutation_NoDup (Permutation_sym (sortBy_perm _ _))).
    rewrite fyMapOk_years by (apply fy_fold_ok; constructor).
    apply fy_keys_nodup. constructor.
  - unfold fyTenderSummary, mapValues.
    transitivity (sumZ (map tenders (map snd (fold_left fyStep deals [])))).
    + assert (P : Permutation
                    (map tenders (sortBy (fun a b => fyEndYear a - fyEndYear b <=? 0)
                                    (map snd (fold_left fyStep deals []))))
                    (map tenders (map snd (fold_left fyStep deals []))))
        by (apply Permutation_map, sortBy_perm).
      revert P. generalize (map tenders (map snd (fold_left fyStep deals []))).
      generalize (map tenders
                    (sortBy (fun a b => fyEndYear a - fyEndYear b <=? 0)
                       (map snd (fold_left fyStep deals [])))).
      induction 1; simpl; lia.
    + rewrite fy_fold_tenders. simpl. lia.
  - unfold fyTenderSummary, mapValues.
    apply (Permutation_Forall (Permutation_sym (sortBy_perm _ _))).
    apply fy_fold_rows_ok. constructor.
Qed.

End FinancialYearMore.

(** ** Sums of numbers *)

Lemma sumQ_fold {A : Type} (f : A -> Q) (l : list A) (a : Q) :
  (fold_left (fun s d => s + f d) l a == a + Inv.sumQ (map f l))%Q.
Proof.
  revert a. induction l as [|x l IH]; intros a; simpl; [lra|].
  rewrite IH. lra.
Qed.

Lemma sumQ_le {A : Type} (f g : A -> Q) (l : list A) :
  (forall d, In d l -> (f d <= g d)%Q) ->
  (Inv.sumQ (map f l) <= Inv.sumQ (map g l))%Q.
Proof.
  induction l as [|x l IH]; intros Hp; simpl; [lra|].
  assert (f x <= g x)%Q by (apply Hp; now left).
  assert (Inv.sumQ (map f l) <= Inv.sumQ (map g l))%Q
    by (apply IH; intros d I; apply Hp; now right).
  lra.
Qed.

Lemma sumQ_filter {A : Type} (f : A -> Q) (p : A -> bool) (l : list A) :
  (Inv.sumQ (map f (filter p l))
   == Inv.sumQ (map (fun d => if p d then f d else 0) l))%Q.
Proof.
  induction l as [|x l IH]; simpl; [lra|].
  destruct (p x); simpl; rewrite IH; lra.
Qed.

Lemma sumQ_nonneg {A : Type} (f : A -> Q) (l : list A) :
  (forall d, In d l -> (0 <= f d)%Q) -> (0 <= Inv.sumQ (map f l))%Q.
Proof.
  induction l as [|x l IH]; intros Hp; simpl; [lra|].
  assert (0 <= f x)%Q by (apply Hp; now left).
  assert (0 <= Inv.sumQ (map f l))%Q
    by (apply IH; intros d I; apply Hp; now right).
  lra.
Qed.

Lemma numMax_l (a b : Q) : (a <= Dashboard.numMax a b)%Q.
Proof.
  unfold Dashboard.numMax. destruct (Qle_bool a b) eqn:E; [|lra].
  now apply Qle_bool_iff.
Qed.

Lemma numMax_r (a b : Q) : (b <= Dashboard.numMax a b)%Q.
Proof.
  unfold Dashboard.numMax. destruct (Qle_bool a b) eqn:E; [lra|].
  assert (~ (a <= b)%Q) by (rewrite <- Qle_bool_iff; congruence). lra.
Qed.

(** ** The dashboard's pipeline chart *)

Section PipelineScale.
Context `{Builtins}.
Import Dashboard.

Lemma pipeline_max_fold (bs : list PipelineBucket) (a : Q) :
  let step := fun mx b =>
                numMax (numMax (numMax mx (wonValue b)) (probAValue b))
                  (probBValue b) in
  (a <= fold_left step bs a)%Q
  /\ forall b, In b bs ->
               (wonValue b <= fold_left step bs a)%Q
               /\ (probAValue b <= fold_left step bs a)%Q
               /\ (probBValue b <= fold_left step bs a)%Q.
Proof.
  cbv zeta. revert a. induction bs as [|x bs IH]; intros a.
  - simpl. split; [lra|]. intros b [].
  - cbn [fold_left].
    set (a' := numMax (numMax (numMax a (wonValue x)) (probAValue x))
                 (probBValue x)).
    destruct (IH a') as [Ha Hb].
    pose proof (numMax_l a (wonValue x)).
    pose proof (numMax_r a (wonValue x)).
    pose proof (numMax_l (numMax a (wonValue x)) (probAValue x)).
    pose proof (numMax_r (numMax a (wonValue x)) (probAValue x)).
    pose proof (numMax_l (numMax (numMax a (wonValue x)) (probAValue x))
                  (probBValue x)).
    pose proof (numMax_r (numMax (numMax a (wonValue x)) (probAValue x))
                  (probBValue x)).
    fold a' in H4, H5.
    split; [lra|]. intros b [<-|I]; [|now apply Hb].
    repeat split; lra.
Qed.

(** X7.  The scale of the pipeline chart covers every bar: the maximum the
    chart divides by is never negative and is at least the Won, the
    probability A and the probability B value of every month bucket, so no
    bar is drawn above full height. *)
Theorem pipeline_scale_covers_every_bar (collapsedDeals : list Deal) :
  (0 <= maxPipelineValue collapsedDeals)%Q
  /\ forall b, In b (pipelineBuckets collapsedDeals) ->
               (wonValue b <= maxPipelineValue collapsedDeals)%Q
               /\ (probAValue b <= maxPipelineValue collapsedDeals)%Q
               /\ (probBValue b <= maxPipelineValue collapsedDeals)%Q.
Proof.
  unfold maxPipelineValue.
  exact (pipeline_max_fold (pipelineBuckets collapsedDeals) 0%Q).
Qed.

End PipelineScale.

(** ** The forecast page's headline figures *)

Section Headline.
Context `{Builtins}.
Import Dashboard Spec Inv.

Lemma weight_of_won (d : Deal) : isWon d = true -> weight d = 1%Q.
Proof.
  unfold isWon, weight. intros E. now rewrite E.
Qed.

Lemma value_weighted_between (d : Deal) :
  (0 <= valueOf d)%Q ->
  ((if isWon d then valueOf d else 0) <= valueOf d * weight d)%Q
  /\ (valueOf d * weight d <= valueOf d)%Q.
Proof.
  intros Hv. destruct (isWon d) eqn:W.
  - rewrite (weight_of_won d W). lra.
  - destruct (weight_values d) as [E|[E|[E|[E|[E|E]]]]]; rewrite E; lra.
Qed.

(** With weights that are numbers the expected figure is a number. *)
Lemma expectedTender_own (l : list Deal) (a : Q) :
  (forall d, In d l ->
             forall p, probability d = Some p -> protoMember p = None) ->
  fold_left
    (fun sum d =>
       nanPlus sum
         (numTimes (Forecast.toNumber (tender_value d))
            (Forecast.getDealWeight d)))
    l (Some a)
  = Some (fold_left (fun s d => s + valueOf d * weight d)%Q l a).
Proof.
  revert a. induction l as [|d l IH]; intros a Ho; [reflexivity|].
  cbn [fold_left].
  change (Forecast.getDealWeight d) with (getDealWeight d).
  rewrite (getDealWeight_own d) by (apply Ho; now left).
  cbn [numTimes toNum option_map nanPlus].
  apply IH. intros x I. apply Ho. now right.
Qed.

(** X8.  When no tender value is negative and no probability names an
    inherited member, the headline figures of the forecast page are
    ordered: the expected figure is a number and 0 <= won <= expected <=
    total.  The win rate is shown only for a positive total and then lies
    between 0 and 1; it is absent exactly when the total is zero. *)
Theorem headline_figures_are_ordered (filteredDeals : list Deal) :
  (forall d, In d filteredDeals -> (0 <= valueOf d)%Q) ->
  (forall d, In d filteredDeals ->
             forall p, probability d = Some p -> protoMember p = None) ->
  (0 <= ForecastMore.wonTender filteredDeals)%Q
  /\ (exists e,
         ForecastMore.expectedTender filteredDeals = Some e
         /\ (ForecastMore.wonTender filteredDeals <= e)%Q
         /\ (e <= ForecastMore.totalTender filteredDeals)%Q)
  /\ match ForecastMore.winRate filteredDeals with
     | Some r => (0 < ForecastMore.totalTender filteredDeals)%Q
                 /\ (0 <= r <= 1)%Q
     | None => (ForecastMore.totalTender filteredDeals == 0)%Q
     end.
Proof.
  intros Hv Ho.
  assert (Et : (ForecastMore.totalTender filteredDeals
                == sumQ (map valueOf filteredDeals))%Q).
  { unfold ForecastMore.totalTender.
    rewrite (sumQ_fold (fun d => Forecast.toNumber (tender_value d))).
    change (fun d => Forecast.toNumber (tender_value d)) with valueOf. lra. }
  assert (Ew : (ForecastMore.wonTender filteredDeals
                == sumQ (map (fun d => if isWon d then valueOf d else 0)
                           filteredDeals))%Q).
  { unfold ForecastMore.wonTender.
    rewrite (sumQ_fold (fun d => Forecast.toNumber (tender_value d))).
    change (fun d => Forecast.toNumber (tender_value d)) with valueOf.
    change (fun d => (toLowerCase (orEmpty (stage d)) =? "won")%string)
      with isWon.
    rewrite (sumQ_filter valueOf isWon). lra. }
  assert (Ee : (fold_left (fun s d => s + valueOf d * weight d)%Q
                  filteredDeals 0
                == sumQ (map (fun d => valueOf d * weight d) filteredDeals))%Q).
  { rewrite (sumQ_fold (fun d => valueOf d * weight d)%Q). lra. }
  assert (H0 : (0 <= sumQ (map (fun d => if isWon d then valueOf d else 0)
                             filteredDeals))%Q).
  { apply sumQ_nonneg. intros d I. specialize (Hv d I).
    destruct (isWon d); lra. }
  assert (H1 : (sumQ (map (fun d => if isWon d then valueOf d else 0)
                        filteredDeals)
                <= sumQ (map (fun d => valueOf d * weight d)
                           filteredDeals))%Q).
  { apply sumQ_le. intros d I. now apply value_weighted_between, Hv. }
  assert (H2 : (sumQ (map (fun d => valueOf d * weight d) filteredDeals)
                <= sumQ (map valueOf filteredDeals))%Q).
  { apply sumQ_le. intros d I. now apply value_weighted_between, Hv. }
  split; [lra|]. split.
  { exists (fold_left (fun s d => s + valueOf d * weight d)%Q
              filteredDeals 0%Q).
    split; [apply (expectedTender_own filteredDeals 0%Q Ho)|].
    split; lra. }
  unfold ForecastMore.winRate.
  destruct (numGt (ForecastMore.totalTender filteredDeals) 0) eqn:G.
  - apply numGt_true in G. split; [exact G|]. split.
    + apply Qle_shift_div_l; [exact G|lra].
    + apply Qle_shift_div_r; [exact G|lra].
  - apply numGt_false in G. lra.
Qed.

End Headline.

(** ** The forecast month range *)

Section MonthRange.
Context `{Builtins}.
Import Forecast.

Lemma monthIndex_of_empty (s : string) :
  truthy s = false -> monthIndexFromYyyyMm s = None.
Proof.
  unfold monthIndexFromYyyyMm. intros ->. reflexivity.
Qed.

(** X9.  A start date is inside the forecast month range exactly when its
    month index (year * 12 + month) is not below the index of the from-month
    and not above the index of the to-month; a bound that is empty or does
    not read as year-month restricts nothing. *)
Theorem month_range_is_an_interval (dt : JsDate) (fromMonth toMonth : string) :
  let idx := inject_Z (getFullYear dt * 12 + getMonth dt) in
  isDateInMonthRange dt fromMonth toMonth = true
  <-> (forall f, monthIndexFromYyyyMm fromMonth = Some f -> (f <= idx)%Q)
      /\ (forall t, monthIndexFromYyyyMm toMonth = Some t -> (idx <= t)%Q).
Proof.
  cbv zeta. unfold isDateInMonthRange. cbv zeta.
  destruct (truthy fromMonth) eqn:Tf; destruct (truthy toMonth) eqn:Tt;
    cbn [negb andb];
    try rewrite (monthIndex_of_empty fromMonth Tf);
    try rewrite (monthIndex_of_empty toMonth Tt).
  - destruct (monthIndexFromYyyyMm fromMonth) as [f|];
      destruct (monthIndexFromYyyyMm toMonth) as [t|].
    + destruct (numLt _ f) eqn:L.
      * split; [discriminate|]. intros [Hf _]. specialize (Hf f eq_refl).
        unfold numLt in L. apply negb_true_iff in L.
        apply Qle_bool_iff in Hf. congruence.
      * unfold numLt in L. apply negb_false_iff, Qle_bool_iff in L.
        destruct (numGt _ t) eqn:G.
        -- apply numGt_true in G. split; [discriminate|]. intros [_ Ht].
           specialize (Ht t eq_refl). lra.
        -- apply numGt_false in G. split; [|reflexivity]. intros _.
           split; intros x [= <-]; assumption.
    + destruct (numLt _ f) eqn:L.
      * split; [discriminate|]. intros [Hf _]. specialize (Hf f eq_refl).
        unfold numLt in L. apply negb_true_iff in L.
        apply Qle_bool_iff in Hf. congruence.
      * unfold numLt in L. apply negb_false_iff, Qle_bool_iff in L.
        split; [|reflexivity]. intros _.
        split; [intros x [= <-]; assumption|discriminate].
    + destruct (numGt _ t) eqn:G.
      * apply numGt_true in G. split; [discriminate|]. intros [_ Ht].
        specialize (Ht t eq_refl). lra.
      * apply numGt_false in G. split; [|reflexivity]. intros _.
        split; [discriminate|intros x [= <-]; assumption].
    + split; [|reflexivity]. intros _. split; discriminate.
  - destruct (monthIndexFromYyyyMm fromMonth) as [f|].
    + destruct (numLt _ f) eqn:L.
      * split; [discriminate|]. intros [Hf _]. specialize (Hf f eq_refl).
        unfold numLt in L. apply negb_true_iff in L.
        apply Qle_bool_iff in Hf. congruence.
      * unfold numLt in L. apply negb_false_iff, Qle_bool_iff in L.
        split; [|reflexivity]. intros _.
        split; [intros x [= <-]; assumption|discriminate].
    + split; [|reflexivity]. intros _. split; discriminate.
  - destruct (monthIndexFromYyyyMm toMonth) as [t|].
    + destruct (numGt _ t) eqn:G.
      * apply numGt_true in G. split; [discriminate|]. intros [_ Ht].
        specialize (Ht t eq_refl). lra.
      * apply numGt_false in G. split; [|reflexivity]. intros _.
        split; [discriminate|intros x [= <-]; assumption].
    + split; [|reflexivity]. intros _. split; discriminate.
  - split; [|reflexivity]. intros _. split; discriminate.
Qed.

End MonthRange.

(** ** Loops that keep one aggregate per key *)

Section GroupedFacts.
Context {D V : Type} (key : D -> option string) (fresh : string -> V)
  (add : string -> V -> D -> V).

Lemma group_fold_keys_nodup (l : list D) (m : list (string * V)) :
  NoDup (map fst m) ->
  NoDup (map fst (fold_left (Inv.groupStep key fresh add) l m)).
Proof.
  revert m. induction l as [|d l IH]; intros m ND; [exact ND|].
  cbn [fold_left]. apply IH. unfold Inv.groupStep.
  destruct (key d) as [k|]; [|exact ND].
  now apply (NoDup_keys_mapSet String.eqb String.eqb_eq).
Qed.

(** What the loop leaves under a key is the fold of the update over the
    deals of that key, in the order of the input. *)
Lemma group_fold_get (k : string) (l : list D) (m : list (string * V)) :
  mapGet String.eqb k (fold_left (Inv.groupStep key fresh add) l m)
  = match Inv.groupAt key k l with
    | [] => mapGet String.eqb k m
    | g => Some (fold_left (add k) g
                   match mapGet String.eqb k m with
                   | Some v => v
                   | None => fresh k
                   end)
    end.
Proof.
  revert m. induction l as [|d l IH]; intros m; [reflexivity|].
  cbn [fold_left]. rewrite IH. unfold Inv.groupAt. cbn [filter].
  fold (Inv.groupAt key k l). unfold Inv.groupStep.
  destruct (key d) as [k'|]; [|reflexivity].
  destruct (String.eqb_spec k' k) as [->|N].
  - rewrite (mapGet_mapSet_same String.eqb String.eqb_eq).
    destruct (Inv.groupAt key k l); reflexivity.
  - rewrite (mapGet_mapSet_other String.eqb String.eqb_eq) by congruence.
    reflexivity.
Qed.

Lemma group_fold_rows (l : list D) (k : string) (v : V) :
  In (k, v) (fold_left (Inv.groupStep key fresh add) l [])
  <-> Inv.groupAt key k l <> []
      /\ v = fold_left (add k) (Inv.groupAt key k l) (fresh k).
Proof.
  pose proof (group_fold_keys_nodup l [] (NoDup_nil _)) as ND.
  pose proof (group_fold_get k l []) as G. cbn [mapGet] in G.
  split.
  - intros I. apply (In_mapGet String.eqb String.eqb_eq _ _ _ ND) in I.
    rewrite I in G. destruct (Inv.groupAt key k l) as [|x g];
      [discriminate|]. split; [discriminate|congruence].
  - intros [N ->]. apply (mapGet_In String.eqb String.eqb_eq).
    rewrite G. destruct (Inv.groupAt key k l) as [|x g];
      [contradiction|reflexivity].
Qed.

Lemma group_fold_member (l : list D) (d : D) (k : string) :
  In d l -> key d = Some k ->
  exists v, In (k, v) (fold_left (Inv.groupStep key fresh add) l []).
Proof.
  intros I K. exists (fold_left (add k) (Inv.groupAt key k l) (fresh k)).
  apply group_fold_rows. split; [|reflexivity].
  assert (Ig : In d (Inv.groupAt key k l)).
  { unfold Inv.groupAt. apply filter_In. split; [exact I|].
    rewrite K. apply String.eqb_refl. }
  intros E. rewrite E in Ig. contradiction.
Qed.

End GroupedFacts.

(** ** The forecast buckets, month by month *)

Section ForecastSums.
Context `{Builtins}.
Import Dashboard Inv.
Variables (fromMonth toMonth : string) (excludeStartedWon : bool) (today : Z).

(** [forecastStep] is the grouped loop on the month key of the deals it
    takes. *)
Lemma forecastStep_grouped (m : list (string * Forecast.ForecastAgg))
  (d : Deal) :
  Forecast.forecastStep fromMonth toMonth excludeStartedWon today m d
  = groupStep (forecastKey fromMonth toMonth excludeStartedWon today)
      forecastFresh forecastAdd m d.
Proof.
  unfold groupStep, forecastKey, forecastIncludes, Forecast.forecastStep,
    startMonthKey, lowerStage.
  destruct (truthyOpt (estimated_start_date d)); cbn [negb andb];
    [|reflexivity].
  destruct (newDate (orEmpty (estimated_start_date d))) as [dt|];
    [|reflexivity].
  destruct (Forecast.isDateInMonthRange dt fromMonth toMonth);
    cbn [negb andb]; [|reflexivity].
  destruct ((_ =? "lost")%string || _); cbn [negb andb]; [reflexivity|].
  destruct ((_ =? "won")%string && excludeStartedWon && (getTime dt <? today));
    reflexivity.
Qed.

Lemma forecast_fold_grouped (l : list Deal)
  (m : list (string * Forecast.ForecastAgg)) :
  fold_left (Forecast.forecastStep fromMonth toMonth excludeStartedWon today)
    l m
  = fold_left
      (groupStep (forecastKey fromMonth toMonth excludeStartedWon today)
         forecastFresh forecastAdd) l m.
Proof.
  revert m. induction l as [|d l IH]; intros m; [reflexivity|].
  cbn [fold_left]. now rewrite forecastStep_grouped, IH.
Qed.

Lemma forecast_group (k : string) (l : list Deal) :
  groupAt (forecastKey fromMonth toMonth excludeStartedWon today) k l
  = filter
      (fun d => forecastIncludes fromMonth toMonth excludeStartedWon today d
                && (startMonthKey d =? k)%string) l.
Proof.
  unfold groupAt, forecastKey. apply filter_ext. intros d.
  destruct (forecastIncludes fromMonth toMonth excludeStartedWon today d);
    reflexivity.
Qed.

Lemma forecastAdd_fold (k : string) (g : list Deal)
  (v : Forecast.ForecastAgg) :
  Forecast.total (fold_left (forecastAdd k) g v)
  = fold_left (fun s d => (s + valueOf d)%Q) g (Forecast.total v)
  /\ Forecast.expected (fold_left (forecastAdd k) g v)
     = fold_left
         (fun s d =>
            nanPlus s (numTimes (valueOf d) (Forecast.getDealWeight d)))
         g (Forecast.expected v)
  /\ Forecast.won (fold_left (forecastAdd k) g v)
     = fold_left (fun s d => if isWon d then (s + valueOf d)%Q else s) g
         (Forecast.won v)
  /\ (Forecast.target v = Forecast.monthlyTarget k ->
      Forecast.target (fold_left (forecastAdd k) g v)
      = Forecast.monthlyTarget k).
Proof.
  revert v. induction g as [|d g IH]; intros v; [now repeat split|].
  cbn [fold_left]. destruct (IH (forecastAdd k v d)) as (T & E & W & G).
  rewrite T, E, W. repeat split. intros _. apply G. reflexivity.
Qed.

(** X10.  The forecast keeps one bucket per month, and a bucket holds
    exactly the collapsed deals the loop takes for that month (estimated
    start parses and lies in the range, stage neither Lost nor No Tender,
    no Won deal already started when those are excluded): every such deal
    is in the bucket of its month, no bucket is empty, and the total, the
    expected and the won figure of a bucket are the running sums over its
    deals in the order of the list, its target the target of the month. *)
Theorem forecast_buckets_by_month (collapsed : list Deal) :
  let buckets := Forecast.forecastOfCollapsed fromMonth toMonth
                   excludeStartedWon today collapsed in
  NoDup (map fst buckets)
  /\ (forall d,
         In d collapsed ->
         forecastIncludes fromMonth toMonth excludeStartedWon today d = true ->
         exists agg, In (startMonthKey d, agg) buckets)
  /\ (forall k agg,
         In (k, agg) buckets ->
         let g :=
           filter
             (fun d =>
                forecastIncludes fromMonth toMonth excludeStartedWon today d
                && (startMonthKey d =? k)%string) collapsed in
         g <> []
         /\ Forecast.total agg = runningTotal g
         /\ Forecast.expected agg = runningExpected g
         /\ Forecast.won agg = runningWon g
         /\ Forecast.target agg = Forecast.monthlyTarget k).
Proof.
  cbv zeta. unfold Forecast.forecastOfCollapsed.
  rewrite forecast_fold_grouped.
  set (m := fold_left
              (groupStep
                 (forecastKey fromMonth toMonth excludeStartedWon today)
                 forecastFresh forecastAdd) collapsed []).
  pose proof (sortBy_perm (fun a b => (fst a <=? fst b)%string) m) as P.
  split; [|split].
  - apply (Permutation_NoDup
             (Permutation_map fst (Permutation_sym P))).
    apply group_fold_keys_nodup. constructor.
  - intros d I T.
    destruct (group_fold_member
                (forecastKey fromMonth toMonth excludeStartedWon today)
                forecastFresh forecastAdd collapsed d (startMonthKey d) I)
      as [agg Ia].
    { unfold forecastKey. now rewrite T. }
    exists agg. apply In_sortBy. exact Ia.
  - intros k agg I. apply In_sortBy in I. apply group_fold_rows in I.
    rewrite forecast_group in I. destruct I as [N ->].
    destruct (forecastAdd_fold k
                (filter
                   (fun d =>
                      forecastIncludes fromMonth toMonth excludeStartedWon
                        today d
                      && (startMonthKey d =? k)%string) collapsed)
                (forecastFresh k)) as (T & E & W & G).
    split; [exact N|]. split; [exact T|]. split; [exact E|].
    split; [exact W|]. apply G. reflexivity.
Qed.

End ForecastSums.

(** ** Year-over-year enquiry counts *)

Lemma countAt_mapSet (k i v : Z) (m : list (Z * Z)) :
  ForecastMore.countAt (mapSet Z.eqb k v m) i
  = if i =? k then v else ForecastMore.countAt m i.
Proof.
  unfold ForecastMore.countAt.
  destruct (Z.eqb_spec i k) as [->|N].
  - now rewrite (mapGet_mapSet_same Z.eqb Z.eqb_eq).
  - now rewrite (mapGet_mapSet_other Z.eqb Z.eqb_eq) by exact N.
Qed.

Section YearOverYear.
Context `{Builtins}.
Import Dashboard Inv ForecastMore.

(** The twelve counts read off a month map. *)
Lemma yoy_current_counts (cm pm : list (Z * Z)) :
  map currentYearCount (yoyRows cm pm)
  = map (fun i => countAt cm (Z.of_nat i)) (seq 0 12)
  /\ map previousYearCount (yoyRows cm pm)
     = map (fun i => countAt pm (Z.of_nat i)) (seq 0 12).
Proof.
  unfold yoyRows. rewrite !map_map. split; reflexivity.
Qed.

Lemma twelve_counts_after_set (k : Z) (m : list (Z * Z)) :
  0 <= k <= 11 ->
  sumZ (map (fun i => countAt (mapSet Z.eqb k (countAt m k + 1) m) (Z.of_nat i))
          (seq 0 12))
  = sumZ (map (fun i => countAt m (Z.of_nat i)) (seq 0 12)) + 1.
Proof.
  intros Hk. cbn [seq map sumZ fold_right Z.of_nat Pos.of_succ_nat Pos.succ].
  rewrite !countAt_mapSet.
  assert (C : k = 0 \/ k = 1 \/ k = 2 \/ k = 3 \/ k = 4 \/ k = 5 \/ k = 6
              \/ k = 7 \/ k = 8 \/ k = 9 \/ k = 10 \/ k = 11) by lia.
  destruct C as [->|[->|[->|[->|[->|[->|[->|[->|[->|[->|[->| ->]]]]]]]]]]];
    cbn [Z.eqb Pos.eqb]; lia.
Qed.

Lemma year_counts_fold (y : Z) (l : list Deal) (m : list (Z * Z)) :
  monthsInRange l ->
  sumZ (map (fun i => countAt (fold_left (yearMonthStep y) l m) (Z.of_nat i))
          (seq 0 12))
  = sumZ (map (fun i => countAt m (Z.of_nat i)) (seq 0 12))
    + Z.of_nat (List.length (filter (enquiredIn y) l)).
Proof.
  revert m. induction l as [|d l IH]; intros m R; [simpl; lia|].
  assert (R' : monthsInRange l).
  { intros x dt I. apply R. now right. }
  cbn [fold_left filter]. rewrite (IH _ R').
  unfold yearMonthStep, enquiredIn.
  destruct (truthyOpt (enquiry_date d)); cbn [negb andb]; [|lia].
  destruct (newDate (orEmpty (enquiry_date d))) as [dt|] eqn:P; [|lia].
  destruct (getFullYear dt =? y); cbn [negb]; [|lia].
  cbv zeta. rewrite twelve_counts_after_set.
  - cbn [List.length]. lia.
  - apply (R d dt); [now left|exact P].
Qed.

(** X11.  The year-over-year table has twelve rows, and when the month of
    every parsed enquiry date is one of the twelve, the counts of each of
    its two columns add up to the number of deals enquired in that year: no
    enquiry of the year is left out or counted twice.  The relative change
    is absent exactly when the previous year has no enquiry. *)
Theorem year_over_year_counts_every_enquiry (deals : list Deal)
  (yc yp : Z) (y : YoYData) :
  monthsInRange deals ->
  yoyData deals (Some yc) (Some yp) = Some y ->
  List.length (rows y) = 12%nat
  /\ sumZ (map currentYearCount (rows y))
     = Z.of_nat (List.length (filter (enquiredIn yc) deals))
  /\ sumZ (map previousYearCount (rows y))
     = Z.of_nat (List.length (filter (enquiredIn yp) deals))
  /\ (delta y = None <-> filter (enquiredIn yp) deals = []).
Proof.
  intros R E. unfold yoyData in E. destruct deals as [|d0 l0]; [discriminate|].
  set (deals := d0 :: l0) in *. cbv zeta in E. injection E as <-.
  cbn [rows delta].
  destruct (yoy_current_counts (buildYearMonthCounts deals yc)
              (buildYearMonthCounts deals yp)) as [Ec Ep].
  assert (Sc : sumZ (map currentYearCount
                       (yoyRows (buildYearMonthCounts deals yc)
                          (buildYearMonthCounts deals yp)))
               = Z.of_nat (List.length (filter (enquiredIn yc) deals))).
  { rewrite Ec. unfold buildYearMonthCounts.
    rewrite (year_counts_fold yc deals [] R). reflexivity. }
  assert (Sp : sumZ (map previousYearCount
                       (yoyRows (buildYearMonthCounts deals yc)
                          (buildYearMonthCounts deals yp)))
               = Z.of_nat (List.length (filter (enquiredIn yp) deals))).
  { rewrite Ep. unfold buildYearMonthCounts.
    rewrite (year_counts_fold yp deals [] R). reflexivity. }
  split; [reflexivity|]. split; [exact Sc|]. split; [exact Sp|].
  remember (filter (enquiredIn yp) deals) as fl eqn:Ffl.
  rewrite Ep in Sp.
  cbn [seq map sumZ fold_right Z.of_nat Pos.of_succ_nat Pos.succ] in Sp.
  match goal with
  | |- context [numGt (inject_Z ?t / 12) 0] =>
      replace t with (Z.of_nat (List.length fl)) by lia
  end.
  destruct fl as [|x fl'].
  - replace (numGt (inject_Z (Z.of_nat (List.length (@nil Deal))) / 12) 0)
      with false by reflexivity.
    split; reflexivity.
  - assert (G : numGt (inject_Z (Z.of_nat (List.length (x :: fl'))) / 12) 0
                = true).
    { apply numGt_true. apply Qlt_shift_div_l; [reflexivity|].
      unfold Qlt. cbn [List.length]. simpl. lia. }
    rewrite G. split; discriminate.
Qed.

End YearOverYear.


(** ** The deal detail page: field updates *)

Lemma optNe_false (a b : option string) :
  DealDetail.optNe a b = false <-> a = b.
Proof.
  destruct a as [x|], b as [y|]; simpl; try (split; congruence).
  rewrite negb_false_iff, String.eqb_eq. split; congruence.
Qed.

Lemma setField_same (f : DealDetail.Field) (v : option string)
  (l : DealDetail.Deal) :
  DealDetail.setField f (DealDetail.getField f l) (DealDetail.setField f v l) = l.
Proof. destruct l, f; reflexivity. Qed.

Section FieldUpdates.
Context `{Builtins}.
Import DealDetail DealDetailMore Spec Inv.
Variable env : Env.

(** X12.  An update the store refuses is rolled back: the store and the
    audit trail are as before, the deal shown is again the one the handler
    started from, the error names the field, and the saving marker is
    cleared. *)
Theorem refused_update_is_rolled_back (l : Deal) (f : Field)
  (v : option string) (w : World) :
  lead (page w) = Some l ->
  updateOk env f = false ->
  let w' := updateLeadField env (Some l) f v w in
  store w' = store w
  /\ actions (page w') = actions (page w)
  /\ lead (page w') = lead (page w)
  /\ error (page w') = Some ("Could not update " ++ fieldName f ++ ".")
  /\ savingField (page w') = None.
Proof.
  intros Hl Hok. cbv zeta.
  unfold updateLeadField, updateLeadFieldEnd, updateLeadFieldBegin.
  rewrite Hok. cbn. rewrite setField_same, Hl. repeat split.
Qed.

(** X13.  [updateLeadField] writes an audit entry only for a stage that
    really changes: an update of another field, of the stage to the value
    it already has, or one the store refuses, leaves the timeline and the
    audit table alone; an accepted change of stage adds exactly one entry,
    "Stage changed", naming the old stage ("none" when there was none) and
    the new one, above the timeline and below the table. *)
Theorem audit_entry_only_for_a_stage_change (l : Deal) (f : Field)
  (v : option string) (w : World) :
  let w' := updateLeadField env (Some l) f v w in
  (f <> FStage \/ stage l = v \/ updateOk env f = false
   \/ insertOk env (Some "Stage changed") = false ->
   actions (page w') = actions (page w)
   /\ deal_actions (store w') = deal_actions (store w))
  /\ (f = FStage -> stage l <> v -> updateOk env FStage = true ->
      insertOk env (Some "Stage changed") = true ->
      let entry :=
        mkAction (id l) (Some "Stage changed")
          (Some ("Stage changed from " ++ orNone (stage l) ++ " to "
                 ++ showOpt v))
          None in
      actions (page w') = entry :: actions (page w)
      /\ deal_actions (store w') = (deal_actions (store w) ++ [entry])%list).
Proof.
  cbv zeta. unfold updateLeadField, updateLeadFieldEnd, updateLeadFieldBegin.
  split.
  - intros Hc. destruct (updateOk env f) eqn:Hok; [|split; reflexivity].
    destruct f; try (split; reflexivity).
    cbn [getField]. destruct (optNe (stage l) v) eqn:Hne;
      [|split; reflexivity].
    destruct (insertOk env (Some "Stage changed")) eqn:Hi;
      [|split; reflexivity].
    exfalso. destruct Hc as [Hc|[Hc|[Hc|Hc]]]; try congruence.
    apply optNe_false in Hc. congruence.
  - intros -> Hne Hok Hi. rewrite Hok. cbn [getField].
    destruct (optNe (stage l) v) eqn:Ho;
      [|apply optNe_false in Ho; contradiction].
    rewrite Hi. split; reflexivity.
Qed.

(** X14.  A move to Won, Lost or No Tender that the stage bar lets through
    clears the probability together with the stage in the stored rows of
    the deal, once the store accepts both updates; the deal shown on the
    page gets the new stage and keeps its probability until it is loaded
    again. *)
Theorem terminal_move_clears_stored_probability (target : StageName)
  (w : World) (l : Deal) :
  lead (page w) = Some l ->
  target = Won \/ target = Lost \/ target = NoTender ->
  allowed (currentStage (Some l)) target l = true ->
  confirmOk env = true ->
  updateOk env FProbability = true ->
  updateOk env FStage = true ->
  let w' := handleStageClick env target w in
  map (fun r => (id r, stage r, probability r)) (deals (store w'))
  = map (fun r => if (id r =? id l)%string
                  then (id r, Some (stageLabel target), None)
                  else (id r, stage r, probability r))
      (deals (store w))
  /\ lead (page w') = Some (setField FStage (Some (stageLabel target)) l).
Proof.
  intros Hl Ht Ha Hcf Hp Hs. cbv zeta.
  assert (Hu : target = Won \/ target = Lost
               \/ (target = NoTender /\ confirmOk env = true)) by tauto.
  rewrite (handleStageClick_ungated env target w l Hl Ha Hu). split.
  - rewrite deals_updateLeadFieldEnd, Hs, deals_updateLeadFieldEnd, Hp.
    cbn [updateLeadFieldBegin onPage store]. rewrite !map_map.
    apply map_ext. intros r. destruct (id r =? id l)%string eqn:E.
    + cbn [setField id]. rewrite E. reflexivity.
    + rewrite E. reflexivity.
  - unfold updateLeadFieldEnd, updateLeadFieldBegin. rewrite Hp, Hs.
    cbn [getField]. destruct (optNe (stage l) (Some (stageLabel target)));
      [|reflexivity].
    destruct (insertOk env (Some "Stage changed")); reflexivity.
Qed.

End FieldUpdates.

(** ** The deal detail page: gates *)

Lemma lookup_mapGet {A : Type} (k : string) (g : list (string * A)) :
  lookup k g = mapGet String.eqb k g.
Proof.
  induction g as [|[k' v] g IH]; simpl; [reflexivity|]. now rewrite IH.
Qed.

Lemma month_round_trip (s : string) :
  String.length s = 7%nat ->
  truthy s = true /\ String.substring 0 7 (s ++ "-01") = s.
Proof.
  destruct s as [|c1 [|c2 [|c3 [|c4 [|c5 [|c6 [|c7 [|c8 s]]]]]]]];
    simpl; intros E; try discriminate E. split; reflexivity.
Qed.

Section Gates.
Context `{Builtins}.
Import DealDetail DealDetailMore Spec Inv.
Variable env : Env.

Lemma qualified_complete_basics (g : list (string * string)) :
  areAllQualifiedGateQuestionsComplete g = true ->
  truthy (ansOf g "est_start_month") = true
  /\ truthy (ansOf g "qualified_tender_return_date") = true.
Proof.
  unfold areAllQualifiedGateQuestionsComplete. cbv zeta.
  destruct (truthy (ansOf g "scope_works")); cbn [negb]; [|discriminate].
  destruct (truthy (ansOf g "est_start_month")); cbn [negb]; [|discriminate].
  destruct (truthy (ansOf g "qualified_tender_return_date")); cbn [negb];
    [|discriminate].
  intros _. split; reflexivity.
Qed.

(** X15.  Confirming the Qualified gate with complete answers writes, once
    the store accepts the updates, the tender return date of the form, the
    first day of the estimated start month and the stage Qualified to the
    deal's rows, leaves every other row alone, and closes the gate. *)
Theorem qualified_gate_writes_dates_and_stage (w : World) (l : Deal) :
  lead (page w) = Some l ->
  pendingStage (page w) = Some "Qualified" ->
  areAllQualifiedGateQuestionsComplete (gateAnswers (page w)) = true ->
  (forall f, updateOk env f = true) ->
  let g := gateAnswers (page w) in
  let w' := handleConfirmStageChangeToQualified env w in
  map (fun r => (id r, tender_return_date r, estimated_start_date r, stage r))
    (deals (store w'))
  = map (fun r => if (id r =? id l)%string
                  then (id r, Some (ansOf g "qualified_tender_return_date"),
                        Some (ansOf g "est_start_month" ++ "-01"),
                        Some "Qualified")
                  else (id r, tender_return_date r, estimated_start_date r,
                        stage r))
      (deals (store w))
  /\ gateModalOpen (page w') = false
  /\ pendingStage (page w') = None
  /\ gateAnswers (page w') = [].
Proof.
  intros Hl Hp Hc Hok. cbv zeta.
  destruct (qualified_complete_basics _ Hc) as [Tm Td].
  unfold handleConfirmStageChangeToQualified.
  rewrite Hp, Hl, Hc. cbn [optNe String.eqb Ascii.eqb Bool.eqb negb].
  unfold orNull. rewrite Tm, Td. cbn [isNull negb orEmpty].
  split; [|repeat split].
  cbn [onPage store]. rewrite deals_updateLeadField, Hok, deals_logAction.
  rewrite deals_updateLeadField, Hok, deals_updateLeadField, Hok.
  rewrite !map_map. apply map_ext. intros r.
  destruct (id r =? id l)%string eqn:E.
  - cbn [setField id]. rewrite E. cbn [setField id]. rewrite E. reflexivity.
  - rewrite E, E. reflexivity.
Qed.

(** X16.  Pressing "Confirm & move" changes the store only through a gate
    whose questions are all answered: when no stage is pending, when the
    pending stage has no gate, when no deal is loaded, or when an answer of
    the pending gate is missing or blank, the store is left as it was. *)
Theorem unanswered_gate_never_writes (w : World) :
  store (confirmGate env w) <> store w ->
  exists target l,
    pendingStage (page w) = Some (stageLabel target)
    /\ lead (page w) = Some l
    /\ gateComplete target (gateAnswers (page w)) = true.
Proof.
  unfold confirmGate. intros Hs.
  destruct (pendingStage (page w)) as [s|] eqn:Hp; [|contradiction].
  destruct (String.eqb_spec s "Qualified") as [->|N1].
  { unfold handleConfirmStageChangeToQualified in Hs. rewrite Hp in Hs.
    cbn [optNe String.eqb Ascii.eqb Bool.eqb negb] in Hs.
    destruct (areAllQualifiedGateQuestionsComplete (gateAnswers (page w)))
      eqn:Hc; cbn [negb] in Hs; [|contradiction].
    destruct (lead (page w)) as [l|]; [|contradiction].
    exists Qualified, l. repeat split. exact Hc. }
  destruct (String.eqb_spec s "In Review") as [->|N2].
  { unfold handleConfirmStageChangeToInReview in Hs. rewrite Hp in Hs.
    cbn [optNe String.eqb Ascii.eqb Bool.eqb negb] in Hs.
    destruct (areAllInReviewGateQuestionsComplete (gateAnswers (page w)))
      eqn:Hc; cbn [negb] in Hs; [|contradiction].
    destruct (lead (page w)) as [l|]; [|contradiction].
    exists InReview, l. repeat split. exact Hc. }
  destruct (String.eqb_spec s "Quote Submitted") as [->|N3]; [|contradiction].
  unfold handleConfirmStageChangeToQuoteSubmitted in Hs. rewrite Hp in Hs.
  cbn [optNe String.eqb Ascii.eqb Bool.eqb negb] in Hs.
  destruct (areAllQuoteSubmittedGateQuestionsComplete (gateAnswers (page w)))
    eqn:Hc; cbn [negb] in Hs; [|contradiction].
  destruct (lead (page w)) as [l|]; [|contradiction].
  exists QuoteSubmitted, l. repeat split. exact Hc.
Qed.

Lemma quoteEntries_stage_changed (pre : list DealAction) :
  Forall (fun a => action_type a = Some "Stage changed") pre ->
  quoteEntries pre = [].
Proof.
  induction 1 as [|a pre Ha F IH]; [reflexivity|].
  unfold quoteEntries in *. cbn [filter]. rewrite Ha. cbn. exact IH.
Qed.

(** X17.  Every confirmed Quote Submitted gate whose audit entry the store
    accepts raises the number of quote submissions on the timeline by exactly
    one, so that consecutive submissions get consecutive version numbers. *)
Theorem quote_submission_count_goes_up_by_one (w : World) (l : Deal)
  (v c : Q) :
  lead (page w) = Some l ->
  pendingStage (page w) = Some "Quote Submitted" ->
  areAllQuoteSubmittedGateQuestionsComplete (gateAnswers (page w)) = true ->
  parseFloat (ansOf (gateAnswers (page w)) "tender_value") = Some v ->
  parseFloat (ansOf (gateAnswers (page w)) "tender_cost") = Some c ->
  ~ (v == 0)%Q ->
  (forall t, insertOk env t = true) ->
  getQuoteSubmissionCount
    (actions (page (handleConfirmStageChangeToQuoteSubmitted env w)))
  = S (getQuoteSubmissionCount (actions (page w))).
Proof.
  intros Hl Hp Hc Ev Ec Hz Hins.
  unfold handleConfirmStageChangeToQuoteSubmitted.
  rewrite Hp, Hl, Hc, Ev, Ec. cbn [optNe String.eqb Ascii.eqb Bool.eqb negb].
  destruct (Qeq_bool v 0) eqn:Ez; [apply Qeq_bool_iff in Ez; contradiction|].
  rewrite Hins. cbn [onPage closeGate page actions].
  match goal with
  | |- context [updateLeadField env (Some l) FStage ?x ?w2] =>
      destruct (actions_updateLeadField env l FStage x w2) as (pre & A & _ & F)
  end.
  rewrite A.
  change getQuoteSubmissionCount
    with (fun acts => List.length (quoteEntries acts)).
  cbv beta. unfold quoteEntries. rewrite filter_app.
  fold (quoteEntries pre). rewrite (quoteEntries_stage_changed pre F).
  cbn [app]. destruct (tenderUpdateOk env); reflexivity.
Qed.

End Gates.

(** ** The deal detail page: finance helpers, month input and action form *)

Lemma lookup_mapSet_same (k v : string) (g : list (string * string)) :
  lookup k (mapSet String.eqb k v g) = Some v.
Proof.
  rewrite lookup_mapGet. apply (mapGet_mapSet_same String.eqb String.eqb_eq).
Qed.

Lemma lookup_mapSet_other (k k' v : string) (g : list (string * string)) :
  k <> k' -> lookup k (mapSet String.eqb k' v g) = lookup k g.
Proof.
  intros N. rewrite !lookup_mapGet.
  now apply (mapGet_mapSet_other String.eqb String.eqb_eq).
Qed.

Lemma quote_gate_needs_margins (g : list (string * string)) :
  lookup "tender_margin" g = Some "" \/ lookup "tender_margin_percent" g = Some "" ->
  DealDetail.areAllQuoteSubmittedGateQuestionsComplete g = false.
Proof.
  intros Hb. unfold DealDetail.areAllQuoteSubmittedGateQuestionsComplete.
  cbv zeta.
  assert (Hm : truthy (DealDetail.ansOf g "tender_margin") = false
               \/ truthy (DealDetail.ansOf g "tender_margin_percent") = false).
  { destruct Hb as [Hb|Hb]; [left|right]; unfold DealDetail.ansOf;
      rewrite Hb; reflexivity. }
  destruct (truthy (DealDetail.ansOf g "quote_reference")); cbn [negb];
    [|reflexivity].
  destruct (truthy (DealDetail.ansOf g "quote_date")); cbn [negb];
    [|reflexivity].
  destruct (truthy (DealDetail.ansOf g "quote_submission_link")); cbn [negb];
    [|reflexivity].
  destruct (truthy (DealDetail.ansOf g "quote_drawings_link")); cbn [negb];
    [|reflexivity].
  destruct (truthy (DealDetail.ansOf g "tender_value")); cbn [negb];
    [|reflexivity].
  destruct (truthy (DealDetail.ansOf g "tender_cost")); cbn [negb];
    [|reflexivity].
  destruct (truthy (DealDetail.ansOf g "tender_margin")) eqn:E1; cbn [negb];
    [|reflexivity].
  destruct (truthy (DealDetail.ansOf g "tender_margin_percent")) eqn:E2;
    cbn [negb]; [|reflexivity].
  destruct Hm; congruence.
Qed.

Section FinanceHelpers.
Context `{Builtins}.
Import DealDetail DealDetailMore Spec Inv.
Variable env : Env.

(** X18.  Typing a tender value or cost into the quoting gate derives the
    two margin answers from the pair: when both parse (an empty field reads
    as 0) and the value is not 0, the margin answers are value - cost to two
    decimals and (value - cost) / value * 100 to one decimal; otherwise both
    are blanked, and with a blank margin the gate cannot be confirmed. *)
Theorem gate_finance_follows_value_and_cost (field : FinanceField)
  (value : string) (prev : list (string * string)) :
  let next := mapSet String.eqb (financeKey field) value prev in
  let after := updateGateFinance field value prev in
  lookup (financeKey field) after = Some value
  /\ (forall v c,
         parseFloat (orZero (lookup "tender_value" next)) = Some v ->
         parseFloat (orZero (lookup "tender_cost" next)) = Some c ->
         ~ (v == 0)%Q ->
         lookup "tender_margin" after = Some (toFixed (v - c) 2)
         /\ lookup "tender_margin_percent" after
            = Some (toFixed ((v - c) / v * 100) 1))
  /\ (parseFloat (orZero (lookup "tender_value" next)) = None
      \/ parseFloat (orZero (lookup "tender_cost" next)) = None
      \/ (exists v, parseFloat (orZero (lookup "tender_value" next)) = Some v
                    /\ (v == 0)%Q) ->
      lookup "tender_margin" after = Some ""
      /\ lookup "tender_margin_percent" after = Some ""
      /\ areAllQuoteSubmittedGateQuestionsComplete after = false).
Proof.
  cbv zeta. unfold updateGateFinance. cbv zeta.
  set (next := mapSet String.eqb (financeKey field) value prev).
  assert (Hkeep : forall a b,
             lookup (financeKey field)
               (mapSet String.eqb "tender_margin_percent" a
                  (mapSet String.eqb "tender_margin" b next)) = Some value).
  { intros a b. rewrite !lookup_mapSet_other by (destruct field; discriminate).
    apply lookup_mapSet_same. }
  assert (Hm : forall a b,
             lookup "tender_margin"
               (mapSet String.eqb "tender_margin_percent" a
                  (mapSet String.eqb "tender_margin" b next)) = Some b).
  { intros a b. rewrite lookup_mapSet_other by discriminate.
    apply lookup_mapSet_same. }
  assert (Hp : forall a b,
             lookup "tender_margin_percent"
               (mapSet String.eqb "tender_margin_percent" a
                  (mapSet String.eqb "tender_margin" b next)) = Some a).
  { intros a b. apply lookup_mapSet_same. }
  destruct (parseFloat (orZero (lookup "tender_value" next))) as [v|] eqn:Ev;
    [destruct (parseFloat (orZero (lookup "tender_cost" next))) as [c|] eqn:Ec;
     [destruct (Qeq_bool v 0) eqn:Ez; cbn [negb]|]|].
  - apply Qeq_bool_iff in Ez. split; [apply Hkeep|]. split.
    + intros v' c' [= <-] _ Hz. contradiction.
    + intros _. rewrite Hm, Hp. repeat split.
      apply quote_gate_needs_margins. left. apply Hm.
  - assert (Hz : ~ (v == 0)%Q)
      by (rewrite <- Qeq_bool_iff; congruence).
    split; [apply Hkeep|]. split.
    + intros v' c' [= <-] [= <-] _. rewrite Hm, Hp. split; reflexivity.
    + intros [Hb|[Hb|(v' & Hb & Hv)]]; try discriminate.
      injection Hb as <-. contradiction.
  - split; [apply Hkeep|]. split.
    + intros v' c' _ Hc. discriminate Hc.
    + intros _. rewrite Hm, Hp. repeat split.
      apply quote_gate_needs_margins. left. apply Hm.
  - split; [apply Hkeep|]. split.
    + intros v' c' Hc. discriminate Hc.
    + intros _. rewrite Hm, Hp. repeat split.
      apply quote_gate_needs_margins. left. apply Hm.
Qed.

(** X19.  Saving the tender summary derives the same four figures as the
    quoting gate: when value and cost of the draft parse and the value is
    not 0, the deal's rows and the deal shown both get value, cost,
    value - cost and (value - cost) / value * 100 as soon as the store
    accepts them; when they do not parse, or the value is 0, or the store
    refuses, nothing is written and the block shows an error. *)
Theorem tender_summary_save_derives_finance (w : World) (tp : TenderPanel)
  (l : Deal) :
  lead (page w) = Some l ->
  let draft := tenderDraft (page w) in
  let pv := parseFloat (orZero (Some (draft_value draft))) in
  let pc := parseFloat (orZero (Some (draft_cost draft))) in
  let r := handleSaveTenderSummary env (w, tp) in
  (pv = None \/ pc = None \/ (exists v, pv = Some v /\ (v == 0)%Q) ->
   fst r = w /\ tenderError (snd r) = Some msgNumeric
   /\ tenderSuccess (snd r) = None)
  /\ (forall v c, pv = Some v -> pc = Some c -> ~ (v == 0)%Q ->
      (tenderUpdateOk env = false ->
       fst r = w
       /\ tenderError (snd r) = Some "Could not save tender summary.")
      /\ (tenderUpdateOk env = true ->
          map tenderOf (deals (store (fst r)))
          = map (fun x => if (id x =? id l)%string
                          then (Some v, Some c, Some (v - c)%Q,
                                Some ((v - c) / v * 100)%Q)
                          else tenderOf x)
              (deals (store w))
          /\ option_map tenderOf (lead (page (fst r)))
             = Some (Some v, Some c, Some (v - c)%Q,
                     Some ((v - c) / v * 100)%Q)
          /\ tenderError (snd r) = None
          /\ tenderSuccess (snd r) = Some "Tender summary saved.")).
Proof.
  intros Hl. cbv zeta. unfold handleSaveTenderSummary. cbn [fst snd].
  rewrite Hl. split.
  - intros Hbad.
    destruct (parseFloat (orZero (Some (draft_value (tenderDraft (page w))))))
      as [v|] eqn:Ev; [|repeat split].
    destruct (parseFloat (orZero (Some (draft_cost (tenderDraft (page w))))))
      as [c|] eqn:Ec; [|repeat split].
    destruct Hbad as [Hb|[Hb|(v' & Hb & Hz)]]; try discriminate.
    injection Hb as <-. apply Qeq_bool_iff in Hz. rewrite Hz. repeat split.
  - intros v c Ev Ec Hz. rewrite Ev, Ec.
    destruct (Qeq_bool v 0) eqn:Ez; [apply Qeq_bool_iff in Ez; contradiction|].
    split; intros Hok; rewrite Hok; cbn [fst snd]; [repeat split|].
    split; [|repeat split].
    cbn [store updateRows deals]. rewrite map_map. apply map_ext.
    intros x. destruct (id x =? id l)%string; reflexivity.
Qed.

(** X20.  The estimated start month makes a round trip: picking a month
    "YYYY-MM" stores the first day of that month in the deal's rows, and the
    month input reads the same month back from the deal shown; clearing the
    input stores null and the input shows nothing. *)
Theorem estimated_start_month_round_trip (monthVal : string) (w : World)
  (l : Deal) :
  lead (page w) = Some l ->
  updateOk env FEstimatedStartDate = true ->
  String.length monthVal = 7%nat \/ monthVal = "" ->
  let w' := handleEstimatedStartChange env monthVal w in
  option_map (fun d => toMonthInputValue (estimated_start_date d))
    (lead (page w'))
  = Some monthVal
  /\ map (fun r => (id r, estimated_start_date r)) (deals (store w'))
     = map (fun r => if (id r =? id l)%string
                     then (id r, if truthy monthVal
                                 then Some (monthVal ++ "-01") else None)
                     else (id r, estimated_start_date r))
         (deals (store w)).
Proof.
  intros Hl Hok Hm. cbv zeta.
  unfold handleEstimatedStartChange, saveEstimatedStartMonth. cbv zeta.
  rewrite Hl. split.
  - unfold updateLeadField, updateLeadFieldEnd, updateLeadFieldBegin.
    rewrite Hok. cbn [onPage page setSavingField setLead setError lead
                       option_map setField estimated_start_date].
    unfold toMonthInputValue.
    destruct Hm as [Hm| ->]; [|reflexivity].
    destruct (month_round_trip monthVal Hm) as [T S]. rewrite T.
    unfold truthyOpt. cbn [orEmpty].
    assert (T' : truthy (monthVal ++ "-01") = true).
    { destruct monthVal; [discriminate T|reflexivity]. }
    now rewrite T', S.
  - rewrite deals_updateLeadField, Hok. cbn [onPage store].
    rewrite map_map. apply map_ext. intros r.
    destruct (id r =? id l)%string; reflexivity.
Qed.

(** X21.  The action form never adds an empty action: when the type, the
    notes and the link are all blank nothing is written and the form asks
    for input; otherwise, if the store accepts it, exactly one entry with the
    trimmed type (null when blank) goes on top of the timeline and at the
    end of the table, the form is cleared, and neither the deal's rows nor
    the deal shown change. *)
Theorem action_form_never_adds_an_empty_action (w : World) (ap : ActionPanel)
  (l : Deal) :
  lead (page w) = Some l ->
  let ty := trim (form_action_type (actionForm ap)) in
  let r := handleAddAction env (w, ap) in
  deals (store (fst r)) = deals (store w)
  /\ lead (page (fst r)) = lead (page w)
  /\ (ty = "" -> trim (form_notes (actionForm ap)) = "" ->
      trim (form_file_url (actionForm ap)) = "" ->
      fst r = w /\ actionError (snd r) <> None)
  /\ ((forall t, insertOk env t = true) ->
      actionError (snd r) = None ->
      exists notes,
        actions (page (fst r))
        = mkAction (id l) (orNull ty) notes None :: actions (page w)
        /\ deal_actions (store (fst r))
           = (deal_actions (store w) ++ [mkAction (id l) (orNull ty) notes None])%list
        /\ (orNull ty <> None \/ notes <> None)
        /\ actionForm (snd r) = mkForm "" "" "").
Proof.
  intros Hl. cbv zeta. unfold handleAddAction. cbn [fst snd]. rewrite Hl.
  set (ty := trim (form_action_type (actionForm ap))).
  set (tn := trim (form_notes (actionForm ap))).
  set (tu := trim (form_file_url (actionForm ap))).
  set (cn := if truthy tn && truthy tu then tn ++ nl ++ tu
             else if truthy tn then tn else tu).
  destruct (negb (truthy ty) && negb (truthy cn)) eqn:Eb; cbn [fst snd].
  - split; [reflexivity|]. split; [first [exact Hl|reflexivity]|]. split.
    + intros _ _ _. split; [reflexivity|discriminate].
    + intros _ D. discriminate D.
  - destruct (insertOk env (action_type (mkAction (id l) (orNull ty)
                                           (orNull cn) None))) eqn:Hi;
      cbn [fst snd].
    + split; [reflexivity|]. split; [first [exact Hl|reflexivity]|]. split.
      * intros E1 E2 E3. exfalso. unfold cn in Eb. rewrite E1, E2, E3 in Eb.
        discriminate Eb.
      * intros _ _. exists (orNull cn). repeat split.
        unfold orNull. destruct (truthy ty); [left; discriminate|].
        destruct (truthy cn); [right; discriminate|discriminate Eb].
    + split; [reflexivity|]. split; [first [exact Hl|reflexivity]|]. split.
      * intros E1 E2 E3. exfalso. unfold cn in Eb. rewrite E1, E2, E3 in Eb.
        discriminate Eb.
      * intros Hall. rewrite Hall in Hi. discriminate Hi.
Qed.

End FinanceHelpers.


(** ** The dashboard's stage tiles *)

Section StageTiles.
Context `{Builtins}.
Import Dashboard DashboardKpi Inv.









End StageTiles.


(** ** The salesperson breakdown *)

Section SortedBy.
Context {A : Type} (le : A -> A -> bool) (R : A -> A -> Prop).
Hypothesis le_R : forall x y, le x y = true -> R x y.
Hypothesis nle_R : forall x y, le x y = false -> R y x.
Hypothesis R_trans : forall x y z, R x y -> R y z -> R x z.

Lemma insertSorted_sorted (x : A) (l : list A) :
  StronglySorted R l -> StronglySorted R (insertSorted le x l).
Proof.
  induction 1 as [|y l S IH F]; simpl.
  - constructor; constructor.
  - destruct (le x y) eqn:E.
    + constructor; [constructor; assumption|].
      constructor; [now apply le_R|].
      eapply Forall_impl; [|exact F]. intros z Rz.
      eapply R_trans; [apply le_R; exact E|exact Rz].
    + constructor; [exact IH|].
      apply (Permutation_Forall (Permutation_sym (insertSorted_perm le x l))).
      constructor; [now apply nle_R|exact F].
Qed.

Lemma sortBy_sorted (l : list A) : StronglySorted R (sortBy le l).
Proof.
  induction l as [|x l IH]; simpl; [constructor|].
  now apply insertSorted_sorted.
Qed.

End SortedBy.

Section KeyedMaps.
Context {V : Type} (name : V -> string).

Lemma named_keys (m : list (string * V)) :
  Forall (fun kv => name (snd kv) = fst kv) m ->
  map name (map snd m) = map fst m.
Proof.
  induction 1 as [|[k v] m Hk F IH]; simpl; [reflexivity|].
  simpl in Hk. now rewrite Hk, IH.
Qed.

Lemma sumZ_mapSet_string (f : V -> Z) (k : string) (v : V)
  (m : list (string * V)) :
  Inv.sumZ (map f (map snd (mapSet String.eqb k v m)))
  = Inv.sumZ (map f (map snd m)) + f v
    - match mapGet String.eqb k m with
      | Some o => f o
      | None => 0
      end.
Proof.
  induction m as [|[k' v'] m IH]; simpl; [lia|].
  destruct (String.eqb k k'); simpl; [lia|]. rewrite IH. lia.
Qed.

End KeyedMaps.

Lemma sumZ_perm (l l' : list Z) :
  Permutation l l' -> Inv.sumZ l = Inv.sumZ l'.
Proof.
  induction 1; simpl; lia.
Qed.

Section SalespersonTable.
Context `{Builtins}.
Import Dashboard Forecast ForecastMore Inv.

(** [salespersonStep] is the grouped loop on the name of the deal. *)
Lemma sales_fold_grouped (l : list Deal) (m : list (string * SalesRow)) :
  fold_left salespersonStep l m
  = fold_left (groupStep (fun d => Some (salesName d)) salesFresh salesAdd)
      l m.
Proof.
  revert m. induction l as [|d l IH]; intros m; [reflexivity|].
  cbn [fold_left]. rewrite (IH (salespersonStep m d)). reflexivity.
Qed.

Lemma sales_group (k : string) (l : list Deal) :
  groupAt (fun d => Some (salesName d)) k l
  = filter (fun d => (salesName d =? k)%string) l.
Proof. reflexivity. Qed.

Lemma salesAdd_fold (k : string) (g : list Deal) (v : SalesRow) :
  sales_name (fold_left (salesAdd k) g v) = sales_name v
  /\ sales_deals (fold_left (salesAdd k) g v)
     = sales_deals v + Z.of_nat (List.length g)
  /\ sales_total (fold_left (salesAdd k) g v)
     = fold_left (fun s d => (s + valueOf d)%Q) g (sales_total v)
  /\ sales_won (fold_left (salesAdd k) g v)
     = fold_left (fun s d => if isWon d then (s + valueOf d)%Q else s) g
         (sales_won v)
  /\ sales_expected (fold_left (salesAdd k) g v)
     = fold_left
         (fun s d =>
            nanPlus s (numTimes (valueOf d) (Forecast.getDealWeight d)))
         g (sales_expected v).
Proof.
  revert v. induction g as [|d g IH]; intros v.
  - cbn [fold_left List.length Z.of_nat]. repeat split. lia.
  - cbn [fold_left]. destruct (IH (salesAdd k v d)) as (N & C & T & W & E).
    rewrite N, C, T, W, E. cbn [salesAdd sales_name sales_deals List.length].
    repeat split. lia.
Qed.

Lemma sales_fold_deals (l : list Deal) (m : list (string * SalesRow)) :
  sumZ (map sales_deals (map snd (fold_left salespersonStep l m)))
  = sumZ (map sales_deals (map snd m)) + Z.of_nat (List.length l).
Proof.
  revert m. induction l as [|d l IH]; intros m; [simpl; lia|].
  cbn [fold_left List.length]. rewrite IH.
  unfold salespersonStep. cbv zeta. rewrite sumZ_mapSet_string.
  cbn [sales_deals].
  match goal with
  | |- context [mapGet String.eqb ?k m] => destruct (mapGet String.eqb k m)
  end; cbn [sales_deals]; lia.
Qed.

(** X23.  The salesperson breakdown has one row per name, and a row holds
    exactly the filtered deals of that name (the trimmed salesperson, or
    Unassigned): every deal is in the row of its name, no row is empty, the
    deal counts of the rows add up to the number of deals, and the count,
    the total, the won and the expected figure of a row are the number of
    its deals and the running sums over them in the order of the list.  The
    rows come largest total first. *)
Theorem salesperson_rows_by_name (filteredDeals : list Deal) :
  let rows := salespersonMap filteredDeals in
  NoDup (map sales_name rows)
  /\ sumZ (map sales_deals rows) = Z.of_nat (List.length filteredDeals)
  /\ (forall d, In d filteredDeals ->
                exists r, In r rows /\ sales_name r = salesName d)
  /\ (forall r,
         In r rows ->
         let g :=
           filter (fun d => (salesName d =? sales_name r)%string)
             filteredDeals in
         g <> []
         /\ sales_deals r = Z.of_nat (List.length g)
         /\ sales_total r = runningTotal g
         /\ sales_won r = runningWon g
         /\ sales_expected r = runningExpected g)
  /\ StronglySorted (fun a b => (sales_total b <= sales_total a)%Q) rows.
Proof.
  cbv zeta. unfold salespersonMap, mapValues.
  set (le := fun a b => Qle_bool (sales_total b - sales_total a) 0).
  pose proof (sales_fold_deals filteredDeals []) as Cn.
  rewrite sales_fold_grouped in *.
  set (m := fold_left
              (groupStep (fun d => Some (salesName d)) salesFresh salesAdd)
              filteredDeals []) in *.
  pose proof (sortBy_perm le (map snd m)) as P.
  assert (Hrow : forall k r,
             In (k, r) m ->
             sales_name r = k
             /\ filter (fun d => (salesName d =? k)%string) filteredDeals <> []
             /\ sales_deals r
                = Z.of_nat
                    (List.length
                       (filter (fun d => (salesName d =? k)%string)
                          filteredDeals))
             /\ sales_total r
                = runningTotal
                    (filter (fun d => (salesName d =? k)%string) filteredDeals)
             /\ sales_won r
                = runningWon
                    (filter (fun d => (salesName d =? k)%string) filteredDeals)
             /\ sales_expected r
                = runningExpected
                    (filter (fun d => (salesName d =? k)%string)
                       filteredDeals)).
  { intros k r I. apply group_fold_rows in I. rewrite sales_group in I.
    destruct I as [N ->].
    destruct (salesAdd_fold k
                (filter (fun d => (salesName d =? k)%string) filteredDeals)
                (salesFresh k)) as (En & Ec & Et & Ew & Ee).
    split; [exact En|]. split; [exact N|]. split; [rewrite Ec; simpl; lia|].
    split; [exact Et|]. split; [exact Ew|exact Ee]. }
  assert (F : Forall (fun kv => sales_name (snd kv) = fst kv) m).
  { apply Forall_forall. intros [k r] I. exact (proj1 (Hrow k r I)). }
  split; [|split; [|split; [|split]]].
  - apply (Permutation_NoDup
             (Permutation_map sales_name (Permutation_sym P))).
    rewrite (named_keys sales_name m F).
    apply group_fold_keys_nodup. constructor.
  - transitivity (sumZ (map sales_deals (map snd m))).
    + apply sumZ_perm. now apply Permutation_map.
    + rewrite Cn. simpl. lia.
  - intros d I.
    destruct (group_fold_member (fun d => Some (salesName d)) salesFresh
                salesAdd filteredDeals d (salesName d) I eq_refl) as [r Ir].
    exists r. split; [|exact (proj1 (Hrow _ r Ir))].
    apply In_sortBy. change r with (snd (salesName d, r)). now apply in_map.
  - intros r I. apply In_sortBy in I. apply in_map_iff in I.
    destruct I as ([k r'] & E & I). simpl in E. subst r'.
    destruct (Hrow k r I) as (En & Hr). rewrite En. exact Hr.
  - apply (sortBy_sorted le).
    + intros x y E. unfold le in E. apply Qle_bool_iff in E. lra.
    + intros x y E. unfold le in E.
      destruct (Qlt_le_dec 0 (sales_total y - sales_total x)) as [L|L];
        [lra|]. apply Qle_bool_iff in L. congruence.
    + intros x y z A B. lra.
Qed.

End SalespersonTable.

(** ** The tender draft and the quoting gate agree *)

Section DraftAndGate.
Context `{Builtins}.
Import DealDetail DealDetailMore.

(** X24.  The tender summary draft and the quoting gate derive the same
    figures: when the gate answers hold the value and cost of the draft,
    typing the same text into the same field leaves the two with the same
    value, cost, margin and margin percent. *)
Theorem draft_and_gate_derive_the_same_margins (field : FinanceField)
  (value : string) (prev : TenderDraft) (g : list (string * string)) :
  lookup "tender_value" g = Some (draft_value prev) ->
  lookup "tender_cost" g = Some (draft_cost prev) ->
  let d := handleTenderDraftChange field value prev in
  let g' := updateGateFinance field value g in
  lookup "tender_value" g' = Some (draft_value d)
  /\ lookup "tender_cost" g' = Some (draft_cost d)
  /\ lookup "tender_margin" g' = Some (draft_margin d)
  /\ lookup "tender_margin_percent" g' = Some (draft_margin_percent d).
Proof.
  intros Hv Hc. cbv zeta.
  unfold handleTenderDraftChange, recomputeTenderDraft, updateGateFinance.
  cbv zeta.
  assert (Nv : lookup "tender_value"
                 (mapSet String.eqb (financeKey field) value g)
               = Some (match field with
                       | FTenderValue => value
                       | FTenderCost => draft_value prev
                       end)).
  { destruct field; cbn [financeKey].
    - apply lookup_mapSet_same.
    - rewrite lookup_mapSet_other by discriminate. exact Hv. }
  assert (Nc : lookup "tender_cost"
                 (mapSet String.eqb (financeKey field) value g)
               = Some (match field with
                       | FTenderCost => value
                       | FTenderValue => draft_cost prev
                       end)).
  { destruct field; cbn [financeKey].
    - rewrite lookup_mapSet_other by discriminate. exact Hc.
    - apply lookup_mapSet_same. }
  rewrite Nv, Nc.
  destruct (parseFloat (orZero (Some _))) as [v|];
    [destruct (parseFloat (orZero (Some _))) as [c|];
     [destruct (negb (Qeq_bool v 0))|]|];
    cbn [draft_value draft_cost draft_margin draft_margin_percent];
    rewrite ?lookup_mapSet_same;
    rewrite ?(lookup_mapSet_other "tender_margin" "tender_margin_percent")
      by discriminate;
    rewrite ?(lookup_mapSet_other "tender_value" "tender_margin_percent")
      by discriminate;
    rewrite ?(lookup_mapSet_other "tender_value" "tender_margin")
      by discriminate;
    rewrite ?(lookup_mapSet_other "tender_cost" "tender_margin_percent")
      by discriminate;
    rewrite ?(lookup_mapSet_other "tender_cost" "tender_margin")
      by discriminate;
    rewrite ?lookup_mapSet_same, ?Nv, ?Nc; repeat split; reflexivity.
Qed.

End DraftAndGate.

(** ** The further properties on sample data *)

Section MoreSamples.
Import Dashboard DealDetail DealDetailMore Spec Inv.

Lemma collapse_one_per_project_witness :
  In tenderQuoted
    (@Dashboard.collapseDealsByAp stdBuiltins [tenderQuoted; tenderLost]).
Proof.
  destruct (@collapse_one_per_project stdBuiltins [tenderQuoted; tenderLost])
    as (_ & _ & _ & Hu).
  apply Hu.
  - left. reflexivity.
  - intros x [<-|[<-|[]]] E; [reflexivity|vm_compute in E; discriminate E].
Defined.

Lemma collapse_keeps_a_best_deal_witness :
  exists r,
    In r (@Dashboard.collapseDealsByAp stdBuiltins
            [tenderQualified; tenderQuoted])
    /\ Dashboard.apKey r = Dashboard.apKey tenderQualified
    /\ ~ @better stdBuiltins tenderQualified r.
Proof.
  apply (@collapse_keeps_a_best_deal stdBuiltins
           [tenderQualified; tenderQuoted]).
  - intros x [<-|[<-|[]]]; intros D; discriminate D.
  - intros x [<-|[<-|[]]];
      [apply (ownKeys_sample _ "B")|apply (ownKeys_sample _ "A")];
      reflexivity.
  - left. reflexivity.
Defined.

Lemma financial_year_filter_agrees_with_label_witness :
  DashboardMore.isInFinancialYear (mkDate 1734220800000 2024 11)
    (Some (inject_Z 2025)) = true.
Proof.
  destruct (financial_year_filter_agrees_with_label
              (mkDate 1734220800000 2024 11) 2025) as (Hi & _).
  - simpl. lia.
  - apply Hi. reflexivity.
Defined.

Lemma pipeline_scale_covers_every_bar_witness :
  Forall (fun b =>
            (Dashboard.probAValue b
             <= @Dashboard.maxPipelineValue stdBuiltins [tenderStarting])%Q)
    (@Dashboard.pipelineBuckets stdBuiltins [tenderStarting]).
Proof.
  apply Forall_forall. intros b Hb.
  destruct (@pipeline_scale_covers_every_bar stdBuiltins [tenderStarting])
    as (_ & Hall).
  exact (proj1 (proj2 (Hall b Hb))).
Defined.

Lemma headline_figures_are_ordered_witness :
  (0 <= @ForecastMore.wonTender stdBuiltins [tenderQuoted; tenderQualified])%Q
  /\ exists e,
       @ForecastMore.expectedTender stdBuiltins [tenderQuoted; tenderQualified]
       = Some e
       /\ (@ForecastMore.wonTender stdBuiltins [tenderQuoted; tenderQualified]
           <= e)%Q
       /\ (e <= @ForecastMore.totalTender stdBuiltins
                  [tenderQuoted; tenderQualified])%Q.
Proof.
  destruct (@headline_figures_are_ordered stdBuiltins
              [tenderQuoted; tenderQualified]) as (A & B & _).
  - intros d [<-|[<-|[]]]; vm_compute; intros D; discriminate D.
  - intros d [<-|[<-|[]]] p [= <-]; reflexivity.
  - split; assumption.
Defined.

Lemma forecast_buckets_by_month_witness :
  exists agg,
    In ("2025-03", agg)
      (@Forecast.forecastOfCollapsed stdBuiltins "" "" false 0
         [tenderStarting]).
Proof.
  destruct (@forecast_buckets_by_month stdBuiltins "" "" false 0
              [tenderStarting]) as (_ & Hin & _).
  apply (Hin tenderStarting); [left|]; reflexivity.
Defined.

Lemma salesperson_rows_by_name_witness :
  exists r,
    In r (@ForecastMore.salespersonMap stdBuiltins
            [tenderQuoted; tenderQualified])
    /\ ForecastMore.sales_name r = "Unassigned".
Proof.
  destruct (@salesperson_rows_by_name stdBuiltins
              [tenderQuoted; tenderQualified]) as (_ & _ & Hin & _).
  apply (Hin tenderQuoted). left. reflexivity.
Defined.

Lemma month_range_is_an_interval_witness :
  @Forecast.isDateInMonthRange stdBuiltins (mkDate 1740787200000 2025 2)
    "2025-01" "2025-06" = true.
Proof.
  apply (proj2 (@month_range_is_an_interval stdBuiltins
                  (mkDate 1740787200000 2025 2) "2025-01" "2025-06")).
  split; intros q E; vm_compute in E; injection E as <-; vm_compute;
    intros D; discriminate D.
Defined.

Lemma year_over_year_counts_every_enquiry_witness :
  exists y,
    @ForecastMore.yoyData stdBuiltins
      [dealDated "2025-01-10"; dealDated "2024-06-01"] (Some 2025) (Some 2024)
    = Some y
    /\ List.length (ForecastMore.rows y) = 12%nat
    /\ sumZ (map ForecastMore.currentYearCount (ForecastMore.rows y)) = 1.
Proof.
  destruct (@ForecastMore.yoyData stdBuiltins
              [dealDated "2025-01-10"; dealDated "2024-06-01"]
              (Some 2025) (Some 2024)) as [y|] eqn:E;
    [|vm_compute in E; discriminate E].
  exists y. split; [reflexivity|].
  destruct (@year_over_year_counts_every_enquiry stdBuiltins
              [dealDated "2025-01-10"; dealDated "2024-06-01"] 2025 2024 y)
    as (L & C & _).
  - intros d dt [<-|[<-|[]]] P; vm_compute in P; injection P as <-;
      simpl; lia.
  - exact E.
  - split; [exact L|]. rewrite C. reflexivity.
Defined.

Lemma refused_update_is_rolled_back_witness :
  let w := sampleWorld (sampleDeal "Received" None) in
  let w' := updateLeadField refuseUpdates (Some (sampleDeal "Received" None))
              FProbability (Some "B") w in
  store w' = store w
  /\ lead (page w') = lead (page w)
  /\ error (page w') = Some "Could not update probability.".
Proof.
  cbv zeta.
  destruct (refused_update_is_rolled_back refuseUpdates
              (sampleDeal "Received" None) FProbability (Some "B")
              (sampleWorld (sampleDeal "Received" None)) eq_refl eq_refl)
    as (S & _ & L & E & _).
  repeat split; assumption.
Defined.

Lemma audit_entry_only_for_a_stage_change_witness :
  let w := sampleWorld (sampleDeal "Received" None) in
  actions (page (updateLeadField allOk (Some (sampleDeal "Received" None))
                   FStage (Some "Qualified") w))
  = [ mkAction "d1" (Some "Stage changed")
        (Some "Stage changed from Received to Qualified") None ].
Proof.
  cbv zeta.
  destruct (audit_entry_only_for_a_stage_change allOk
              (sampleDeal "Received" None) FStage (Some "Qualified")
              (sampleWorld (sampleDeal "Received" None))) as (_ & Hc).
  destruct Hc as (A & _);
    [reflexivity|intros D; discriminate D|reflexivity|reflexivity|exact A].
Defined.

Lemma terminal_move_clears_stored_probability_witness :
  let l := sampleDeal "Quote Submitted" (Some 100%Q) in
  map (fun r => (id r, stage r, probability r))
    (deals (store (@handleStageClick stdBuiltins allOk Lost (sampleWorld l))))
  = [ ("d1", Some "Lost", None) ].
Proof.
  cbv zeta.
  destruct (@terminal_move_clears_stored_probability stdBuiltins allOk Lost
              (sampleWorld (sampleDeal "Quote Submitted" (Some 100%Q)))
              (sampleDeal "Quote Submitted" (Some 100%Q)) eq_refl
              (or_intror (or_introl eq_refl)) eq_refl eq_refl eq_refl eq_refl)
    as (S & _).
  rewrite S. reflexivity.
Defined.

Lemma qualified_gate_writes_dates_and_stage_witness :
  let l := sampleDeal "Received" None in
  map (fun r => (id r, tender_return_date r, estimated_start_date r, stage r))
    (deals (store (handleConfirmStageChangeToQualified allOk
                     (gateWorld l "Qualified" qualifiedAnswers))))
  = [ ("d1", Some "2025-02-14", Some "2025-03-01", Some "Qualified") ].
Proof.
  cbv zeta.
  destruct (qualified_gate_writes_dates_and_stage allOk
              (gateWorld (sampleDeal "Received" None) "Qualified"
                 qualifiedAnswers)
              (sampleDeal "Received" None) eq_refl eq_refl eq_refl
              (fun _ => eq_refl)) as (S & _).
  rewrite S. reflexivity.
Defined.

Lemma unanswered_gate_never_writes_witness :
  let w := gateWorld (sampleDeal "Received" None) "Qualified"
             qualifiedAnswers in
  exists target l,
    pendingStage (page w) = Some (stageLabel target)
    /\ lead (page w) = Some l
    /\ gateComplete target (gateAnswers (page w)) = true.
Proof.
  cbv zeta.
  apply (@unanswered_gate_never_writes stdBuiltins allOk).
  intros E. apply (f_equal idStages) in E. vm_compute in E. discriminate E.
Defined.

Lemma quote_submission_count_goes_up_by_one_witness :
  let w := quoteGateWorld (sampleDeal "In Review" None)
             (quoteAnswers "1000" "750.50") in
  getQuoteSubmissionCount
    (actions (page (@handleConfirmStageChangeToQuoteSubmitted stdBuiltins
                      allOk w)))
  = 1%nat.
Proof.
  cbv zeta.
  rewrite (@quote_submission_count_goes_up_by_one stdBuiltins allOk
             (quoteGateWorld (sampleDeal "In Review" None)
                (quoteAnswers "1000" "750.50"))
             (sampleDeal "In Review" None) 1000%Q (1501 # 2)%Q
             eq_refl eq_refl eq_refl eq_refl eq_refl
             (fun D => Qeq_bool_neq 1000 0 eq_refl D) (fun _ => eq_refl)).
  reflexivity.
Defined.

Lemma gate_finance_follows_value_and_cost_witness :
  lookup "tender_margin"
    (@updateGateFinance stdBuiltins FTenderValue "1000"
       [("tender_cost", "750.50")])
  = Some (@toFixed stdBuiltins (1000 - (1501 # 2))%Q 2).
Proof.
  destruct (@gate_finance_follows_value_and_cost stdBuiltins FTenderValue
              "1000" [("tender_cost", "750.50")]) as (_ & Hc & _).
  apply (Hc 1000%Q (1501 # 2)%Q);
    [reflexivity|reflexivity|exact (fun D => Qeq_bool_neq 1000 0 eq_refl D)].
Defined.

Lemma tender_summary_save_derives_finance_witness :
  let w := draftWorld (sampleDeal "Quote Submitted" None) "1000" "750.50" in
  tenderSuccess
    (snd (@handleSaveTenderSummary stdBuiltins allOk
            (w, mkPanel false None None)))
  = Some "Tender summary saved.".
Proof.
  cbv zeta.
  destruct (@tender_summary_save_derives_finance stdBuiltins allOk
              (draftWorld (sampleDeal "Quote Submitted" None) "1000" "750.50")
              (mkPanel false None None)
              (sampleDeal "Quote Submitted" None) eq_refl) as (_ & Hc).
  destruct (Hc 1000%Q (1501 # 2)%Q eq_refl eq_refl
              (fun D => Qeq_bool_neq 1000 0 eq_refl D)) as (_ & Hs).
  destruct (Hs eq_refl) as (_ & _ & _ & S). exact S.
Defined.

Lemma estimated_start_month_round_trip_witness :
  option_map (fun d => toMonthInputValue (estimated_start_date d))
    (lead (page (handleEstimatedStartChange allOk "2025-03"
                   (sampleWorld (sampleDeal "Received" None)))))
  = Some "2025-03".
Proof.
  apply (proj1 (estimated_start_month_round_trip allOk "2025-03"
                  (sampleWorld (sampleDeal "Received" None))
                  (sampleDeal "Received" None) eq_refl eq_refl
                  (or_introl eq_refl))).
Defined.

Lemma action_form_never_adds_an_empty_action_witness :
  let w := sampleWorld (sampleDeal "Received" None) in
  fst (handleAddAction allOk (w, mkActionPanel (mkForm " " "" "") None false))
  = w.
Proof.
  cbv zeta.
  destruct (action_form_never_adds_an_empty_action allOk
              (sampleWorld (sampleDeal "Received" None))
              (mkActionPanel (mkForm " " "" "") None false)
              (sampleDeal "Received" None) eq_refl) as (_ & _ & He & _).
  exact (proj1 (He eq_refl eq_refl eq_refl)).
Defined.

Lemma draft_and_gate_derive_the_same_margins_witness :
  lookup "tender_margin"
    (@updateGateFinance stdBuiltins FTenderCost "750.50"
       [("tender_value", "1000"); ("tender_cost", "")])
  = Some (draft_margin
            (@handleTenderDraftChange stdBuiltins FTenderCost "750.50"
               (mkDraft "1000" "" "" ""))).
Proof.
  destruct (@draft_and_gate_derive_the_same_margins stdBuiltins FTenderCost
              "750.50" (mkDraft "1000" "" "" "")
              [("tender_value", "1000"); ("tender_cost", "")]
              eq_refl eq_refl) as (_ & _ & M & _).
  exact M.
Defined.

End MoreSamples.
